(** * create_param_file_json.py: a shallow embedding and its properties

    The program reads a CloudFormation template, cuts out the lines of
    its [Parameters] section, parses them as YAML, asks the operator for
    one value per declared parameter and writes [params.json].

    Python values are embedded as follows.
    - A [str] is a [string]; every character stands for one code point
      below 256.
    - A [float] is a binary64 datum ([Float64.t]).
    - A [dict] is an association list in insertion order; keys are
      strings, as the annotation [Dict[str, Any]] of
      [extract_params_metadata] declares.
    - An exception is a constructor of [exn]; a function that may raise
      returns [exn + A].
    - The console, the keyboard and the file system form the [world]
      that [main] threads through its calls. *)

From Stdlib Require Import ZArith Ascii String List Lia Bool.
From stdpp Require Import gmap strings list.
Import ListNotations.

(** ** Python strings *)

Module PyStr.

Definition LF : ascii := "010"%char.
Definition CR : ascii := "013"%char.

(** [str.isspace] on a single code point below 256. *)
Definition isspace (c : ascii) : bool :=
  let n := nat_of_ascii c in
  ((9 <=? n) && (n <=? 13)) || ((28 <=? n) && (n <=? 32))
  || (n =? 133) || (n =? 160).

(** [s.startswith(p)] *)
Fixpoint startswith (p s : string) : bool :=
  match p, s with
  | EmptyString, _ => true
  | String a p', String b s' => Ascii.eqb a b && startswith p' s'
  | String _ _, EmptyString => false
  end.

(** [sub in s] *)
Fixpoint contains (sub s : string) : bool :=
  startswith sub s ||
  match s with
  | EmptyString => false
  | String _ s' => contains sub s'
  end.

(** [s.endswith(p)] *)
Fixpoint endswith (p s : string) : bool :=
  String.eqb p s ||
  match s with
  | EmptyString => false
  | String _ s' => endswith p s'
  end.

(** Removal of the longest suffix whose characters all satisfy [f]. *)
Fixpoint rstrip_with (f : ascii -> bool) (s : string) : string :=
  match s with
  | EmptyString => EmptyString
  | String c s' =>
      match rstrip_with f s' with
      | EmptyString => if f c then EmptyString else String c EmptyString
      | r => String c r
      end
  end.

(** Removal of the longest prefix whose characters all satisfy [f]. *)
Fixpoint lstrip_with (f : ascii -> bool) (s : string) : string :=
  match s with
  | EmptyString => EmptyString
  | String c s' => if f c then lstrip_with f s' else s
  end.

(** [s.rstrip()] *)
Definition rstrip (s : string) : string := rstrip_with isspace s.

(** [s.rstrip(chars)] for a one-character [chars]. *)
Definition rstrip_char (c : ascii) (s : string) : string :=
  rstrip_with (Ascii.eqb c) s.

(** [s.split(sep)] for a one-character [sep]. *)
Fixpoint split (sep : ascii) (s : string) : list string :=
  match s with
  | EmptyString => [EmptyString]
  | String c s' =>
      if Ascii.eqb c sep then EmptyString :: split sep s'
      else match split sep s' with
           | [] => [String c EmptyString]
           | h :: t => String c h :: t
           end
  end.

(** [sep.join(l)] *)
Definition join (sep : string) (l : list string) : string :=
  String.concat sep l.

(** [s.rfind(c)] for a one-character [c]: [None] stands for [-1]. *)
Fixpoint rfind (c : ascii) (s : string) : option nat :=
  match s with
  | EmptyString => None
  | String a s' =>
      match rfind c s' with
      | Some i => Some (S i)
      | None => if Ascii.eqb a c then Some 0 else None
      end
  end.

(** [s[i:]] *)
Fixpoint drop (i : nat) (s : string) : string :=
  match i, s with
  | S i', String _ s' => drop i' s'
  | _, _ => s
  end.

(** [s[:i]] *)
Fixpoint take (i : nat) (s : string) : string :=
  match i, s with
  | S i', String c s' => String c (take i' s')
  | _, _ => EmptyString
  end.

(** Universal newlines, as a text file opened for reading applies
    them: each of CR LF, CR and LF arrives as LF. *)
Fixpoint translate_newlines (s : string) : string :=
  match s with
  | EmptyString => EmptyString
  | String c s' =>
      if Ascii.eqb c CR then
        match s' with
        | String c' s'' =>
            if Ascii.eqb c' LF then String LF (translate_newlines s'')
            else String LF (translate_newlines s')
        | EmptyString => String LF EmptyString
        end
      else String c (translate_newlines s')
  end.

(** The lines of a text, each with its terminating LF when it has one. *)
Fixpoint splitlines_keep (s : string) : list string :=
  match s with
  | EmptyString => []
  | String c s' =>
      if Ascii.eqb c LF then String c EmptyString :: splitlines_keep s'
      else match splitlines_keep s' with
           | [] => [String c EmptyString]
           | l :: ls => String c l :: ls
           end
  end.

(** A text written line by line: every line gets its LF. *)
Definition text (lines : list string) : string :=
  String.concat EmptyString (map (fun l => l +:+ String LF EmptyString) lines).

End PyStr.

(** ** Section extraction *)

Definition AWS_CLOUDFORMATION_PARAMETERS_SECTION_NAME : string := "Parameters".

Definition AWS_CLOUDFORMATION_SECTIONS_LIST : list string :=
  [ "AWSTemplateFormatVersion"; "Description"; "Metadata"; "Parameters";
    "Rules"; "Mappings"; "Conditions"; "Transform"; "Resources"; "Outputs" ].

(** The [for section in ...] loop of [is_not_aws_cloudformation_sections]:
    [False] at the first label that occurs in the line and equals the
    line without its trailing white space and colons, [True] when the
    labels are exhausted. *)
Fixpoint is_not_section_among (sections : list string) (line : string) : bool :=
  match sections with
  | [] => true
  | section :: rest =>
      if PyStr.contains section line
         && String.eqb section (PyStr.rstrip_char ":" (PyStr.rstrip line))
      then false
      else is_not_section_among rest line
  end.

Definition is_not_aws_cloudformation_sections (line : string) : bool :=
  is_not_section_among AWS_CLOUDFORMATION_SECTIONS_LIST line.

(** The inner loop of [get_params_section]: the lines are appended until
    the first one that is a section label, where the loop breaks. *)
Fixpoint collect_param_lines (lines : list string) : list string :=
  match lines with
  | [] => []
  | param_line :: rest =>
      if is_not_aws_cloudformation_sections param_line
      then param_line :: collect_param_lines rest
      else []
  end.

(** The outer loop: at the first line that contains the section name the
    inner loop runs over [yaml_content_lines[index + 1:]] and the outer
    loop breaks. *)
Fixpoint get_params_section (yaml_content_lines : list string) : list string :=
  match yaml_content_lines with
  | [] => []
  | line :: rest =>
      if PyStr.contains AWS_CLOUDFORMATION_PARAMETERS_SECTION_NAME line
      then collect_param_lines rest
      else get_params_section rest
  end.

(** ** Floats *)

Module Float64.
Local Open Scope Z_scope.

(** A binary64 datum.  [Fin neg m e] is the number [m * 2^e], negated
    when [neg]; the zeros are [Fin _ 0 (-1074)]. *)
Inductive t :=
| Nan
| Inf (neg : bool)
| Fin (neg : bool) (m e : Z).

Definition emin : Z := -1074.
Definition emax : Z := 971.
Definition prec : Z := 53.

(** The data that a binary64 can hold. *)
Definition canonical (x : t) : bool :=
  match x with
  | Nan | Inf _ => true
  | Fin _ m e =>
      (0 <=? m) && (m <? 2 ^ prec) && (emin <=? e) && (e <=? emax)
      && ((2 ^ (prec - 1) <=? m) || (e =? emin))
  end.

(** [n / d] divided by [2^e], as a fraction. *)
Definition scaled (n d e : Z) : Z * Z :=
  if 0 <=? e then (n, d * 2 ^ e) else (n * 2 ^ (- e), d).

(** The integer nearest to [n / d], ties to even. *)
Definition div_half_even (n d : Z) : Z :=
  let q := n / d in
  let r := n mod d in
  if 2 * r <? d then q
  else if d <? 2 * r then q + 1
  else if Z.even q then q else q + 1.

(** Whether [2^l <= n / d]. *)
Definition ge_pow2 (n d l : Z) : bool :=
  let '(n', d') := scaled n d l in d' <=? n'.

(** The [l] with [2^l <= n / d < 2^(l+1)] ([0 < n], [0 < d]): the
    difference of the two logarithms, or one less. *)
Definition ilog2 (n d : Z) : Z :=
  let a := Z.log2 n - Z.log2 d in
  if ge_pow2 n d a then a else a - 1.

(** The binary64 nearest to [n / d] ([0 <= n], [0 < d]), ties to even,
    with overflow to infinity. *)
Definition round (neg : bool) (n d : Z) : t :=
  if n =? 0 then Fin neg 0 emin
  else
    let e := Z.max (ilog2 n d - (prec - 1)) emin in
    let '(n', d') := scaled n d e in
    let m := div_half_even n' d' in
    let '(m, e) := if m =? 2 ^ prec then (2 ^ (prec - 1), e + 1) else (m, e) in
    if emax <? e then Inf neg else Fin neg m e.

(** Python's [==] on floats. *)
Definition eqb (x y : t) : bool :=
  match x, y with
  | Fin s m e, Fin s' m' e' =>
      ((m =? 0) && (m' =? 0)) || (Bool.eqb s s' && (m =? m') && (e =? e'))
  | Inf s, Inf s' => Bool.eqb s s'
  | _, _ => false
  end.

(** *** Reading a float: Python's [float(str)] *)

Definition is_digit (c : ascii) : bool :=
  let n := nat_of_ascii c in (48 <=? n)%nat && (n <=? 57)%nat.

Definition digit_val (c : ascii) : Z := Z.of_nat (nat_of_ascii c) - 48.

(** The white space that [float] strips: the ASCII blanks, and the
    other blanks, which it first turns into spaces. *)
Definition float_isspace (c : ascii) : bool :=
  let n := nat_of_ascii c in
  ((9 <=? n)%nat && (n <=? 13)%nat) || (n =? 32)%nat
  || (n =? 133)%nat || (n =? 160)%nat.

(** Underscores go, provided each stands between two digits
    ([prev] is the character before [s], if any). *)
Fixpoint remove_underscores (prev : option ascii) (s : string) : option string :=
  let after_underscore :=
    match prev with
    | Some p => Ascii.eqb p "_"
    | None => false
    end in
  match s with
  | EmptyString => if after_underscore then None else Some EmptyString
  | String c s' =>
      if Ascii.eqb c "_" then
        match prev with
        | Some p => if is_digit p then remove_underscores (Some c) s' else None
        | None => None
        end
      else if after_underscore && negb (is_digit c) then None
      else option_map (String c) (remove_underscores (Some c) s')
  end.

(** The leading digits of [s]: their value on top of [acc], their
    number, and what follows them. *)
Fixpoint scan_digits (s : string) (acc : Z) (cnt : nat) : Z * nat * string :=
  match s with
  | String c s' =>
      if is_digit c then scan_digits s' (10 * acc + digit_val c) (S cnt)
      else (acc, cnt, s)
  | EmptyString => (acc, cnt, s)
  end.

Definition scan_sign (s : string) : bool * string :=
  match s with
  | String c s' =>
      if Ascii.eqb c "-" then (true, s')
      else if Ascii.eqb c "+" then (false, s')
      else (false, s)
  | EmptyString => (false, s)
  end.

Definition lower (c : ascii) : ascii :=
  let n := nat_of_ascii c in
  if (65 <=? n)%nat && (n <=? 90)%nat then ascii_of_nat (n + 32) else c.

Fixpoint lower_string (s : string) : string :=
  match s with
  | EmptyString => EmptyString
  | String c s' => String (lower c) (lower_string s')
  end.

(** A decimal numeral [digits [. digits] [e [sign] digits]] with at
    least one digit before the exponent: the pair [(m, k)] stands for
    [m * 10^k]. *)
Definition scan_decimal (s : string) : option (Z * Z) :=
  let '(ip, ni, r1) := scan_digits s 0 0 in
  let '(m, nf, r2) :=
    match r1 with
    | String c r => if Ascii.eqb c "." then scan_digits r ip 0 else (ip, O, r1)
    | EmptyString => (ip, O, r1)
    end in
  if (ni + nf =? 0)%nat then None
  else
    match r2 with
    | EmptyString => Some (m, - Z.of_nat nf)
    | String c r3 =>
        if Ascii.eqb (lower c) "e" then
          let '(eneg, r4) := scan_sign r3 in
          let '(ev, ne, r5) := scan_digits r4 0 0 in
          match ne, r5 with
          | S _, EmptyString =>
              Some (m, (if eneg then - ev else ev) - Z.of_nat nf)
          | _, _ => None
          end
        else None
    end.

(** The binary64 nearest to [m * 10^k]. *)
Definition of_decimal (neg : bool) (m k : Z) : t :=
  if 0 <=? k then round neg (m * 10 ^ k) 1 else round neg m (10 ^ (- k)).

(** [float(s)]: [None] stands for [ValueError]. *)
Definition of_string (s : string) : option t :=
  match remove_underscores None
          (PyStr.lstrip_with float_isspace (PyStr.rstrip_with float_isspace s)) with
  | None => None
  | Some body =>
      let '(neg, r) := scan_sign body in
      let l := lower_string r in
      if String.eqb l "inf" || String.eqb l "infinity" then Some (Inf neg)
      else if String.eqb l "nan" then Some Nan
      else
        match scan_decimal r with
        | Some (m, k) => Some (of_decimal neg m k)
        | None => None
        end
  end.

(** *** Writing a float: Python's [float.__repr__] *)

Fixpoint ndigits_fuel (fuel : nat) (z : Z) : Z :=
  match fuel with
  | O => 0
  | S f => if z <=? 0 then 0 else 1 + ndigits_fuel f (z / 10)
  end.

(** The number of decimal digits of [z]; none for [z <= 0]. *)
Definition ndigits (z : Z) : Z := ndigits_fuel (S (Z.to_nat (Z.log2 z))) z.

Definition digit_char (d : Z) : ascii := ascii_of_nat (48 + Z.to_nat d).

Fixpoint digits_fuel (fuel : nat) (z : Z) (acc : string) : string :=
  match fuel with
  | O => acc
  | S f =>
      let acc' := String (digit_char (z mod 10)) acc in
      if z <? 10 then acc' else digits_fuel f (z / 10) acc'
  end.

(** The decimal numeral of [z] ([0 <= z]). *)
Definition digits (z : Z) : string :=
  digits_fuel (S (Z.to_nat (Z.log2 z))) z EmptyString.

(** [m * 2^e] as a fraction. *)
Definition fraction (m e : Z) : Z * Z :=
  if 0 <=? e then (m * 2 ^ e, 1) else (m, 2 ^ (- e)).

(** The [k] with [10^(k-1) <= n/d < 10^k] ([0 < n], [0 < d]). *)
Definition decimal_exponent (n d : Z) : Z :=
  if d <=? n then ndigits (n / d)
  else 1 - ndigits ((d + n - 1) / n - 1).

(** [n / d] divided by [10^s], as a fraction. *)
Definition scaled10 (n d s : Z) : Z * Z :=
  if 0 <=? s then (n, d * 10 ^ s) else (n * 10 ^ (- s), d).

Definition same (x y : t) : bool :=
  match x, y with
  | Nan, Nan => true
  | Inf s, Inf s' => Bool.eqb s s'
  | Fin s m e, Fin s' m' e' => Bool.eqb s s' && (m =? m') && (e =? e')
  | _, _ => false
  end.

(** The decimals [c * 10^s] with [p] digits next to [m * 2^e]: the one
    that reads back as [Fin false m e], the nearer one when both do. *)
Definition candidate (m e k p : Z) : option (Z * Z) :=
  let s := k - p in
  let '(n, d) := fraction m e in
  let '(n', d') := scaled10 n d s in
  let lo := n' / d' in
  let hi := lo + 1 in
  let near := div_half_even n' d' in
  let far := if near =? lo then hi else lo in
  if same (of_decimal false near s) (Fin false m e) then Some (near, s)
  else if same (of_decimal false far s) (Fin false m e) then Some (far, s)
  else None.

(** The exact decimal expansion of [m * 2^e]. *)
Definition exact_decimal (m e : Z) : Z * Z :=
  if 0 <=? e then (m * 2 ^ e, 0) else (m * 5 ^ (- e), e).

(** The shortest decimal that reads back, tried with [p], [p + 1], ...
    digits; the exact expansion ends the search. *)
Fixpoint shortest_from (fuel : nat) (m e k p : Z) : Z * Z :=
  match fuel with
  | O => exact_decimal m e
  | S f =>
      match candidate m e k p with
      | Some cs => cs
      | None => shortest_from f m e k (p + 1)
      end
  end.

Fixpoint strip_zeros (fuel : nat) (c s : Z) : Z * Z :=
  match fuel with
  | O => (c, s)
  | S f => if (c mod 10 =? 0) && negb (c =? 0) then strip_zeros f (c / 10) (s + 1) else (c, s)
  end.

(** The digits and the position of the decimal point that
    [float.__repr__] works from ([0 < m]). *)
Definition shortest (m e : Z) : string * Z :=
  let '(n, d) := fraction m e in
  let k := decimal_exponent n d in
  let '(c0, s0) := exact_decimal m e in
  let '(c, s) := shortest_from (Z.to_nat (ndigits c0)) m e k 1 in
  let '(c, s) := strip_zeros (Z.to_nat (ndigits c)) c s in
  let ds := digits c in
  (ds, Z.of_nat (String.length ds) + s).

Fixpoint zeros (n : nat) : string :=
  match n with
  | O => EmptyString
  | S n' => String "0" (zeros n')
  end.

(** [%+.02d] *)
Definition exponent_text (x : Z) : string :=
  let a := digits (Z.abs x) in
  (if x <? 0 then "-" else "+")
  +:+ (if Z.abs x <? 10 then "0" else "") +:+ a.

(** The text of a positive float from its digits [ds] and the position
    [decpt] of its decimal point. *)
Definition format_short (ds : string) (decpt : Z) : string :=
  let len := Z.of_nat (String.length ds) in
  if (decpt <=? -4) || (16 <? decpt) then
    PyStr.take 1 ds
    +:+ (if 1 <? len then "." +:+ PyStr.drop 1 ds else "")
    +:+ "e" +:+ exponent_text (decpt - 1)
  else if decpt <=? 0 then
    "0." +:+ zeros (Z.to_nat (- decpt)) +:+ ds
  else if decpt <? len then
    PyStr.take (Z.to_nat decpt) ds +:+ "." +:+ PyStr.drop (Z.to_nat decpt) ds
  else
    ds +:+ zeros (Z.to_nat (decpt - len)) +:+ ".0".

(** [repr(x)] *)
Definition repr (x : t) : string :=
  match x with
  | Nan => "nan"
  | Inf neg => if neg then "-inf" else "inf"
  | Fin neg m e =>
      (if neg then "-" else "") +:+
      (if m =? 0 then "0.0"
       else let '(ds, decpt) := shortest m e in format_short ds decpt)
  end.
End Float64.

(** ** Python values and exceptions *)

(** The keys of a mapping, as PyYAML makes them from plain scalars:
    nothing, a boolean, an integer, a text or a date.  The keys of
    other kinds (a float, a time stamp with a time of day, a sequence)
    are outside this model. *)
Inductive key :=
| KNone
| KBool (b : bool)
| KInt (z : Z)
| KStr (s : string)
| KDate (year month day : Z).

#[warnings="-register-all"] Inductive pyval :=
| PyNone
| PyBool (b : bool)
| PyInt (z : Z)
| PyFloat (f : Float64.t)
| PyStr (s : string)
| PyList (l : list pyval)
| PyDict (d : list (key * pyval))
| PyDate (year month day : Z).

Inductive exn :=
| IsNotYamlFile
| FileNotFoundError
| YAMLError
| AttributeError
| KeyError
| TypeError
| ValueError
| OverflowError
| IndexError
| OSError
| EOFError
| KeyboardInterrupt.

Module Py.

(** A key as a value. *)
Definition of_key (k : key) : pyval :=
  match k with
  | KNone => PyNone
  | KBool b => PyBool b
  | KInt z => PyInt z
  | KStr s => PyStr s
  | KDate y m d => PyDate y m d
  end.

(** A dictionary whose keys are texts. *)
Definition text_keys (d : list (string * pyval)) : list (key * pyval) :=
  map (fun kv => (KStr (fst kv), snd kv)) d.

(** [bool(v)] *)
Definition truth (v : pyval) : bool :=
  match v with
  | PyNone => false
  | PyBool b => b
  | PyInt z => negb (z =? 0)%Z
  | PyFloat (Float64.Fin _ m _) => negb (m =? 0)%Z
  | PyFloat _ => true
  | PyStr s => negb (String.eqb s EmptyString)
  | PyList l => match l with [] => false | _ => true end
  | PyDict d => match d with [] => false | _ => true end
  | PyDate _ _ _ => true
  end.

(** Python's [==] on keys: a boolean is the integer 0 or 1. *)
Definition key_eqb (a b : key) : bool :=
  match a, b with
  | KNone, KNone => true
  | KBool x, KBool y => Bool.eqb x y
  | KInt x, KInt y => (x =? y)%Z
  | KBool x, KInt y => (Z.b2z x =? y)%Z
  | KInt x, KBool y => (x =? Z.b2z y)%Z
  | KStr x, KStr y => String.eqb x y
  | KDate y m d, KDate y' m' d' => (y =? y')%Z && (m =? m')%Z && (d =? d')%Z
  | _, _ => false
  end.

(** The first binding of the text [name] in a dictionary. *)
Fixpoint assoc {A : Type} (name : string) (d : list (key * A)) : option A :=
  match d with
  | [] => None
  | (k, v) :: rest => if key_eqb k (KStr name) then Some v else assoc name rest
  end.

(** [v.items()] *)
Definition items (v : pyval) : exn + list (key * pyval) :=
  match v with
  | PyDict d => inr d
  | _ => inl AttributeError
  end.

(** [v[name]] for a text [name] *)
Definition getitem (v : pyval) (name : string) : exn + pyval :=
  match v with
  | PyDict d =>
      match assoc name d with
      | Some x => inr x
      | None => inl KeyError
      end
  | _ => inl TypeError
  end.

(** [v.get(name, default)] *)
Definition get (v : pyval) (name : string) (default : pyval) : exn + pyval :=
  match v with
  | PyDict d =>
      match assoc name d with
      | Some x => inr x
      | None => inr default
      end
  | _ => inl AttributeError
  end.

(** The characters of a text, one text each: what iterating over a
    [str] yields. *)
Fixpoint chars (s : string) : list string :=
  match s with
  | EmptyString => []
  | String c s' => String c EmptyString :: chars s'
  end.

(** [a += b] where [b] is a text: a text is followed by [b], a list is
    extended in place by the characters of [b], and no other value can
    be added to a text. *)
Definition iadd_str (a : pyval) (b : string) : exn + pyval :=
  match a with
  | PyStr s => inr (PyStr (s +:+ b))
  | PyList l => inr (PyList (l ++ map PyStr (chars b)))
  | _ => inl TypeError
  end.

(** [int.__repr__] *)
Definition int_repr (z : Z) : string :=
  (if (z <? 0)%Z then "-" else EmptyString) +:+ Float64.digits (Z.abs z).

(** [str.isprintable] on a single code point below 256. *)
Definition isprintable (c : ascii) : bool :=
  let n := nat_of_ascii c in
  (32 <=? n) && negb (n =? 127) && negb ((128 <=? n) && (n <=? 160))
  && negb (n =? 173).

Definition hex_digit (n : nat) : ascii :=
  if (n <? 10)%nat then ascii_of_nat (48 + n) else ascii_of_nat (87 + n).

(** One character of the [repr] of a text that is quoted with
    [quote]. *)
Definition repr_char (quote c : ascii) : string :=
  let n := nat_of_ascii c in
  if Ascii.eqb c quote || Ascii.eqb c "\" then String "\" (String c EmptyString)
  else if (n =? 9)%nat then "\t"
  else if (n =? 10)%nat then "\n"
  else if (n =? 13)%nat then "\r"
  else if isprintable c then String c EmptyString
  else "\x" +:+ String (hex_digit (n / 16)) (String (hex_digit (n mod 16)) EmptyString).

Fixpoint repr_chars (quote : ascii) (s : string) : string :=
  match s with
  | EmptyString => EmptyString
  | String c s' => repr_char quote c +:+ repr_chars quote s'
  end.

(** [repr(s)] for a text: in single quotes, unless the text holds one
    and no double quote. *)
Definition str_repr (s : string) : string :=
  let quote : ascii :=
    if PyStr.contains "'" s && negb (PyStr.contains (String "034" EmptyString) s)
    then "034"%char else "'"%char in
  String quote (repr_chars quote s +:+ String quote EmptyString).

(** The decimal digits of [z], with zeros in front up to [width]. *)
Definition padded (width : nat) (z : Z) : string :=
  let ds := Float64.digits z in
  Float64.zeros (width - String.length ds) +:+ ds.

(** [date.isoformat()] *)
Definition date_str (y m d : Z) : string :=
  padded 4 y +:+ "-" +:+ padded 2 m +:+ "-" +:+ padded 2 d.

Definition date_repr (y m d : Z) : string :=
  "datetime.date(" +:+ int_repr y +:+ ", " +:+ int_repr m +:+ ", "
  +:+ int_repr d +:+ ")".

Definition key_repr (k : key) : string :=
  match k with
  | KNone => "None"
  | KBool true => "True"
  | KBool false => "False"
  | KInt z => int_repr z
  | KStr s => str_repr s
  | KDate y m d => date_repr y m d
  end.

(** [repr(v)] *)
Fixpoint repr (v : pyval) : string :=
  match v with
  | PyNone => "None"
  | PyBool true => "True"
  | PyBool false => "False"
  | PyInt z => int_repr z
  | PyFloat f => Float64.repr f
  | PyStr s => str_repr s
  | PyList l => "[" +:+ PyStr.join ", " (map repr l) +:+ "]"
  | PyDict d =>
      "{" +:+ PyStr.join ", " (map (fun kv => key_repr (fst kv) +:+ ": "
                                              +:+ repr (snd kv)) d) +:+ "}"
  | PyDate y m d => date_repr y m d
  end.

(** [str(v)] *)
Definition str (v : pyval) : string :=
  match v with
  | PyStr s => s
  | PyDate y m d => date_str y m d
  | _ => repr v
  end.

(** [float(v)] *)
Definition float (v : pyval) : exn + Float64.t :=
  match v with
  | PyStr s =>
      match Float64.of_string s with
      | Some f => inr f
      | None => inl ValueError
      end
  | PyFloat f => inr f
  | PyInt z =>
      match Float64.round (z <? 0)%Z (Z.abs z) 1 with
      | Float64.Inf _ => inl OverflowError
      | f => inr f
      end
  | PyBool b => inr (Float64.round false (Z.b2z b) 1)
  | _ => inl TypeError
  end.

(** [v.split(",")]: a method of texts only. *)
Definition split_commas (v : pyval) : exn + pyval :=
  match v with
  | PyStr s => inr (PyList (map PyStr (PyStr.split "," s)))
  | _ => inl AttributeError
  end.

(** Whether the integer [z] is the number that the float [x] holds. *)
Definition float_is_int (x : Float64.t) (z : Z) : bool :=
  match x with
  | Float64.Fin neg m e =>
      let v := if neg then (- m)%Z else m in
      if (0 <=? e)%Z then (z =? v * 2 ^ e)%Z else (z * 2 ^ (- e) =? v)%Z
  | _ => false
  end.

Fixpoint list_same {A : Type} (f : A -> A -> bool) (l l' : list A) : bool :=
  match l, l' with
  | [], [] => true
  | x :: r, y :: r' => f x y && list_same f r r'
  | _, _ => false
  end.

(** Membership of the binding [k, v] in [d], values compared with [f]. *)
Fixpoint has_item {A : Type} (f : A -> A -> bool) (k : key) (v : A)
    (d : list (key * A)) : bool :=
  match d with
  | [] => false
  | (k', v') :: rest => if key_eqb k' k then f v v' else has_item f k v rest
  end.

(** Python's [==] on the values of this program: numbers compare by
    value, a boolean being 0 or 1, texts and lists elementwise,
    dictionaries as sets of bindings; a NaN differs from every
    number. *)
Fixpoint eq (a b : pyval) : bool :=
  match a, b with
  | PyNone, PyNone => true
  | PyBool x, PyBool y => Bool.eqb x y
  | PyInt x, PyInt y => (x =? y)%Z
  | PyBool x, PyInt y => (Z.b2z x =? y)%Z
  | PyInt x, PyBool y => (x =? Z.b2z y)%Z
  | PyFloat x, PyFloat y => Float64.eqb x y
  | PyFloat x, PyInt y => float_is_int x y
  | PyInt x, PyFloat y => float_is_int y x
  | PyFloat x, PyBool y => float_is_int x (Z.b2z y)
  | PyBool x, PyFloat y => float_is_int y (Z.b2z x)
  | PyStr x, PyStr y => String.eqb x y
  | PyList x, PyList y => list_same eq x y
  | PyDict x, PyDict y =>
      (length x =? length y)%nat
      && forallb (fun kv => has_item eq (fst kv) (snd kv) y) x
  | PyDate y m d, PyDate y' m' d' => (y =? y')%Z && (m =? m')%Z && (d =? d')%Z
  | _, _ => false
  end.

End Py.

(** ** JSON: [json.dump(obj, fp, indent=4)] and [json.load(fp)] *)

Module Json.

Definition DQ : ascii := "034"%char.
Definition BS : ascii := "092"%char.

Definition hex_char (n : nat) : ascii :=
  if (n <? 10)%nat then ascii_of_nat (48 + n) else ascii_of_nat (87 + n).

(** The replacement of one character by [encode_basestring_ascii]: the
    printable ASCII characters stay, except the quote and the backslash. *)
Definition escape (c : ascii) : string :=
  let n := nat_of_ascii c in
  if Ascii.eqb c DQ then String BS (String DQ EmptyString)
  else if Ascii.eqb c BS then String BS (String BS EmptyString)
  else if (n =? 10)%nat then String BS "n"
  else if (n =? 13)%nat then String BS "r"
  else if (n =? 9)%nat then String BS "t"
  else if (n =? 12)%nat then String BS "f"
  else if (n =? 8)%nat then String BS "b"
  else if (32 <=? n)%nat && (n <=? 126)%nat then String c EmptyString
  else String BS ("u00" +:+ String (hex_char (n / 16)) (String (hex_char (n mod 16)) EmptyString)).

Fixpoint escape_all (s : string) : string :=
  match s with
  | EmptyString => EmptyString
  | String c s' => escape c +:+ escape_all s'
  end.

Definition encode_basestring_ascii (s : string) : string :=
  String DQ (escape_all s +:+ String DQ EmptyString).

(** [int.__repr__] *)
Definition int_repr (z : Z) : string := Py.int_repr z.

Definition floatstr (f : Float64.t) : string :=
  match f with
  | Float64.Nan => "NaN"
  | Float64.Inf false => "Infinity"
  | Float64.Inf true => "-Infinity"
  | _ => Float64.repr f
  end.

Fixpoint spaces (n : nat) : string :=
  match n with
  | O => EmptyString
  | S n' => String " " (spaces n')
  end.

(** A line feed and the indentation of a nesting level. *)
Definition newline_indent (indent level : nat) : string :=
  String PyStr.LF (spaces (indent * level)).

(** The text that stands for a key of a dictionary; a key that is none
    of a text, a number, a boolean or nothing is a [TypeError]. *)
Definition key_text (k : key) : exn + string :=
  match k with
  | KStr s => inr s
  | KBool true => inr "true"
  | KBool false => inr "false"
  | KNone => inr "null"
  | KInt z => inr (int_repr z)
  | KDate _ _ _ => inl TypeError
  end.

(** The loop of the encoder over the items of a list: [buf] is what
    goes before the next item, the opening bracket with its line feed
    or the separator.  The chunks are put together up to the item that
    cannot be encoded. *)
Definition iterencode_list (enc : pyval -> string * option exn)
    (separator close : string) :=
  fix items (buf : string) (l : list pyval) {struct l} : string * option exn :=
    match l with
    | [] => (close, None)
    | x :: rest =>
        match enc x with
        | (t, Some e) => (buf +:+ t, Some e)
        | (t, None) =>
            let '(t', e) := items separator rest in
            (buf +:+ t +:+ t', e)
        end
    end.

(** The loop of the encoder over the members of a dictionary: the key
    is checked before the separator is yielded. *)
Definition iterencode_dict (enc : pyval -> string * option exn)
    (separator close : string) :=
  fix members (buf : string) (d : list (key * pyval)) {struct d}
      : string * option exn :=
    match d with
    | [] => (close, None)
    | (k, x) :: rest =>
        match key_text k with
        | inl e => (EmptyString, Some e)
        | inr s =>
            match enc x with
            | (t, Some e) =>
                (buf +:+ encode_basestring_ascii s +:+ ": " +:+ t, Some e)
            | (t, None) =>
                let '(t', e) := members separator rest in
                (buf +:+ encode_basestring_ascii s +:+ ": " +:+ t +:+ t', e)
            end
        end
    end.

(** The encoder of [json.dump(obj, fp, indent=indent)] at a nesting
    level: the chunks that it yields for [v], put together, and the
    exception that ends it when it meets a value that it cannot
    encode; the chunks before that value are yielded. *)
Fixpoint iterencode (indent level : nat) (v : pyval) : string * option exn :=
  match v with
  | PyNone => ("null", None)
  | PyBool true => ("true", None)
  | PyBool false => ("false", None)
  | PyInt z => (int_repr z, None)
  | PyFloat f => (floatstr f, None)
  | PyStr s => (encode_basestring_ascii s, None)
  | PyDate _ _ _ => (EmptyString, Some TypeError)
  | PyList [] => ("[]", None)
  | PyList l =>
      iterencode_list (iterencode indent (S level))
        ("," +:+ newline_indent indent (S level))
        (newline_indent indent level +:+ "]")
        ("[" +:+ newline_indent indent (S level)) l
  | PyDict [] => ("{}", None)
  | PyDict d =>
      let '(t, e) :=
        iterencode_dict (iterencode indent (S level))
          ("," +:+ newline_indent indent (S level))
          (newline_indent indent level +:+ "}")
          EmptyString d in
      ("{" +:+ newline_indent indent (S level) +:+ t, e)
  end.

(** *** Reading *)

Definition is_ws (c : ascii) : bool :=
  let n := nat_of_ascii c in
  (n =? 32)%nat || (n =? 9)%nat || (n =? 10)%nat || (n =? 13)%nat.

Definition skip_ws (s : string) : string := PyStr.lstrip_with is_ws s.

Definition hex_val (c : ascii) : option nat :=
  let n := nat_of_ascii c in
  if (48 <=? n)%nat && (n <=? 57)%nat then Some (n - 48)
  else if (97 <=? n)%nat && (n <=? 102)%nat then Some (n - 87)
  else if (65 <=? n)%nat && (n <=? 70)%nat then Some (n - 55)
  else None.

(** The character that follows a backslash, other than [u]. *)
Definition backslash (c : ascii) : option ascii :=
  if Ascii.eqb c DQ then Some DQ
  else if Ascii.eqb c BS then Some BS
  else if Ascii.eqb c "/" then Some "/"%char
  else if Ascii.eqb c "b" then Some "008"%char
  else if Ascii.eqb c "f" then Some "012"%char
  else if Ascii.eqb c "n" then Some "010"%char
  else if Ascii.eqb c "r" then Some "013"%char
  else if Ascii.eqb c "t" then Some "009"%char
  else None.

Definition cons_fst (c : ascii) (r : option (string * string)) : option (string * string) :=
  match r with
  | Some (s, rest) => Some (String c s, rest)
  | None => None
  end.

(** The text of a string literal, read from behind its opening quote,
    and what follows the closing quote.  A code point of 256 or more
    has no place in a [string] and ends the reading like an error. *)
Fixpoint scanstring (s : string) : option (string * string) :=
  match s with
  | EmptyString => None
  | String c r =>
      if Ascii.eqb c DQ then Some (EmptyString, r)
      else if Ascii.eqb c BS then
        match r with
        | String "u" (String h1 (String h2 (String h3 (String h4 r')))) =>
            match hex_val h1, hex_val h2, hex_val h3, hex_val h4 with
            | Some a, Some b, Some c', Some d =>
                if (a =? 0)%nat && (b =? 0)%nat
                then cons_fst (ascii_of_nat (16 * c' + d)) (scanstring r')
                else None
            | _, _, _, _ => None
            end
        | String "u" _ => None
        | String e r' =>
            match backslash e with
            | Some ch => cons_fst ch (scanstring r')
            | None => None
            end
        | EmptyString => None
        end
      else if (nat_of_ascii c <? 32)%nat then None
      else cons_fst c (scanstring r)
  end.

(** The longest prefix of digits, and the rest. *)
Fixpoint span_digits (s : string) : string * string :=
  match s with
  | String c r =>
      if Float64.is_digit c
      then let '(ds, rest) := span_digits r in (String c ds, rest)
      else (EmptyString, s)
  | EmptyString => (EmptyString, s)
  end.

(** A point and the digits behind it at the head of [s], when at least
    one digit stands there, and the rest. *)
Definition scan_fraction (s : string) : string * string :=
  match s with
  | String p (String d r) =>
      if Ascii.eqb p "." && Float64.is_digit d
      then let '(ds, rest) := span_digits r in ("." +:+ String d ds, rest)
      else (EmptyString, s)
  | _ => (EmptyString, s)
  end.

(** An exponent at the head of [s], when digits stand behind its letter
    and its optional sign, and the rest. *)
Definition scan_exponent (s : string) : string * string :=
  match s with
  | String e r =>
      if Ascii.eqb e "e" || Ascii.eqb e "E" then
        let '(sg, r') :=
          match r with
          | String c' r' =>
              if Ascii.eqb c' "+" || Ascii.eqb c' "-"
              then (String c' EmptyString, r')
              else (EmptyString, r)
          | EmptyString => (EmptyString, r)
          end in
        match span_digits r' with
        | (EmptyString, _) => (EmptyString, s)
        | (ds, rest) => (String e (sg +:+ ds), rest)
        end
      else (EmptyString, s)
  | EmptyString => (EmptyString, s)
  end.

(** The number at the head of [s]: its text, whether it has a fraction
    or an exponent, and the rest. *)
Definition match_number (s : string) : option (string * bool * string) :=
  let '(sign, r0) :=
    match s with
    | String c r => if Ascii.eqb c "-" then ("-", r) else (EmptyString, s)
    | EmptyString => (EmptyString, s)
    end in
  match r0 with
  | EmptyString => None
  | String c r1 =>
      if negb (Float64.is_digit c) then None
      else
        let '(int_rest, r2) :=
          if Ascii.eqb c "0" then (EmptyString, r1) else span_digits r1 in
        let '(frac, r3) := scan_fraction r2 in
        let '(exp, r4) := scan_exponent r3 in
        Some (sign +:+ String c int_rest +:+ frac +:+ exp,
              negb (String.eqb frac EmptyString && String.eqb exp EmptyString),
              r4)
  end.

(** [int(text)] for the text of an integer that [match_number] found. *)
Definition int_of_text (text : string) : Z :=
  let '(neg, r) :=
    match text with
    | String c r => if Ascii.eqb c "-" then (true, r) else (false, text)
    | EmptyString => (false, text)
    end in
  let '(v, _, _) := Float64.scan_digits r 0 0 in
  if neg then (- v)%Z else v.

(** [dict[k] = v]: a new key goes last, an old one keeps its place. *)
Fixpoint dict_set (d : list (string * pyval)) (k : string) (v : pyval)
    : list (string * pyval) :=
  match d with
  | [] => [(k, v)]
  | (k', v') :: rest =>
      if String.eqb k' k then (k, v) :: rest else (k', v') :: dict_set rest k v
  end.

Definition strip_prefix (p s : string) : option string :=
  if PyStr.startswith p s then Some (PyStr.drop (String.length p) s) else None.

(** The first character of [s] is [c]. *)
Definition at_char (c : ascii) (s : string) : bool :=
  match s with
  | String c' _ => Ascii.eqb c' c
  | EmptyString => false
  end.

(** The value at the head of [s] and the rest; [parse_array] and
    [parse_object] read from behind the opening bracket, white space
    skipped, with the items read so far. *)
Fixpoint scan_once (fuel : nat) (s : string) : option (pyval * string) :=
  match fuel with
  | O => None
  | S f =>
      if at_char DQ s then
        match scanstring (PyStr.drop 1 s) with
        | Some (str, rest) => Some (PyStr str, rest)
        | None => None
        end
      else if at_char "{" s then
        let r := skip_ws (PyStr.drop 1 s) in
        if at_char "}" r then Some (PyDict [], PyStr.drop 1 r)
        else parse_object f r []
      else if at_char "[" s then
        let r := skip_ws (PyStr.drop 1 s) in
        if at_char "]" r then Some (PyList [], PyStr.drop 1 r)
        else parse_array f r []
      else
        match strip_prefix "null" s, strip_prefix "true" s,
              strip_prefix "false" s with
        | Some rest, _, _ => Some (PyNone, rest)
        | _, Some rest, _ => Some (PyBool true, rest)
        | _, _, Some rest => Some (PyBool false, rest)
        | _, _, _ =>
            match match_number s with
            | Some (text, true, rest) =>
                match Float64.of_string text with
                | Some x => Some (PyFloat x, rest)
                | None => None
                end
            | Some (text, false, rest) => Some (PyInt (int_of_text text), rest)
            | None =>
                match strip_prefix "NaN" s, strip_prefix "Infinity" s,
                      strip_prefix "-Infinity" s with
                | Some rest, _, _ => Some (PyFloat Float64.Nan, rest)
                | _, Some rest, _ => Some (PyFloat (Float64.Inf false), rest)
                | _, _, Some rest => Some (PyFloat (Float64.Inf true), rest)
                | _, _, _ => None
                end
            end
        end
  end
with parse_array (fuel : nat) (s : string) (acc : list pyval)
    : option (pyval * string) :=
  match fuel with
  | O => None
  | S f =>
      match scan_once f s with
      | Some (v, r) =>
          let r' := skip_ws r in
          if at_char "]" r' then Some (PyList (acc ++ [v]), PyStr.drop 1 r')
          else if at_char "," r'
          then parse_array f (skip_ws (PyStr.drop 1 r')) (acc ++ [v])
          else None
      | None => None
      end
  end
with parse_object (fuel : nat) (s : string) (acc : list (string * pyval))
    : option (pyval * string) :=
  match fuel with
  | O => None
  | S f =>
      if at_char DQ s then
        match scanstring (PyStr.drop 1 s) with
        | Some (key, r1) =>
            let r2 := skip_ws r1 in
            if at_char ":" r2 then
              match scan_once f (skip_ws (PyStr.drop 1 r2)) with
              | Some (v, r3) =>
                  let r4 := skip_ws r3 in
                  if at_char "}" r4
                  then Some (PyDict (Py.text_keys (dict_set acc key v)), PyStr.drop 1 r4)
                  else if at_char "," r4
                  then parse_object f (skip_ws (PyStr.drop 1 r4)) (dict_set acc key v)
                  else None
              | None => None
              end
            else None
        | None => None
        end
      else None
  end.

(** [json.loads(s)]: [None] stands for [JSONDecodeError]. *)
Definition loads (s : string) : option pyval :=
  match scan_once (S (String.length s)) (skip_ws s) with
  | Some (v, rest) =>
      match skip_ws rest with
      | EmptyString => Some v
      | _ => None
      end
  | None => None
  end.

End Json.

(** ** Paths: [pathlib.Path] on POSIX *)

Record Path := { root : string; parts : list string }.

Module Pathlib.

(** [Path(s)]: the root is [//] for exactly two leading slashes and [/]
    for any other number of them; empty components and [.] go. *)
Definition of_string (s : string) : Path :=
  {| root :=
       if PyStr.startswith "//" s && negb (PyStr.startswith "///" s) then "//"
       else if PyStr.startswith "/" s then "/"
       else EmptyString;
     parts :=
       filter (fun c => negb (String.eqb c EmptyString || String.eqb c "."))
              (PyStr.split "/" s) |}.

(** [str(p)] *)
Definition to_string (p : Path) : string :=
  match root p, parts p with
  | EmptyString, [] => "."
  | r, ps => r +:+ PyStr.join "/" ps
  end.

(** [p.name] *)
Definition name (p : Path) : string := List.last (parts p) EmptyString.

(** [p.suffix] *)
Definition suffix (p : Path) : string :=
  let n := name p in
  match PyStr.rfind "." n with
  | Some i =>
      if (0 <? i)%nat && (i <? String.length n - 1)%nat then PyStr.drop i n
      else EmptyString
  | None => EmptyString
  end.

(** [p.parent] *)
Definition parent (p : Path) : Path :=
  {| root := root p; parts := List.removelast (parts p) |}.

(** [p / name] for a [name] of one component *)
Definition child (p : Path) (n : string) : Path :=
  {| root := root p; parts := parts p ++ [n] |}.

End Pathlib.

(** ** The world: keyboard, console and files *)

(** What the operator does at a prompt. *)
Inductive keyboard :=
| Typed (line : string)
| CtrlC
| CtrlD.

(** A piece of a printed line: literal text, or a value that the
    f-string formats. *)
Inductive fragment :=
| Lit (s : string)
| Fmt (v : pyval).

Inductive output :=
| Print (line : list fragment)
| Prompt (s : string).

Record world := {
  stdin : list keyboard;
  stdout : list output;
  files : gmap string string;
  unwritable : gset string;
  opened : list string
}.

(** A computation in the world that returns or raises. *)
Definition IO (A : Type) : Type := world -> world * (exn + A).

Definition ret {A : Type} (a : A) : IO A := fun w => (w, inr a).

Definition bind {A B : Type} (m : IO A) (k : A -> IO B) : IO B :=
  fun w =>
    match m w with
    | (w', inr a) => k a w'
    | (w', inl e) => (w', inl e)
    end.

(** A value or an exception of a computation without effects. *)
Definition lift {A : Type} (r : exn + A) : IO A := fun w => (w, r).

Notation "x <- m ;; k" := (bind m (fun x => k))
  (at level 100, m at next level, right associativity).
Notation "m ;;; k" := (bind m (fun _ => k))
  (at level 100, right associativity).

(** [for x in l: body(x)], the results collected. *)
Fixpoint for_each {A B : Type} (body : A -> IO B) (l : list A) : IO (list B) :=
  match l with
  | [] => ret []
  | x :: rest =>
      y <- body x ;;
      ys <- for_each body rest ;;
      ret (y :: ys)
  end.

Definition with_stdout (out : list output) (w : world) : world :=
  {| stdin := stdin w; stdout := out; files := files w;
     unwritable := unwritable w; opened := opened w |}.

Definition with_stdin (keys : list keyboard) (w : world) : world :=
  {| stdin := keys; stdout := stdout w; files := files w;
     unwritable := unwritable w; opened := opened w |}.

Definition with_files (fs : gmap string string) (w : world) : world :=
  {| stdin := stdin w; stdout := stdout w; files := fs;
     unwritable := unwritable w; opened := opened w |}.

(** The record that [open] was called on a path. *)
Definition with_opened (path : string) (w : world) : world :=
  {| stdin := stdin w; stdout := stdout w; files := files w;
     unwritable := unwritable w; opened := opened w ++ [path] |}.

(** [[f(x) for x in l]] for an [f] without effects: the first
    exception ends the comprehension. *)
Fixpoint comprehension {A B : Type} (f : A -> exn + B) (l : list A)
    : exn + list B :=
  match l with
  | [] => inr []
  | x :: rest =>
      match f x with
      | inl e => inl e
      | inr y =>
          match comprehension f rest with
          | inl e => inl e
          | inr ys => inr (y :: ys)
          end
      end
  end.

(** [print(line)] *)
Definition print (line : list fragment) : IO unit :=
  fun w => (with_stdout (stdout w ++ [Print line]) w, inr tt).

(** [input(prompt)]: the prompt is shown, then the operator types a
    line, interrupts, or ends the input. *)
Definition input (prompt : string) : IO string :=
  fun w =>
    let w' := with_stdout (stdout w ++ [Prompt prompt]) w in
    match stdin w with
    | Typed line :: rest => (with_stdin rest w', inr line)
    | CtrlC :: rest => (with_stdin rest w', inl KeyboardInterrupt)
    | CtrlD :: rest => (with_stdin rest w', inl EOFError)
    | [] => (w', inl EOFError)
    end.

(** [open(path, "r")] and [readlines()] *)
Definition read_lines (path : Path) : IO (list string) :=
  fun w =>
    let w' := with_opened (Pathlib.to_string path) w in
    match files w !! Pathlib.to_string path with
    | Some content =>
        (w', inr (PyStr.splitlines_keep (PyStr.translate_newlines content)))
    | None => (w', inl FileNotFoundError)
    end.

(** [open(path, "w")]: the file is created, or emptied when it
    exists. *)
Definition open_w (path : Path) : IO unit :=
  fun w =>
    let w' := with_opened (Pathlib.to_string path) w in
    if bool_decide (Pathlib.to_string path ∈ unwritable w)
    then (w', inl OSError)
    else (with_files (<[Pathlib.to_string path := EmptyString]> (files w)) w', inr tt).

(** [fp.write(text)] on the file that was opened at [path], as it
    stands when the file is closed. *)
Definition write (path : Path) (text : string) : IO unit :=
  fun w =>
    (with_files (<[Pathlib.to_string path
                   := default EmptyString (files w !! Pathlib.to_string path)
                      +:+ text]> (files w)) w,
     inr tt).

(** [json.dump(obj, fp, indent=indent)]: the chunks of the encoder are
    written one after the other, until the encoder returns or
    raises. *)
Definition dump (obj : pyval) (fp : Path) (indent : nat) : IO unit :=
  let '(text, e) := Json.iterencode indent 0 obj in
  write fp text ;;;
  match e with
  | Some e => lift (inl e)
  | None => ret tt
  end.

(** ** Typed parameters *)

Definition str (x : pyval) : exn + pyval := inr (PyStr (Py.str x)).

Definition float (x : pyval) : exn + pyval :=
  match Py.float x with
  | inr f => inr (PyFloat f)
  | inl e => inl e
  end.

Definition TYPES_MAPPING : list (key * (pyval -> exn + pyval)) :=
  [ (KStr "String", str);
    (KStr "Number", float);
    (KStr "CommaDelimitedList", fun x => Py.split_commas x) ].

(** [TYPES_MAPPING[key]]: a list or a dictionary cannot be hashed, any
    other key than the three texts is missing. *)
Definition TYPES_MAPPING_getitem (key : pyval) : exn + (pyval -> exn + pyval) :=
  match key with
  | PyStr s =>
      match Py.assoc s TYPES_MAPPING with
      | Some f => inr f
      | None => inl KeyError
      end
  | PyList _ | PyDict _ => inl TypeError
  | _ => inl KeyError
  end.

(** The named tuple with the attribute [_value] that the setter adds;
    [None] before the first assignment. *)
Record Param := {
  name : pyval;
  param_type : pyval;
  description : pyval;
  _value : option pyval
}.

(** The getter of [Param.value] *)
Definition value (self : Param) : exn + pyval :=
  match TYPES_MAPPING_getitem (param_type self) with
  | inl e => inl e
  | inr coerce =>
      match _value self with
      | Some raw => coerce raw
      | None => inl AttributeError
      end
  end.

(** The setter of [Param.value] *)
Definition set_value (self : Param) (v : pyval) : Param :=
  {| name := name self; param_type := param_type self;
     description := description self; _value := Some v |}.

(** ** The pipeline *)

Definition validate_yaml_file (yaml_path_file : Path) : exn + (Path * Path) :=
  if negb (PyStr.endswith "yaml" (Pathlib.suffix yaml_path_file)
           || PyStr.endswith "yml" (Pathlib.suffix yaml_path_file))
  then inl IsNotYamlFile
  else
    let directory_iac := Pathlib.parent yaml_path_file in
    inr (directory_iac, yaml_path_file).

Definition load_file (yaml_file_path : Path) : IO (list string) :=
  fun w =>
    match read_lines yaml_file_path w with
    | (w', inl FileNotFoundError) => (w', inl FileNotFoundError)
    | r => r
    end.

Section Pipeline.

(** PyYAML's [yaml.load(text, Loader=yaml.FullLoader)] on a text that
    is not empty: the value of the document, or [None] where it raises
    a [YAMLError]. *)
Variable yaml_parse : string -> option pyval.

(** [yaml.load]: the empty stream holds no document and loads as
    [None]. *)
Definition yaml_load (text : string) : exn + pyval :=
  match text with
  | EmptyString => inr PyNone
  | _ =>
      match yaml_parse text with
      | Some v => inr v
      | None => inl YAMLError
      end
  end.

Definition parse_yaml_params_section_content (yaml_param_section_content : string)
    : exn + pyval :=
  yaml_load yaml_param_section_content.

Definition extract_params_metadata (yaml_file_path : Path) : IO pyval :=
  yaml_content_lines <- load_file yaml_file_path ;;
  let yaml_param_section_content :=
    PyStr.join EmptyString (get_params_section yaml_content_lines) in
  lift (parse_yaml_params_section_content yaml_param_section_content).

(** One element of the list comprehension of [set_params_list]. *)
Definition new_param (item : key * pyval) : exn + Param :=
  let '(key, metadata) := item in
  match Py.getitem metadata "Type" with
  | inl e => inl e
  | inr ty =>
      match Py.get metadata "Description" (PyStr EmptyString) with
      | inl e => inl e
      | inr desc =>
          inr {| name := Py.of_key key; param_type := ty; description := desc;
                 _value := None |}
      end
  end.

(** [param.value += "-" + "-".join(users)]: the getter, the addition
    in place, the setter. *)
Definition append_users (param : Param) (users : list string) : exn + Param :=
  match value param with
  | inl e => inl e
  | inr v =>
      match Py.iadd_str v ("-" +:+ PyStr.join "-" users) with
      | inl e => inl e
      | inr v' => inr (set_value param v')
      end
  end.

(** The body of the [for param in params] loop of [set_params_list]. *)
Definition set_param (users : list string) (param : Param) : IO Param :=
  print [Lit "  -Set value for param "; Fmt (name param); Lit ":"] ;;;
  print [Lit "    -Type: "; Fmt (param_type param)] ;;;
  (if Py.truth (description param)
   then print [Lit "    -Description: "; Fmt (description param)]
   else ret tt) ;;;
  line <- input "    -Value: " ;;
  let param := set_value param (PyStr line) in
  match users with
  | [] => ret param
  | _ => lift (append_users param users)
  end.

Definition set_params_list (yaml_file_path : Path) (users : list string)
    : IO (list Param) :=
  params_metadata <- extract_params_metadata yaml_file_path ;;
  items <- lift (Py.items params_metadata) ;;
  params <- lift (comprehension new_param items) ;;
  print [Lit "Set Values for Json Params File:"] ;;;
  for_each (set_param users) params.

(** One element of the list comprehension of [main]. *)
Definition entry (param : Param) : exn + pyval :=
  match value param with
  | inl e => inl e
  | inr v => inr (PyDict [(KStr "ParameterKey", name param);
                          (KStr "ParameterValue", v)])
  end.

Definition main (yaml_file_path params_json_path : Path) (users : list string)
    : IO unit :=
  params <- set_params_list yaml_file_path users ;;
  print [Lit (String PyStr.LF "Summary of parameters and its values:")] ;;;
  params_dict <- lift (comprehension entry params) ;;
  for_each (fun param =>
              print [Lit "  -Name: "; Fmt (name param)] ;;;
              v <- lift (value param) ;;
              print [Lit "  -Value: "; Fmt v]) params ;;;
  print [Lit (String PyStr.LF "Saving params file json to ");
         Lit (Pathlib.to_string params_json_path)] ;;;
  open_w params_json_path ;;;
  dump (PyList params_dict) params_json_path 4 ;;;
  print [Lit (String PyStr.LF "Finish process!")].

(** How the process ends: normally, or with the traceback of an
    exception that nothing caught. *)
Inductive exit :=
| Finished
| Traceback (e : exn).

(** The [__main__] block, from [sys.argv[1:]]. *)
Definition run (argv : list string) (w : world) : world * exit :=
  match argv with
  | [] => (w, Traceback IndexError)
  | arg :: users =>
      match validate_yaml_file (Pathlib.of_string arg) with
      | inl e => (w, Traceback e)
      | inr (directory_iac, yaml_file_path) =>
          let params_file_path := Pathlib.child directory_iac "params.json" in
          match main yaml_file_path params_file_path users w with
          | (w', inr _) => (w', Finished)
          | (w', inl KeyboardInterrupt) =>
              match print [Lit (String PyStr.LF "Proccess Terminated! ");
                           Lit EmptyString] w' with
              | (w'', _) => (w'', Finished)
              end
          | (w', inl e) => (w', Traceback e)
          end
      end
  end.

End Pipeline.

(** ** Notions used in the statements *)

(** A line without its trailing white space and trailing colons, as
    [is_not_aws_cloudformation_sections] compares it with the labels. *)
Definition stripped (line : string) : string :=
  PyStr.rstrip_char ":" (PyStr.rstrip line).

(** A line that begins with white space. *)
Definition indented (line : string) : bool :=
  match line with
  | String c _ => PyStr.isspace c
  | EmptyString => false
  end.

(** A line that mentions the name of the parameters section anywhere. *)
Definition mentions_parameters (line : string) : bool :=
  PyStr.contains AWS_CLOUDFORMATION_PARAMETERS_SECTION_NAME line.

(** The lines of a file as [readlines] gives them. *)
Definition lines_of (content : string) : list string :=
  PyStr.splitlines_keep (PyStr.translate_newlines content).

(** A template whose description mentions the word Parameters before
    the section of that name. *)
Definition template_with_mention : string :=
  PyStr.text [ "AWSTemplateFormatVersion: '2010-09-09'";
               "Description: Parameters of the data stack";
               "Parameters:";
               "  Env:";
               "    Type: String";
               "Resources:";
               "  Bucket:";
               "    Type: AWS::S3::Bucket" ].

(** A template without parameters. *)
Definition template_without_parameters : string :=
  PyStr.text [ "AWSTemplateFormatVersion: '2010-09-09'";
               "Resources:";
               "  Bucket:";
               "    Type: AWS::S3::Bucket" ].

(** The template of the scenario: a text parameter and a number. *)
Definition template_env_count : string :=
  PyStr.text [ "Parameters:";
               "  Env:";
               "    Type: String";
               "    Description: deployment env";
               "  Count:";
               "    Type: Number";
               "Resources:";
               "  Bucket:";
               "    Type: AWS::S3::Bucket" ].

Definition section_env_count : string :=
  PyStr.text [ "  Env:";
               "    Type: String";
               "    Description: deployment env";
               "  Count:";
               "    Type: Number" ].

(** What PyYAML loads from [section_env_count]; this stand-in for the
    library knows that one document. *)
Definition yaml_env_count (text : string) : option pyval :=
  if String.eqb text section_env_count then
    Some (PyDict
            [ (KStr "Env", PyDict [ (KStr "Type", PyStr "String");
                                    (KStr "Description", PyStr "deployment env") ]);
              (KStr "Count", PyDict [ (KStr "Type", PyStr "Number") ]) ])
  else None.

(** A world with one file, nothing printed and nothing opened yet. *)
Definition world_with (path content : string) (keys : list keyboard) : world :=
  {| stdin := keys; stdout := []; files := {[ path := content ]};
     unwritable := ∅; opened := [] |}.

(** A record of the declaration [name] of a type tag, with the raw
    value that was stored for it. *)
Definition record (name tag raw : string) : Param :=
  {| name := PyStr name; param_type := PyStr tag; description := PyStr EmptyString;
     _value := Some (PyStr raw) |}.

(** A declaration that waits for its value. *)
Definition declared (name tag : string) : Param :=
  {| name := PyStr name; param_type := PyStr tag; description := PyStr EmptyString;
     _value := None |}.

(** What [set_param] shows for a declaration up to its prompt. *)
Definition shown (param : Param) : list output :=
  [ Print [Lit "  -Set value for param "; Fmt (name param); Lit ":"];
    Print [Lit "    -Type: "; Fmt (param_type param)] ]
  ++ (if Py.truth (description param)
      then [Print [Lit "    -Description: "; Fmt (description param)]]
      else [])
  ++ [Prompt "    -Value: "].

(** The line that [main] prints when the collection is over. *)
Definition summary_header : output :=
  Print [Lit (String PyStr.LF "Summary of parameters and its values:")].

(** The last thing on the console. *)
Definition last_output (w : world) : option output := List.last (map Some (stdout w)) None.

(** A keyboard alone: no file matters to what is typed. *)
Definition keyboard_only (keys : list keyboard) : world :=
  {| stdin := keys; stdout := []; files := ∅; unwritable := ∅; opened := [] |}.

(** The check of [validate_yaml_file] on a command-line argument. *)
Definition accepted (arg : string) : bool :=
  PyStr.endswith "yaml" (Pathlib.suffix (Pathlib.of_string arg))
  || PyStr.endswith "yml" (Pathlib.suffix (Pathlib.of_string arg)).

(** The extensions that are recognized for a template, [.yaml] and
    [.yml], as the specification and the message of [IsNotYamlFile]
    name them. *)
Definition recognized_extension (suffix : string) : bool :=
  String.eqb suffix ".yaml" || String.eqb suffix ".yml".

(** The path of the output next to the template [arg]. *)
Definition output_path (arg : string) : Path :=
  Pathlib.child (Pathlib.parent (Pathlib.of_string arg)) "params.json".

(** A computation that leaves every file as it is. *)
Definition keeps_files {A : Type} (m : IO A) : Prop :=
  forall w, files (fst (m w)) = files w.

(** The entry of the output for a name and a value. *)
Definition entry_of (k : pyval) (v : pyval) : pyval :=
  PyDict [(KStr "ParameterKey", k); (KStr "ParameterValue", v)].

(** The records and the entries of a run that collected and coerced
    every declaration of [items]: one record per declaration, in the
    order of the mapping, and for each record the entry of its name and
    of its coerced value. *)
Definition complete (items : list (key * pyval)) (params : list Param)
    (entries : list pyval) : Prop :=
  map name params = map (fun item => Py.of_key (fst item)) items
  /\ Forall2 (fun param e => exists v, value param = inr v
                                        /\ e = entry_of (name param) v)
             params entries.

(** ** Notions about numerals *)

(** A text of decimal digits. *)
Fixpoint all_digits (s : string) : bool :=
  match s with
  | EmptyString => true
  | String c s' => Float64.is_digit c && all_digits s'
  end.

(** The number that the digits of [s] add to [acc]. *)
Fixpoint dval (s : string) (acc : Z) : Z :=
  match s with
  | EmptyString => acc
  | String c s' => dval s' (10 * acc + Float64.digit_val c)
  end.

(** A text that does not go on with a digit. *)
Definition no_digit_ahead (s : string) : bool :=
  match s with
  | EmptyString => true
  | String c _ => negb (Float64.is_digit c)
  end.

(** What follows a value in the output of the encoder: the end, a
    comma, or a line feed. *)
Definition after_value (s : string) : bool :=
  match s with
  | EmptyString => true
  | String c _ => Ascii.eqb c "," || Ascii.eqb c PyStr.LF
  end.

(** The text of a fraction, none for no digits. *)
Definition fraction_text (fp : string) : string :=
  match fp with EmptyString => EmptyString | _ => "." +:+ fp end.

(** The text of an exponent, given as its sign and its digits. *)
Definition exponent_part (ex : option (bool * string)) : string :=
  match ex with
  | None => EmptyString
  | Some (neg, ds) => "e" +:+ (if neg then "-" else "+") +:+ ds
  end.

(** The text of a float without its sign: the digits before the point,
    those behind it when there are any, and the exponent when there is
    one. *)
Definition numeral (ip fp : string) (ex : option (bool * string)) : string :=
  ip +:+ fraction_text fp +:+ exponent_part ex.

(** The number of an exponent part; none counts as zero. *)
Definition exponent_value (ex : option (bool * string)) : Z :=
  match ex with
  | None => 0%Z
  | Some (neg, ds) => if neg then (- dval ds 0)%Z else dval ds 0
  end.

(** The parts of a numeral that JSON takes for a float: digits before
    the point, no leading zero unless it stands alone, digits in the
    exponent when there is one, and a fraction or an exponent. *)
Definition is_numeral (ip fp : string) (ex : option (bool * string)) : Prop :=
  (exists c ip', ip = String c ip'
                 /\ (Ascii.eqb c "0" = false \/ ip' = EmptyString))
  /\ all_digits ip = true
  /\ all_digits fp = true
  /\ match ex with
     | None => fp <> EmptyString
     | Some (_, ds) => all_digits ds = true /\ ds <> EmptyString
     end.

(** A text without white space and without underscores. *)
Fixpoint clean (s : string) : bool :=
  match s with
  | EmptyString => true
  | String c s' =>
      negb (Float64.float_isspace c) && negb (Ascii.eqb c "_") && clean s'
  end.

(** The sign of a numeral. *)
Definition sign_text (neg : bool) : string := if neg then "-" else EmptyString.

(** ** Notions about JSON documents *)

(** The values that the encoder writes and the decoder gives back as
    they were: every float a binary64, the keys of a dictionary texts,
    none of them twice, and no date. *)
#[warnings="-register-all"] Inductive jsonable : pyval -> Prop :=
| jsonable_none : jsonable PyNone
| jsonable_bool (b : bool) : jsonable (PyBool b)
| jsonable_int (z : Z) : jsonable (PyInt z)
| jsonable_float (x : Float64.t) :
    Float64.canonical x = true -> jsonable (PyFloat x)
| jsonable_str (s : string) : jsonable (PyStr s)
| jsonable_list (l : list pyval) : Forall jsonable l -> jsonable (PyList l)
| jsonable_dict (d : list (string * pyval)) :
    NoDup (map fst d) -> Forall (fun kv => jsonable (snd kv)) d ->
    jsonable (PyDict (Py.text_keys d)).

(** The text of a key in a document, empty for a key that has none. *)
Definition key_name (k : key) : string :=
  match Json.key_text k with
  | inr s => s
  | inl _ => EmptyString
  end.

(** The document of a value at a nesting level: the text that the
    encoder yields for a value that holds no date. *)
Fixpoint document (indent level : nat) (v : pyval) : string :=
  match v with
  | PyNone => "null"
  | PyBool true => "true"
  | PyBool false => "false"
  | PyInt z => Json.int_repr z
  | PyFloat f => Json.floatstr f
  | PyStr s => Json.encode_basestring_ascii s
  | PyDate _ _ _ => EmptyString
  | PyList [] => "[]"
  | PyList l =>
      "[" +:+ Json.newline_indent indent (S level)
      +:+ PyStr.join ("," +:+ Json.newline_indent indent (S level))
            (map (document indent (S level)) l)
      +:+ Json.newline_indent indent level +:+ "]"
  | PyDict [] => "{}"
  | PyDict d =>
      "{" +:+ Json.newline_indent indent (S level)
      +:+ PyStr.join ("," +:+ Json.newline_indent indent (S level))
            (map (fun kv => Json.encode_basestring_ascii (key_name (fst kv)) +:+ ": "
                            +:+ document indent (S level) (snd kv)) d)
      +:+ Json.newline_indent indent level +:+ "}"
  end.

(** The number of values in [v], each item of a list and each member of
    a dictionary counted once more: the decoder needs no more fuel. *)
Fixpoint weight (v : pyval) : nat :=
  match v with
  | PyList l => S (list_sum (map (fun x => S (weight x)) l))
  | PyDict d => S (list_sum (map (fun kv => S (weight (snd kv))) d))
  | _ => 1
  end.

(** A character that starts the text of a value. *)
Definition value_start (c : ascii) : bool :=
  Float64.is_digit c
  || Ascii.eqb c Json.DQ || Ascii.eqb c "{" || Ascii.eqb c "[" || Ascii.eqb c "-"
  || Ascii.eqb c "n" || Ascii.eqb c "t" || Ascii.eqb c "f"
  || Ascii.eqb c "N" || Ascii.eqb c "I".

(** The separator of the items at a nesting level. *)
Definition separator (indent level : nat) : string :=
  "," +:+ Json.newline_indent indent level.

(** The text of a member of a dictionary at a nesting level. *)
Definition member_text (indent level : nat) (kv : string * pyval) : string :=
  Json.encode_basestring_ascii (fst kv) +:+ ": " +:+ document indent level (snd kv).

(** The fuel that the items of a list, or the members of a dictionary,
    take. *)
Definition items_weight (l : list pyval) : nat :=
  list_sum (map (fun x => S (weight x)) l).

Definition members_weight (d : list (string * pyval)) : nat :=
  list_sum (map (fun kv => S (weight (snd kv))) d).

(** What the decoder does with a given fuel: on a value, on the items
    of a list behind the opening bracket, and on the members of a
    dictionary behind the opening brace. *)
Definition reads_values (indent fuel : nat) : Prop :=
  forall v level rest,
    jsonable v -> weight v <= fuel -> after_value rest = true ->
    Json.scan_once fuel (document indent level v +:+ rest) = Some (v, rest).

Definition reads_items (indent fuel : nat) : Prop :=
  forall items acc level rest,
    items <> [] -> Forall jsonable items -> items_weight items <= fuel ->
    Json.parse_array fuel
      (PyStr.join (separator indent (S level))
         (map (document indent (S level)) items)
       +:+ Json.newline_indent indent level +:+ "]" +:+ rest) acc
    = Some (PyList (acc ++ items), rest).

Definition reads_members (indent fuel : nat) : Prop :=
  forall d acc level rest,
    d <> [] -> Forall (fun kv => jsonable (snd kv)) d ->
    NoDup (map fst acc ++ map fst d) -> members_weight d <= fuel ->
    Json.parse_object fuel
      (PyStr.join (separator indent (S level))
         (map (member_text indent (S level)) d)
       +:+ Json.newline_indent indent level +:+ "}" +:+ rest) acc
    = Some (PyDict (Py.text_keys (acc ++ d)), rest).



(** ** Notions about the lines of a file and the console *)

(** A line as [readlines] cuts it: not empty, and with no LF before its
    last character. *)
Fixpoint one_line (l : string) : bool :=
  match l with
  | EmptyString => false
  | String c l' =>
      match l' with
      | EmptyString => true
      | _ => negb (Ascii.eqb c PyStr.LF) && one_line l'
      end
  end.

(** A line that its LF ends. *)
Definition ends_with_newline (l : string) : bool :=
  PyStr.endswith (String PyStr.LF EmptyString) l.

(** A text that holds a CR. *)
Definition holds_cr (s : string) : bool :=
  PyStr.contains (String PyStr.CR EmptyString) s.

(** A line that is a section label for
    [is_not_aws_cloudformation_sections]. *)
Definition is_label (l : string) : bool :=
  negb (is_not_aws_cloudformation_sections l).

(** A computation that leaves the set of the paths that cannot be
    opened as it is. *)
Definition keeps_unwritable {A : Type} (m : IO A) : Prop :=
  forall w, unwritable (fst (m w)) = unwritable w.

(** ** Notions about the collection *)

(** The line that [set_params_list] prints before the first prompt. *)
Definition collection_header : output :=
  Print [Lit "Set Values for Json Params File:"].

(** Lines that the operator types one after the other. *)
Definition typed (lines : list string) : list keyboard := map Typed lines.

(** The text that is stored for a typed line: the line itself without
    extra tokens, the line, a hyphen and the tokens joined by hyphens
    with them. *)
Definition suffixed (users : list string) (line : string) : string :=
  match users with
  | [] => line
  | _ => line +:+ "-" +:+ PyStr.join "-" users
  end.

(** The declarations with one text stored in each, in their order. *)
Fixpoint stored (decls : list Param) (raws : list string) : list Param :=
  match decls, raws with
  | d :: ds, r :: rs => set_value d (PyStr r) :: stored ds rs
  | _, _ => []
  end.

(** A declaration whose prompt can be answered: any declaration without
    extra tokens; with them one of type [String] or
    [CommaDelimitedList], the two coerced values to which a text can be
    added in place. *)
Definition takes_tokens (users : list string) (d : Param) : bool :=
  match users with
  | [] => true
  | _ =>
      Py.eq (param_type d) (PyStr "String")
      || Py.eq (param_type d) (PyStr "CommaDelimitedList")
  end.

(** What is stored for a line that was typed for such a declaration:
    the line without extra tokens; with them the suffixed line for a
    text, and for a list the pieces of the line and then the characters
    of the suffix. *)
Definition kept (users : list string) (d : Param) (line : string) : pyval :=
  match users with
  | [] => PyStr line
  | _ =>
      if Py.eq (param_type d) (PyStr "CommaDelimitedList")
      then PyList (map PyStr (PyStr.split "," line)
                   ++ map PyStr (Py.chars ("-" +:+ PyStr.join "-" users)))
      else PyStr (line +:+ "-" +:+ PyStr.join "-" users)
  end.

(** A key that is a date. *)
Definition dated (k : key) : bool :=
  match k with
  | KDate _ _ _ => true
  | _ => false
  end.

(** What the console shows for the declarations that were asked. *)
Definition prompts (decls : list Param) : list output :=
  List.concat (map shown decls).

(** A declaration that [set_params_list] can make a record of: a
    mapping with a [Type]. *)
Definition well_declared (item : key * pyval) : bool :=
  match snd item with
  | PyDict d =>
      match Py.assoc "Type" d with
      | Some _ => true
      | None => false
      end
  | _ => false
  end.

(** The exception that a key other than a typed line raises in
    [input]. *)
Definition raised_by (key : keyboard) : exn :=
  match key with
  | CtrlC => KeyboardInterrupt
  | _ => EOFError
  end.

(** ** Notions about the end of a run *)

(** The line that the [__main__] block prints for an interruption; the
    text of a [KeyboardInterrupt] is empty. *)
Definition terminated_line : output :=
  Print [Lit (String PyStr.LF "Proccess Terminated! "); Lit EmptyString].

Definition saving_line (out : Path) : output :=
  Print [Lit (String PyStr.LF "Saving params file json to ");
         Lit (Pathlib.to_string out)].

Definition finish_line : output :=
  Print [Lit (String PyStr.LF "Finish process!")].

(** The two lines of the summary for a record; the second one needs the
    coerced value. *)
Definition summary_of (param : Param) : list output :=
  Print [Lit "  -Name: "; Fmt (name param)]
  :: match value param with
     | inr v => [Print [Lit "  -Value: "; Fmt v]]
     | inl _ => []
     end.

Definition summary_lines (params : list Param) : list output :=
  List.concat (map summary_of params).

(** The path of the template [arg] as [open] gets it. *)
Definition template_path (arg : string) : string :=
  Pathlib.to_string (Pathlib.of_string arg).

(** ** Notions about names and texts *)

(** A file name made of a stem that is not empty, a dot, and an
    extension without a dot that ends with yaml or yml. *)
Definition yaml_name (n : string) : Prop :=
  exists stem ext,
    n = stem +:+ "." +:+ ext
    /\ stem <> EmptyString
    /\ PyStr.contains "." ext = false
    /\ (PyStr.endswith "yaml" ext = true \/ PyStr.endswith "yml" ext = true).

(** A text of ASCII characters. *)
Definition is_ascii (c : ascii) : bool := (nat_of_ascii c <? 128)%nat.

Fixpoint ascii_text (s : string) : bool :=
  match s with
  | EmptyString => true
  | String c s' => is_ascii c && ascii_text s'
  end.

(** The three type tags of [TYPES_MAPPING]. *)
Definition supported (tag : pyval) : bool :=
  match tag with
  | PyStr t =>
      String.eqb t "String" || String.eqb t "Number"
      || String.eqb t "CommaDelimitedList"
  | _ => false
  end.

(** ** Templates of the scenarios *)

(** A template with one text parameter. *)
Definition template_env : string :=
  PyStr.text [ "Parameters:";
               "  Env:";
               "    Type: String";
               "Resources:";
               "  Bucket:";
               "    Type: AWS::S3::Bucket" ].

(** A template whose parameter has no type. *)
Definition template_untyped : string :=
  PyStr.text [ "Parameters:";
               "  Env:";
               "    Description: deployment env";
               "Resources:";
               "  Bucket:";
               "    Type: AWS::S3::Bucket" ].

(** A template whose parameters are an empty mapping. *)
Definition template_empty_mapping : string :=
  PyStr.text [ "Parameters:";
               "  {}";
               "Resources:";
               "  Bucket:";
               "    Type: AWS::S3::Bucket" ].

(** A template whose section of parameters is a plain text. *)
Definition template_plain_text : string :=
  PyStr.text [ "Parameters:";
               "  to be defined";
               "Resources:";
               "  Bucket:";
               "    Type: AWS::S3::Bucket" ].

(** A template whose section of parameters is no YAML document: the
    bracket is not closed. *)
Definition template_broken : string :=
  PyStr.text [ "Parameters:";
               "  Env: [";
               "Resources:";
               "  Bucket:";
               "    Type: AWS::S3::Bucket" ].

(** A template whose parameter is named by a date. *)
Definition template_dated : string :=
  PyStr.text [ "Parameters:";
               "  2024-01-01:";
               "    Type: String";
               "Resources:";
               "  Bucket:";
               "    Type: AWS::S3::Bucket" ].

(** A template with one list parameter. *)
Definition template_tags : string :=
  PyStr.text [ "Parameters:";
               "  Tags:";
               "    Type: CommaDelimitedList";
               "Resources:";
               "  Bucket:";
               "    Type: AWS::S3::Bucket" ].

(** What PyYAML loads from the sections of these templates; this
    stand-in for the library knows these documents and takes any other
    text, as the section of [template_broken], for a document that does
    not load. *)
Definition yaml_documents : list (key * pyval) :=
  [ (KStr section_env_count,
     PyDict [ (KStr "Env", PyDict [ (KStr "Type", PyStr "String");
                                    (KStr "Description", PyStr "deployment env") ]);
              (KStr "Count", PyDict [ (KStr "Type", PyStr "Number") ]) ]);
    (KStr (PyStr.text ["  Env:"; "    Type: String"]),
     PyDict [ (KStr "Env", PyDict [ (KStr "Type", PyStr "String") ]) ]);
    (KStr (PyStr.text ["  Env:"; "    Description: deployment env"]),
     PyDict [ (KStr "Env", PyDict [ (KStr "Description", PyStr "deployment env") ]) ]);
    (KStr (PyStr.text ["  {}"]), PyDict []);
    (KStr (PyStr.text ["  to be defined"]), PyStr "to be defined");
    (KStr (PyStr.text ["  2024-01-01:"; "    Type: String"]),
     PyDict [ (KDate 2024 1 1, PyDict [ (KStr "Type", PyStr "String") ]) ]);
    (KStr (PyStr.text ["  Tags:"; "    Type: CommaDelimitedList"]),
     PyDict [ (KStr "Tags", PyDict [ (KStr "Type", PyStr "CommaDelimitedList") ]) ]) ].

Definition yaml_known (text : string) : option pyval :=
  Py.assoc text yaml_documents.

(** The text that is left in the output of the run on
    [template_dated]: the document up to the name that is a date. *)
Definition half_document : string :=
  "[" +:+ Json.newline_indent 4 1 +:+ "{" +:+ Json.newline_indent 4 2
  +:+ Json.encode_basestring_ascii "ParameterKey" +:+ ": ".

(** ** Facts about strings *)

Lemma startswith_trans (a b c : string) :
  PyStr.startswith a b = true -> PyStr.startswith b c = true ->
  PyStr.startswith a c = true.
Proof.
  revert b c. induction a as [|x a IH]; intros b c Hab Hbc; simpl; [reflexivity|].
  destruct b as [|y b]; simpl in Hab; [discriminate|].
  destruct c as [|z c]; simpl in Hbc; [discriminate|].
  apply andb_true_iff in Hab as [Hxy Hab], Hbc as [Hyz Hbc].
  apply Ascii.eqb_eq in Hxy, Hyz. subst. rewrite Ascii.eqb_refl. simpl.
  eapply IH; eassumption.
Qed.

Lemma startswith_contains (p s : string) :
  PyStr.startswith p s = true -> PyStr.contains p s = true.
Proof. intros H. destruct s; simpl in *; rewrite H; reflexivity. Qed.

Lemma rstrip_with_prefix (f : ascii -> bool) (s : string) :
  PyStr.startswith (PyStr.rstrip_with f s) s = true.
Proof.
  induction s as [|c s IH]; simpl; [reflexivity|].
  destruct (PyStr.rstrip_with f s) as [|d r] eqn:E.
  - destruct (f c); simpl; [reflexivity|]. rewrite Ascii.eqb_refl. reflexivity.
  - simpl. rewrite Ascii.eqb_refl. exact IH.
Qed.

(** What [rstrip_with] leaves starts like the line, when anything is left. *)
Lemma rstrip_with_head (f : ascii -> bool) (c : ascii) (s : string) :
  PyStr.rstrip_with f (String c s) = EmptyString \/
  exists r, PyStr.rstrip_with f (String c s) = String c r.
Proof.
  simpl. destruct (PyStr.rstrip_with f s).
  - destruct (f c); eauto.
  - eauto.
Qed.

(** ** Section boundaries *)

Lemma stripped_prefix (line : string) :
  PyStr.startswith (stripped line) line = true.
Proof.
  unfold stripped, PyStr.rstrip_char, PyStr.rstrip.
  eapply startswith_trans; apply rstrip_with_prefix.
Qed.

Lemma is_not_section_among_false (sections : list string) (line : string) :
  is_not_section_among sections line = false <-> In (stripped line) sections.
Proof.
  induction sections as [|s rest IH]; simpl.
  - split; [discriminate | tauto].
  - fold (stripped line).
    destruct (String.eqb s (stripped line)) eqn:E.
    + apply String.eqb_eq in E.
      assert (PyStr.contains s line = true) as ->.
      { apply startswith_contains. rewrite E. apply stripped_prefix. }
      simpl. split; auto.
    + rewrite andb_false_r. rewrite IH.
      apply String.eqb_neq in E. split; [auto | intros [H|H]; [contradiction | auto]].
Qed.

Lemma stripped_indented (line : string) :
  indented line = true ->
  stripped line = EmptyString \/ indented (stripped line) = true.
Proof.
  destruct line as [|c s]; simpl; [discriminate|]. intros Hc.
  unfold stripped, PyStr.rstrip_char, PyStr.rstrip.
  destruct (rstrip_with_head PyStr.isspace c s) as [-> | [r ->]]; [left; reflexivity|].
  destruct (rstrip_with_head (Ascii.eqb ":") c r) as [-> | [r' ->]]; [left; reflexivity|].
  right. exact Hc.
Qed.

Lemma indented_is_not_section (line : string) :
  indented line = true -> is_not_aws_cloudformation_sections line = true.
Proof.
  intros H. destruct (is_not_aws_cloudformation_sections line) eqn:E; [reflexivity|].
  apply is_not_section_among_false in E.
  destruct (stripped_indented line H) as [Hs | Hs].
  - rewrite Hs in E. simpl in E. intuition discriminate.
  - simpl in E.
    repeat (destruct E as [E | E]; [rewrite <- E in Hs; discriminate Hs|]).
    destruct E.
Qed.

Lemma collect_param_lines_indented (body rest : list string) :
  Forall (fun l => indented l = true) body ->
  collect_param_lines (body ++ rest) = body ++ collect_param_lines rest.
Proof.
  induction 1 as [|l body Hl _ IH]; simpl; [reflexivity|].
  rewrite (indented_is_not_section l Hl), IH. reflexivity.
Qed.

Lemma collect_param_lines_prefix (lines : list string) :
  exists post,
    lines = collect_param_lines lines ++ post
    /\ Forall (fun l => is_not_aws_cloudformation_sections l = true)
              (collect_param_lines lines)
    /\ match post with
       | [] => True
       | l :: _ => is_not_aws_cloudformation_sections l = false
       end.
Proof.
  induction lines as [|l lines (post & Hl & Hs & Hp)]; simpl.
  - exists []. repeat split. constructor.
  - destruct (is_not_aws_cloudformation_sections l) eqn:E.
    + exists post. split; [simpl; f_equal; exact Hl|]. split; [|exact Hp].
      constructor; [exact E | exact Hs].
    + exists (l :: lines). split; [reflexivity|]. split; [constructor | exact E].
Qed.

(** C10: a line ends the section exactly when, its trailing white space
    and then its trailing colons removed and its leading white space
    kept, it is one of the ten section labels.  The loop that collects
    the section keeps every line up to the first such line and nothing
    behind it: what it returns is the longest run of lines at the head
    that holds no label line.  So no indented line ends it, and a run
    of indented lines behind the header is kept whole, lines such as an
    indented [Description:] attribute included; a line that is not
    indented and is no label, as a comment is, is kept too. *)
Theorem boundary_is_whole_line_label :
  (forall line,
     is_not_aws_cloudformation_sections line = false <->
     In (PyStr.rstrip_char ":" (PyStr.rstrip line)) AWS_CLOUDFORMATION_SECTIONS_LIST)
  /\ (forall lines,
        exists post,
          lines = collect_param_lines lines ++ post
          /\ Forall (fun l =>
                       ~ In (PyStr.rstrip_char ":" (PyStr.rstrip l))
                            AWS_CLOUDFORMATION_SECTIONS_LIST)
                    (collect_param_lines lines)
          /\ match post with
             | [] => True
             | l :: _ => In (PyStr.rstrip_char ":" (PyStr.rstrip l))
                            AWS_CLOUDFORMATION_SECTIONS_LIST
             end)
  /\ (forall line,
        indented line = true -> is_not_aws_cloudformation_sections line = true)
  /\ (forall body rest,
        Forall (fun l => indented l = true) body ->
        collect_param_lines (body ++ rest) = body ++ collect_param_lines rest)
  /\ is_not_aws_cloudformation_sections
       (PyStr.text ["    Description: deployment env"]) = true
  /\ is_not_aws_cloudformation_sections (PyStr.text ["Description:"]) = false
  /\ collect_param_lines
       [ PyStr.text ["# the environment"]; PyStr.text ["  Env:"];
         PyStr.text ["    Type: String"]; PyStr.text ["Description: Resources"];
         PyStr.text ["Resources:"]; PyStr.text ["  Bucket:"] ]
     = [ PyStr.text ["# the environment"]; PyStr.text ["  Env:"];
         PyStr.text ["    Type: String"]; PyStr.text ["Description: Resources"] ].
Proof.
  split; [|split; [|split; [|split; [|split; [|split]]]]].
  - intros line. apply is_not_section_among_false.
  - intros lines. destruct (collect_param_lines_prefix lines) as (post & Hl & Hs & Hp).
    exists post. split; [exact Hl|]. split.
    + eapply Forall_impl; [exact Hs|]. intros l Ht Hin.
      apply is_not_section_among_false in Hin.
      unfold is_not_aws_cloudformation_sections in Ht. congruence.
    + destruct post as [|l post]; [exact I|].
      apply is_not_section_among_false. exact Hp.
  - apply indented_is_not_section.
  - apply collect_param_lines_indented.
  - reflexivity.
  - reflexivity.
  - reflexivity.
Qed.

Lemma boundary_is_whole_line_label_witness :
  collect_param_lines
    ([PyStr.text ["  Env:"]; PyStr.text ["    Description: Resources"]]
       ++ [PyStr.text ["Resources:"]; PyStr.text ["  Bucket:"]])
  = [PyStr.text ["  Env:"]; PyStr.text ["    Description: Resources"]].
Proof.
  rewrite (proj1 (proj2 (proj2 (proj2 boundary_is_whole_line_label)))).
  - reflexivity.
  - repeat constructor.
Defined.

(** ** Where the section starts *)

Lemma get_params_section_no_mention (lines : list string) :
  Forall (fun l => mentions_parameters l = false) lines ->
  get_params_section lines = [].
Proof.
  induction 1 as [|l lines Hl _ IH]; simpl; [reflexivity|].
  unfold mentions_parameters in Hl. rewrite Hl. exact IH.
Qed.

Lemma get_params_section_first_mention (pre : list string) (line : string)
    (rest : list string) :
  Forall (fun l => mentions_parameters l = false) pre ->
  mentions_parameters line = true ->
  get_params_section (pre ++ line :: rest) = collect_param_lines rest.
Proof.
  intros Hpre Hline. induction Hpre as [|l pre Hl _ IH]; simpl.
  - unfold mentions_parameters in Hline. rewrite Hline. reflexivity.
  - unfold mentions_parameters in Hl. rewrite Hl. exact IH.
Qed.

(** C2: the section starts behind the first line that contains the
    word Parameters anywhere, not behind the first line that is the
    header: in [template_with_mention] the description mentions the
    word, the header itself then ends the extraction at once, and the
    declared parameter is lost, while the same template without that
    description yields its two lines. *)
Theorem section_starts_at_first_mention :
  (forall pre line rest,
     Forall (fun l => mentions_parameters l = false) pre ->
     mentions_parameters line = true ->
     get_params_section (pre ++ line :: rest) = collect_param_lines rest)
  /\ get_params_section (lines_of template_with_mention) = []
  /\ get_params_section
       (lines_of (PyStr.text [ "AWSTemplateFormatVersion: '2010-09-09'";
                               "Parameters:";
                               "  Env:";
                               "    Type: String";
                               "Resources:" ]))
     = [ PyStr.text ["  Env:"]; PyStr.text ["    Type: String"] ].
Proof.
  split; [|split].
  - apply get_params_section_first_mention.
  - reflexivity.
  - reflexivity.
Qed.

Lemma section_starts_at_first_mention_witness :
  get_params_section
    ([PyStr.text ["Resources:"]]
       ++ PyStr.text ["    Description: see Parameters below"]
       :: [PyStr.text ["    Type: AWS::S3::Bucket"]])
  = [PyStr.text ["    Type: AWS::S3::Bucket"]].
Proof.
  rewrite (proj1 section_starts_at_first_mention).
  - reflexivity.
  - repeat constructor.
  - reflexivity.
Defined.

(** ** Coercion *)

Lemma split_not_nil (sep : ascii) (s : string) : PyStr.split sep s <> [].
Proof.
  destruct s as [|c s]; simpl; [discriminate|].
  destruct (Ascii.eqb c sep); [discriminate|].
  destruct (PyStr.split sep s); discriminate.
Qed.

Lemma join_split (sep : ascii) (s : string) :
  PyStr.join (String sep EmptyString) (PyStr.split sep s) = s.
Proof.
  unfold PyStr.join. induction s as [|c s IH]; simpl; [reflexivity|].
  destruct (Ascii.eqb c sep) eqn:E.
  - apply Ascii.eqb_eq in E. subst c.
    pose proof (split_not_nil sep s) as Hne.
    destruct (PyStr.split sep s) as [|h t]; [contradiction|].
    simpl in *. rewrite IH. reflexivity.
  - destruct (PyStr.split sep s) as [|h t] eqn:Es.
    + exfalso. exact (split_not_nil sep s Es).
    + simpl in *. destruct t; simpl in *; rewrite <- IH; reflexivity.
Qed.

Lemma split_pieces (sep : ascii) (s : string) :
  Forall (fun piece => PyStr.contains (String sep EmptyString) piece = false)
         (PyStr.split sep s).
Proof.
  induction s as [|c s IH]; simpl.
  - repeat constructor.
  - destruct (Ascii.eqb c sep) eqn:E.
    + constructor; [reflexivity | exact IH].
    + destruct (PyStr.split sep s) as [|h t]; [repeat constructor; simpl; rewrite Ascii.eqb_sym, E; reflexivity|].
      inversion IH as [|? ? Hh Ht]; subst. constructor; [|exact Ht].
      simpl. rewrite Ascii.eqb_sym, E. simpl. exact Hh.
Qed.


(** C5: the type tag decides the coercion: [String] leaves the raw text
    as it is, [Number] reads it as a float (42 for the text 42, a
    [ValueError] for the text abc), and [CommaDelimitedList] cuts it at
    every comma into the pieces that, joined by commas, give the text
    back. *)
Theorem coercion_by_type_tag :
  (forall n raw, value (record n "String" raw) = inr (PyStr raw))
  /\ (forall n raw,
        value (record n "Number" raw)
        = match Float64.of_string raw with
          | Some f => inr (PyFloat f)
          | None => inl ValueError
          end)
  /\ (forall n, value (record n "Number" "42")
                = inr (PyFloat (Float64.Fin false (42 * 2 ^ 47) (-47))))
  /\ (forall n, value (record n "Number" "abc") = inl ValueError)
  /\ (forall n raw,
        value (record n "CommaDelimitedList" raw)
        = inr (PyList (map PyStr (PyStr.split "," raw)))
        /\ PyStr.join "," (PyStr.split "," raw) = raw
        /\ Forall (fun piece => PyStr.contains "," piece = false)
                  (PyStr.split "," raw))
  /\ (forall n, value (record n "CommaDelimitedList" "a,b,c")
                = inr (PyList [PyStr "a"; PyStr "b"; PyStr "c"])).
Proof.
  split; [reflexivity|]. split.
  { intros n raw. change (value (record n "Number" raw)) with (float (PyStr raw)).
    unfold float, Py.float. destruct (Float64.of_string raw); reflexivity. }
  split; [reflexivity|]. split; [reflexivity|]. split; [|reflexivity].
  intros n raw. split; [reflexivity|]. split.
  - apply join_split.
  - apply split_pieces.
Qed.

(** ** The extension check *)

Lemma endswith_app (pre p : string) : PyStr.endswith p (pre +:+ p) = true.
Proof.
  induction pre as [|c pre IH]; simpl.
  - destruct p as [|a p]; [reflexivity|].
    change (String.eqb (String a p) (String a p) || PyStr.endswith (String a p) p = true).
    rewrite String.eqb_refl. reflexivity.
  - rewrite IH. apply orb_true_r.
Qed.

(** C9: the check passes for every path whose suffix ends with the
    letters yaml or yml, whatever stands before them in the suffix, as
    for [template.customyaml] and [a.xyml]. *)
Theorem suffix_need_only_end_with_yaml :
  (forall p pre,
     Pathlib.suffix p = pre +:+ "yaml" \/ Pathlib.suffix p = pre +:+ "yml" ->
     validate_yaml_file p = inr (Pathlib.parent p, p))
  /\ Pathlib.suffix (Pathlib.of_string "template.customyaml") = ".customyaml"
  /\ validate_yaml_file (Pathlib.of_string "template.customyaml")
     = inr (Pathlib.of_string ".", Pathlib.of_string "template.customyaml")
  /\ Pathlib.suffix (Pathlib.of_string "a.xyml") = ".xyml"
  /\ validate_yaml_file (Pathlib.of_string "a.xyml")
     = inr (Pathlib.of_string ".", Pathlib.of_string "a.xyml").
Proof.
  split; [|repeat split].
  intros p pre H. unfold validate_yaml_file.
  destruct H as [-> | ->]; rewrite endswith_app; rewrite ?orb_true_r; reflexivity.
Qed.

Lemma suffix_need_only_end_with_yaml_witness :
  validate_yaml_file (Pathlib.of_string "stack/template.notyml")
  = inr (Pathlib.parent (Pathlib.of_string "stack/template.notyml"),
         Pathlib.of_string "stack/template.notyml").
Proof.
  apply (proj1 suffix_need_only_end_with_yaml _ ".not").
  right. reflexivity.
Defined.

(** ** Runs *)

Section Runs.

Variable yaml_parse : string -> option pyval.

(** The run stops at a path that the check of the program refuses. *)
Lemma run_refused (arg : string) (users : list string) (w : world) :
  accepted arg = false ->
  run yaml_parse (arg :: users) w = (w, Traceback IsNotYamlFile).
Proof.
  intros H. unfold run, validate_yaml_file. fold (accepted arg). rewrite H.
  reflexivity.
Qed.

End Runs.

(** C8: the program does not stop at every path whose extension is not
    a recognized one.  It stops at once with [IsNotYamlFile], the world
    as it was, when the suffix of the path does not end with the
    letters yaml or yml, as for [config.txt], and it goes on for the
    two recognized extensions.  But a suffix that is none of [.yaml]
    and [.yml] and ends with these letters passes the check too:
    [a.xyml] is read as a template, its parameters are asked and
    [params.json] is written. *)
Theorem unrecognized_extension_can_pass_the_check :
  (forall yaml_parse arg users w,
     accepted arg = false ->
     run yaml_parse (arg :: users) w = (w, Traceback IsNotYamlFile))
  /\ (forall arg,
        recognized_extension (Pathlib.suffix (Pathlib.of_string arg)) = true ->
        accepted arg = true)
  /\ recognized_extension (Pathlib.suffix (Pathlib.of_string "config.txt")) = false
  /\ accepted "config.txt" = false
  /\ recognized_extension (Pathlib.suffix (Pathlib.of_string "a.xyml")) = false
  /\ (let r := run yaml_env_count ["a.xyml"]
                 (world_with "a.xyml" template_env_count [Typed "prod"; Typed "3"]) in
      snd r = Finished
      /\ opened (fst r) = ["a.xyml"; "params.json"]
      /\ stdin (fst r) = []
      /\ exists text, files (fst r) !! "params.json" = Some text).
Proof.
  split; [exact run_refused|].
  split.
  { intros arg H. unfold recognized_extension in H. unfold accepted.
    apply orb_true_iff in H. destruct H as [H|H]; apply String.eqb_eq in H;
      rewrite H; reflexivity. }
  split; [reflexivity|]. split; [reflexivity|].
  split; [reflexivity|].
  vm_compute. repeat split. eexists. reflexivity.
Qed.

Lemma unrecognized_extension_can_pass_the_check_witness :
  run yaml_env_count ["config.txt"; "dev"]
      (world_with "config.txt" template_env_count [Typed "prod"; Typed "3"])
  = (world_with "config.txt" template_env_count [Typed "prod"; Typed "3"],
     Traceback IsNotYamlFile).
Proof.
  apply (proj1 unrecognized_extension_can_pass_the_check); reflexivity.
Defined.

(** ** Collection *)

Section Collection.

Variable yaml_parse : string -> option pyval.

(** A typed line is stored as it is; extra tokens then go through
    [append_users]. *)
Lemma set_param_typed (users : list string) (param : Param) (w : world)
    (line : string) (rest : list keyboard) :
  stdin w = Typed line :: rest ->
  set_param users param w
  = (with_stdin rest (with_stdout (stdout w ++ shown param) w),
     match users with
     | [] => inr (set_value param (PyStr line))
     | _ => append_users (set_value param (PyStr line)) users
     end).
Proof.
  intros Hin. destruct w as [i o f u op]. simpl in Hin. subst i.
  unfold set_param, shown, bind, print, input, with_stdout, with_stdin; simpl.
  destruct (Py.truth (description param)); simpl;
    destruct users; unfold ret, lift; simpl;
    rewrite <- ?app_assoc; reflexivity.
Qed.

Lemma append_users_string (param : Param) (raw : string) (users : list string) :
  param_type param = PyStr "String" ->
  append_users (set_value param (PyStr raw)) users
  = inr (set_value param (PyStr (raw +:+ "-" +:+ PyStr.join "-" users))).
Proof.
  intros Ht. unfold append_users, value, set_value; simpl. rewrite Ht. reflexivity.
Qed.

Lemma append_users_number (param : Param) (raw : string) (users : list string) :
  param_type param = PyStr "Number" ->
  append_users (set_value param (PyStr raw)) users
  = match Float64.of_string raw with
    | Some _ => inl TypeError
    | None => inl ValueError
    end.
Proof.
  intros Ht. unfold append_users, value, set_value; simpl. rewrite Ht. simpl.
  unfold float, Py.float. destruct (Float64.of_string raw); reflexivity.
Qed.

Lemma append_users_list (param : Param) (raw : string) (users : list string) :
  param_type param = PyStr "CommaDelimitedList" ->
  append_users (set_value param (PyStr raw)) users
  = inr (set_value param
           (PyList (map PyStr (PyStr.split "," raw)
                    ++ map PyStr (Py.chars ("-" +:+ PyStr.join "-" users))))).
Proof.
  intros Ht. unfold append_users, value, set_value; simpl. rewrite Ht. reflexivity.
Qed.

(** A list that is stored in a record cannot be read: the coercion of
    a [CommaDelimitedList] splits a text. *)
Lemma value_of_stored_list (param : Param) (l : list pyval) :
  param_type param = PyStr "CommaDelimitedList" ->
  value (set_value param (PyList l)) = inl AttributeError.
Proof.
  intros Ht. unfold value, set_value; simpl. rewrite Ht. reflexivity.
Qed.

End Collection.

(** C4: the extra tokens are added to what the getter returns, the
    coerced value, and the sum goes back through the setter.  For a
    [String] declaration that is the text that was typed, followed by a
    hyphen and the tokens joined by hyphens: [base-dev-east] for the
    line [base] and the tokens dev and east.  For a [Number]
    declaration the sum of a float and a text is a [TypeError] (a
    [ValueError] when the line is no number) and nothing is stored.
    For a [CommaDelimitedList] declaration the list of the pieces of
    the line is extended by the characters of the hyphen and the
    tokens, one item each, and that list is stored; reading the value
    of the record then raises [AttributeError]. *)
Theorem users_are_appended_to_the_coerced_value :
  (forall users param w line rest,
     users <> [] ->
     param_type param = PyStr "String" ->
     stdin w = Typed line :: rest ->
     snd (set_param users param w)
     = inr (set_value param (PyStr (line +:+ "-" +:+ PyStr.join "-" users))))
  /\ snd (set_param ["dev"; "east"] (declared "Name" "String")
            (keyboard_only [Typed "base"]))
     = inr (record "Name" "String" "base-dev-east")
  /\ (forall users param w line rest,
        users <> [] ->
        param_type param = PyStr "Number" ->
        stdin w = Typed line :: rest ->
        snd (set_param users param w)
        = inl match Float64.of_string line with
              | Some _ => TypeError
              | None => ValueError
              end)
  /\ snd (set_param ["dev"; "east"] (declared "Count" "Number")
            (keyboard_only [Typed "3"]))
     = inl TypeError
  /\ (forall users param w line rest,
        users <> [] ->
        param_type param = PyStr "CommaDelimitedList" ->
        stdin w = Typed line :: rest ->
        snd (set_param users param w)
        = inr (set_value param
                 (PyList (map PyStr (PyStr.split "," line)
                          ++ map PyStr (Py.chars ("-" +:+ PyStr.join "-" users)))))
        /\ value (set_value param
                    (PyList (map PyStr (PyStr.split "," line)
                             ++ map PyStr (Py.chars ("-" +:+ PyStr.join "-" users)))))
           = inl AttributeError)
  /\ snd (set_param ["dev"] (declared "Subnets" "CommaDelimitedList")
            (keyboard_only [Typed "a,b"]))
     = inr (set_value (declared "Subnets" "CommaDelimitedList")
              (PyList [PyStr "a"; PyStr "b"; PyStr "-"; PyStr "d"; PyStr "e";
                       PyStr "v"])).
Proof.
  split; [|split; [|split; [|split; [|split]]]].
  - intros users param w line rest Hu Ht Hin.
    rewrite (set_param_typed users param w line rest Hin). simpl.
    destruct users; [contradiction|]. apply append_users_string. exact Ht.
  - reflexivity.
  - intros users param w line rest Hu Ht Hin.
    rewrite (set_param_typed users param w line rest Hin). simpl.
    destruct users; [contradiction|]. rewrite append_users_number by exact Ht.
    destruct (Float64.of_string line); reflexivity.
  - reflexivity.
  - intros users param w line rest Hu Ht Hin. split.
    + rewrite (set_param_typed users param w line rest Hin). simpl.
      destruct users; [contradiction|]. apply append_users_list. exact Ht.
    + apply value_of_stored_list. exact Ht.
  - reflexivity.
Qed.

Lemma users_are_appended_to_the_coerced_value_witness :
  snd (set_param ["prod"] (declared "Bucket" "String")
         (keyboard_only [Typed "logs"; Typed "3"]))
  = inr (set_value (declared "Bucket" "String")
           (PyStr ("logs" +:+ "-" +:+ PyStr.join "-" ["prod"]))).
Proof.
  apply (proj1 users_are_appended_to_the_coerced_value
           ["prod"] (declared "Bucket" "String")
           (keyboard_only [Typed "logs"; Typed "3"]) "logs" [Typed "3"]).
  - discriminate.
  - reflexivity.
  - reflexivity.
Defined.

(** C3: without extra tokens the collection stores the typed line and
    coerces nothing, whatever the type tag.  With extra tokens the
    statement [param.value += ...] reads the value first, so the
    coercion runs during the collection: a line that is no number
    raises [ValueError] and an unsupported type tag raises [KeyError]
    at the prompt of their declaration.  In the run on
    [template_env_count] with the lines prod and abc, the [ValueError]
    comes behind the summary header without extra tokens and right
    behind the second prompt with the token dev. *)
Theorem coercion_runs_during_collection_with_users :
  (forall param w line rest,
     stdin w = Typed line :: rest ->
     snd (set_param [] param w) = inr (set_value param (PyStr line)))
  /\ snd (set_param ["dev"] (declared "Count" "Number")
            (keyboard_only [Typed "abc"]))
     = inl ValueError
  /\ snd (set_param ["dev"] (declared "Subnets" "List<AWS::EC2::Subnet::Id>")
            (keyboard_only [Typed "subnet-1"]))
     = inl KeyError
  /\ (let r := run yaml_env_count ["t.yaml"]
                 (world_with "t.yaml" template_env_count [Typed "prod"; Typed "abc"]) in
      snd r = Traceback ValueError /\ last_output (fst r) = Some summary_header)
  /\ (let r := run yaml_env_count ["t.yaml"; "dev"]
                 (world_with "t.yaml" template_env_count [Typed "prod"; Typed "abc"]) in
      snd r = Traceback ValueError
      /\ last_output (fst r) = Some (Prompt "    -Value: ")).
Proof.
  split; [|split; [|split; [|split]]].
  - intros param w line rest Hin.
    rewrite (set_param_typed [] param w line rest Hin). reflexivity.
  - reflexivity.
  - reflexivity.
  - vm_compute. split; reflexivity.
  - vm_compute. split; reflexivity.
Qed.

Lemma coercion_runs_during_collection_with_users_witness :
  snd (set_param [] (declared "Count" "Number") (keyboard_only [Typed "abc"]))
  = inr (set_value (declared "Count" "Number") (PyStr "abc")).
Proof.
  apply (proj1 coercion_runs_during_collection_with_users
           (declared "Count" "Number") (keyboard_only [Typed "abc"]) "abc" []).
  reflexivity.
Defined.

(** ** What a run does to the files *)

Lemma keeps_files_ret {A : Type} (a : A) : keeps_files (ret a).
Proof. intros w. reflexivity. Qed.

Lemma keeps_files_lift {A : Type} (r : exn + A) : keeps_files (lift r).
Proof. intros w. reflexivity. Qed.

Lemma keeps_files_print (line : list fragment) : keeps_files (print line).
Proof. intros w. reflexivity. Qed.

Lemma keeps_files_input (prompt : string) : keeps_files (input prompt).
Proof. intros w. unfold input. destruct (stdin w) as [|[]]; reflexivity. Qed.

Lemma keeps_files_load_file (p : Path) : keeps_files (load_file p).
Proof.
  intros w. unfold load_file, read_lines.
  destruct (files w !! Pathlib.to_string p); reflexivity.
Qed.

Lemma keeps_files_bind {A B : Type} (m : IO A) (k : A -> IO B) :
  keeps_files m -> (forall a, keeps_files (k a)) -> keeps_files (bind m k).
Proof.
  intros Hm Hk w. unfold bind. specialize (Hm w).
  destruct (m w) as [w1 [e|a]]; simpl in *; [exact Hm|].
  rewrite (Hk a w1). exact Hm.
Qed.

Lemma keeps_files_for_each {A B : Type} (body : A -> IO B) (l : list A) :
  (forall x, keeps_files (body x)) -> keeps_files (for_each body l).
Proof.
  intros Hb. induction l as [|x l IH]; simpl.
  - apply keeps_files_ret.
  - apply keeps_files_bind; [apply Hb|]. intros y.
    apply keeps_files_bind; [exact IH|]. intros ys. apply keeps_files_ret.
Qed.

Create HintDb keeps.

#[local] Hint Resolve keeps_files_ret keeps_files_lift keeps_files_print
  keeps_files_input keeps_files_load_file : keeps.

Ltac keeps :=
  repeat first
    [ solve [auto with keeps]
    | apply keeps_files_for_each; intros ?
    | apply keeps_files_bind; [|intros ?] ].

Lemma keeps_files_set_param (users : list string) (param : Param) :
  keeps_files (set_param users param).
Proof.
  unfold set_param. keeps.
  - destruct (Py.truth (description param)); auto with keeps.
  - destruct users; auto with keeps.
Qed.

#[local] Hint Resolve keeps_files_set_param : keeps.

Lemma keeps_unwritable_bind {A B : Type} (m : IO A) (k : A -> IO B) :
  keeps_unwritable m -> (forall a, keeps_unwritable (k a)) ->
  keeps_unwritable (bind m k).
Proof.
  intros Hm Hk w. unfold bind. specialize (Hm w).
  destruct (m w) as [w1 [e|a]]; simpl in *; [exact Hm|].
  rewrite (Hk a w1). exact Hm.
Qed.

Lemma keeps_unwritable_for_each {A B : Type} (body : A -> IO B) (l : list A) :
  (forall x, keeps_unwritable (body x)) -> keeps_unwritable (for_each body l).
Proof.
  intros Hb. induction l as [|x l IH]; simpl.
  - intros w. reflexivity.
  - apply keeps_unwritable_bind; [apply Hb|]. intros y.
    apply keeps_unwritable_bind; [exact IH|]. intros ys w. reflexivity.
Qed.

Lemma keeps_unwritable_set_param (users : list string) (param : Param) :
  keeps_unwritable (set_param users param).
Proof.
  unfold set_param.
  apply keeps_unwritable_bind; [intros w; reflexivity | intros _].
  apply keeps_unwritable_bind; [intros w; reflexivity | intros _].
  apply keeps_unwritable_bind;
    [destruct (Py.truth (description param)); intros w; reflexivity | intros _].
  apply keeps_unwritable_bind.
  - intros w. unfold input. destruct (stdin w) as [|[]]; reflexivity.
  - intros line. destruct users; intros w; reflexivity.
Qed.

Section Atomicity.

Variable yaml_parse : string -> option pyval.

Lemma keeps_files_extract (p : Path) :
  keeps_files (extract_params_metadata yaml_parse p).
Proof. unfold extract_params_metadata. keeps. Qed.

Lemma keeps_files_set_params_list (p : Path) (users : list string) :
  keeps_files (set_params_list yaml_parse p users).
Proof.
  unfold set_params_list. pose proof keeps_files_extract. keeps.
Qed.


Lemma keeps_unwritable_set_params_list (p : Path) (users : list string) :
  keeps_unwritable (set_params_list yaml_parse p users).
Proof.
  unfold set_params_list, extract_params_metadata.
  apply keeps_unwritable_bind.
  { apply keeps_unwritable_bind.
    - intros w. unfold load_file, read_lines.
      destruct (files w !! Pathlib.to_string p); reflexivity.
    - intros lines w. reflexivity. }
  intros metadata. apply keeps_unwritable_bind; [intros w; reflexivity | intros items].
  apply keeps_unwritable_bind; [intros w; reflexivity | intros params].
  apply keeps_unwritable_bind; [intros w; reflexivity | intros _].
  apply keeps_unwritable_for_each. apply keeps_unwritable_set_param.
Qed.

(** What the encoder raises. *)
Lemma iterencode_list_raises (enc : pyval -> string * option exn)
    (sep close : string) (l : list pyval) :
  Forall (fun x => forall t e, enc x = (t, Some e) -> e = TypeError) l ->
  forall buf t e,
    Json.iterencode_list enc sep close buf l = (t, Some e) -> e = TypeError.
Proof.
  induction 1 as [|x l Hx _ IH]; intros buf t e; cbn [Json.iterencode_list].
  - discriminate.
  - destruct (enc x) as [tx [ex|]] eqn:Ex.
    + intros H. inversion H; subst. eapply Hx. reflexivity.
    + destruct (Json.iterencode_list enc sep close sep l) as [t' e'] eqn:El.
      intros H. inversion H; subst. eapply IH. exact El.
Qed.

Lemma iterencode_dict_raises (enc : pyval -> string * option exn)
    (sep close : string) (d : list (key * pyval)) :
  Forall (fun kv => forall t e, enc (snd kv) = (t, Some e) -> e = TypeError) d ->
  forall buf t e,
    Json.iterencode_dict enc sep close buf d = (t, Some e) -> e = TypeError.
Proof.
  induction 1 as [|[k x] d Hx _ IH]; intros buf t e; cbn [Json.iterencode_dict].
  - discriminate.
  - destruct (Json.key_text k) as [ek|s] eqn:Ek.
    + intros H. inversion H; subst. destruct k as [|[]| | |]; inversion Ek. reflexivity.
    + cbn [snd] in Hx. destruct (enc x) as [tx [ex|]] eqn:Ex.
      * intros H. inversion H; subst. eapply Hx. reflexivity.
      * destruct (Json.iterencode_dict enc sep close sep d) as [t' e'] eqn:El.
        intros H. inversion H; subst. eapply IH. exact El.
Qed.

Lemma pyval_nested_ind (P : pyval -> Prop) :
  P PyNone -> (forall b, P (PyBool b)) -> (forall z, P (PyInt z)) ->
  (forall f, P (PyFloat f)) -> (forall s, P (PyStr s)) ->
  (forall l, Forall P l -> P (PyList l)) ->
  (forall d, Forall (fun kv => P (snd kv)) d -> P (PyDict d)) ->
  (forall y m d, P (PyDate y m d)) ->
  forall v, P v.
Proof.
  intros Hn Hb Hi Hf Hs Hl Hd Ht. fix IH 1. intros v.
  destruct v as [|b|z|f|s|l|d|y m d'].
  - exact Hn.
  - apply Hb.
  - apply Hi.
  - apply Hf.
  - apply Hs.
  - apply Hl. induction l as [|x l IHl]; constructor; [apply IH | exact IHl].
  - apply Hd. induction d as [|[k x] d IHd]; constructor; [apply IH | exact IHd].
  - apply Ht.
Qed.

Lemma iterencode_raises (indent : nat) (v : pyval) :
  forall level t e, Json.iterencode indent level v = (t, Some e) -> e = TypeError.
Proof.
  induction v as [|b|z|x|s|l IH|d IH|y m d'] using pyval_nested_ind;
    intros level t e; cbn [Json.iterencode]; try discriminate.
  - destruct b; discriminate.
  - destruct l as [|x l]; [discriminate|].
    apply iterencode_list_raises.
    eapply Forall_impl; [exact IH|]. intros y Hy t' e'. apply Hy.
  - destruct d as [|kv d]; [discriminate|].
    destruct (Json.iterencode_dict _ _ _ _ _) as [t' e'] eqn:Ed.
    intros H. inversion H; subst.
    eapply iterencode_dict_raises; [|exact Ed].
    eapply Forall_impl; [exact IH|]. intros y Hy t'' e''. apply Hy.
  - intros H. inversion H. reflexivity.
Qed.

(** What [main] does to the files: nothing when it raises before the
    output is opened or cannot open it; otherwise the output holds the
    text that the encoder yielded, whole when [main] returns, cut off
    when the encoder raised. *)
Lemma main_cases (p out : Path) (users : list string) (w : world) :
  match main yaml_parse p out users w with
  | (w', inl e) =>
      files w' = files w
      \/ exists w1 params entries text,
           set_params_list yaml_parse p users w = (w1, inr params)
           /\ comprehension entry params = inr entries
           /\ Json.iterencode 4 0 (PyList entries) = (text, Some e)
           /\ files w' = <[Pathlib.to_string out := text]> (files w)
  | (w', inr _) =>
      exists w1 params entries text,
        set_params_list yaml_parse p users w = (w1, inr params)
        /\ comprehension entry params = inr entries
        /\ Json.iterencode 4 0 (PyList entries) = (text, None)
        /\ files w' = <[Pathlib.to_string out := text]> (files w)
  end.
Proof.
  unfold main.
  unfold bind at 1.
  pose proof (keeps_files_set_params_list p users w) as H1.
  destruct (set_params_list yaml_parse p users w) as [w1 [e|params]]; simpl in H1;
    [left; exact H1|].
  unfold bind at 1. simpl.
  unfold bind at 1. unfold lift at 1.
  destruct (comprehension entry params) as [e|entries] eqn:He; [left; exact H1|].
  unfold bind at 1.
  match goal with
  | |- context [for_each ?b params ?w0] =>
      assert (files (fst (for_each b params w0)) = files w) as H2;
      [ rewrite keeps_files_for_each; [exact H1|]; intros x; keeps
      | destruct (for_each b params w0) as [w2 [e|?]]; simpl in H2; [left; exact H2|] ]
  end.
  unfold bind at 1. simpl.
  unfold bind at 1. unfold open_w.
  destruct (bool_decide _); simpl; [left; exact H2|].
  unfold bind at 1. unfold dump.
  destruct (Json.iterencode 4 0 (PyList entries)) as [text [e|]] eqn:Ei.
  - right. exists w1, params, entries, text. unfold bind, write, lift; simpl.
    rewrite lookup_insert_eq, insert_insert_eq, H2. auto.
  - exists w1, params, entries, text. unfold bind, write, ret, print; simpl.
    rewrite lookup_insert_eq, insert_insert_eq, H2. auto.
Qed.

Lemma comprehension_Forall2 {A B : Type} (f : A -> exn + B) (l : list A)
    (l' : list B) :
  comprehension f l = inr l' -> Forall2 (fun x y => f x = inr y) l l'.
Proof.
  revert l'. induction l as [|x l IH]; simpl; intros l' H.
  - inversion H. constructor.
  - destruct (f x) as [e|y] eqn:Ex; [discriminate|].
    destruct (comprehension f l) as [e|ys]; [discriminate|].
    inversion H; subst. constructor; auto.
Qed.

Lemma new_param_name (item : key * pyval) (param : Param) :
  new_param item = inr param -> name param = Py.of_key (fst item).
Proof.
  destruct item as [key metadata]. unfold new_param.
  destruct (Py.getitem metadata "Type"); [discriminate|].
  destruct (Py.get metadata "Description" (PyStr EmptyString)); [discriminate|].
  intros H. inversion H. reflexivity.
Qed.

Lemma set_param_name (users : list string) (param param' : Param) (w w' : world) :
  set_param users param w = (w', inr param') -> name param' = name param.
Proof.
  unfold set_param, bind, print.
  destruct (Py.truth (description param)); simpl;
    unfold input; simpl; (destruct (stdin w) as [|[line| |] rest]; simpl; try discriminate);
    (destruct users; unfold ret, lift, append_users; simpl;
     [intros H; inversion H; reflexivity|]);
    destruct (value _); try discriminate;
    destruct (Py.iadd_str _ _); try discriminate;
    intros H; inversion H; reflexivity.
Qed.

Lemma for_each_set_param_names (users : list string) (decls params : list Param)
    (w w' : world) :
  for_each (set_param users) decls w = (w', inr params) ->
  map name params = map name decls.
Proof.
  revert params w. induction decls as [|d decls IH]; simpl; intros params w H.
  - inversion H. reflexivity.
  - unfold bind in H at 1.
    destruct (set_param users d w) as [w1 [e|p]] eqn:E1; [discriminate|].
    unfold bind in H at 1.
    destruct (for_each (set_param users) decls w1) as [w2 [e|ps]] eqn:E2; [discriminate|].
    inversion H; subst. simpl. f_equal.
    + eapply set_param_name; eassumption.
    + eapply IH; eassumption.
Qed.

(** The records that [set_params_list] returns are those of the
    declarations of the mapping, in its order. *)
Lemma set_params_list_names (p : Path) (users : list string) (w w1 : world)
    (params : list Param) :
  set_params_list yaml_parse p users w = (w1, inr params) ->
  exists w0 items,
    extract_params_metadata yaml_parse p w = (w0, inr (PyDict items))
    /\ map name params = map (fun item => Py.of_key (fst item)) items.
Proof.
  unfold set_params_list. unfold bind at 1.
  destruct (extract_params_metadata yaml_parse p w) as [w0 [e|metadata]]; [discriminate|].
  unfold bind at 1. unfold lift at 1.
  destruct metadata; simpl; try discriminate.
  unfold bind at 1. unfold lift at 1.
  destruct (comprehension new_param d) as [e|decls] eqn:Ed; [discriminate|].
  unfold bind at 1. simpl. intros H.
  exists w0, d. split; [reflexivity|].
  rewrite (for_each_set_param_names _ _ _ _ _ H).
  clear H. revert decls Ed. induction d as [|item d IH]; simpl; intros decls Ed.
  - inversion Ed. reflexivity.
  - destruct (new_param item) as [e|x] eqn:Ex; [discriminate|].
    destruct (comprehension new_param d) as [e|xs]; [discriminate|].
    inversion Ed; subst. simpl. f_equal; [apply new_param_name; exact Ex | apply IH; reflexivity].
Qed.

Lemma entries_complete (items : list (key * pyval)) (params : list Param)
    (entries : list pyval) :
  map name params = map (fun item => Py.of_key (fst item)) items ->
  comprehension entry params = inr entries ->
  complete items params entries.
Proof.
  intros Hn He. split; [exact Hn|].
  apply comprehension_Forall2 in He. clear Hn.
  induction He as [|param e params entries H _ IH]; [constructor|].
  constructor; [|exact IH].
  unfold entry in H. destruct (value param) as [x|v]; [discriminate|].
  inversion H. exists v. split; reflexivity.
Qed.

(** [main] behind a collection that raised, and behind a coercion that
    raised. *)
Lemma main_collection_raises (p out : Path) (users : list string) (w w1 : world)
    (e : exn) :
  set_params_list yaml_parse p users w = (w1, inl e) ->
  main yaml_parse p out users w = (w1, inl e).
Proof. intros Hs. unfold main. unfold bind at 1. rewrite Hs. reflexivity. Qed.

Lemma main_coercion_raises (p out : Path) (users : list string) (w w1 : world)
    (params : list Param) (e : exn) :
  set_params_list yaml_parse p users w = (w1, inr params) ->
  comprehension entry params = inl e ->
  main yaml_parse p out users w
  = (with_stdout (stdout w1 ++ [summary_header]) w1, inl e).
Proof.
  intros Hs He. unfold main. unfold bind at 1. rewrite Hs.
  unfold bind at 1. unfold print at 1.
  unfold bind at 1. unfold lift at 1. rewrite He. reflexivity.
Qed.

(** The [__main__] block around [main]. *)
Lemma run_accepted (arg : string) (users : list string) (w : world) :
  accepted arg = true ->
  run yaml_parse (arg :: users) w
  = match main yaml_parse (Pathlib.of_string arg) (output_path arg) users w with
    | (w', inr _) => (w', Finished)
    | (w', inl KeyboardInterrupt) =>
        (with_stdout
           (stdout w' ++ [Print [Lit (String PyStr.LF "Proccess Terminated! ");
                                 Lit EmptyString]]) w',
         Finished)
    | (w', inl e) => (w', Traceback e)
    end.
Proof.
  intros Ha. unfold run, validate_yaml_file. fold (accepted arg). rewrite Ha.
  cbn [negb]. fold (output_path arg).
  destruct (main yaml_parse _ _ users w) as [w' [e|u]]; [|reflexivity].
  destruct e; reflexivity.
Qed.

(** What a key other than a typed line does at a prompt. *)
Lemma set_param_stops (users : list string) (param : Param) (w : world)
    (key : keyboard) (rest : list keyboard) :
  (forall line, key <> Typed line) ->
  stdin w = key :: rest ->
  set_param users param w
  = (with_stdin rest (with_stdout (stdout w ++ shown param) w),
     inl (raised_by key)).
Proof.
  intros Hk Hin. destruct w as [i o f u op]. simpl in Hin. subst i.
  unfold set_param, shown, bind, print, input, with_stdout, with_stdin; simpl.
  destruct key as [line| |]; [destruct (Hk line); reflexivity | |];
    destruct (Py.truth (description param)); simpl;
    rewrite <- ?app_assoc; reflexivity.
Qed.

Lemma set_param_exhausted (users : list string) (param : Param) (w : world) :
  stdin w = [] ->
  set_param users param w
  = (with_stdout (stdout w ++ shown param) w, inl EOFError).
Proof.
  intros Hin. destruct w as [i o f u op]. simpl in Hin. subst i.
  unfold set_param, shown, bind, print, input, with_stdout, with_stdin; simpl.
  destruct (Py.truth (description param)); simpl;
    rewrite <- ?app_assoc; reflexivity.
Qed.

(** What [set_param] returns is its declaration with a stored value:
    the text that was typed, that text with the extra tokens, or the
    list that the extra tokens were added to. *)
Lemma set_param_returns (users : list string) (d q : Param) (w w' : world) :
  set_param users d w = (w', inr q) ->
  exists v,
    q = set_value d v /\ ((exists s, v = PyStr s) \/ (exists l, v = PyList l)).
Proof.
  destruct (stdin w) as [|key rest] eqn:Hin.
  - rewrite (set_param_exhausted users d w Hin). discriminate.
  - destruct key as [line| |].
    + rewrite (set_param_typed users d w line rest Hin).
      destruct users as [|u users].
      { intros H. inversion H. exists (PyStr line). split; [reflexivity|].
        left. eexists. reflexivity. }
      unfold append_users. destruct (value (set_value d (PyStr line))) as [e|v];
        [discriminate|].
      destruct v as [| | | |s|l| |]; try discriminate; cbn [Py.iadd_str];
        intros H; inversion H; eexists; (split; [reflexivity|]);
        [left | right]; eexists; reflexivity.
    + rewrite (set_param_stops users d w CtrlC rest); [discriminate | discriminate | exact Hin].
    + rewrite (set_param_stops users d w CtrlD rest); [discriminate | discriminate | exact Hin].
Qed.

Lemma for_each_Forall2 {A B : Type} (body : A -> IO B) (l : list A) :
  forall (l' : list B) (w w' : world),
    for_each body l w = (w', inr l') ->
    Forall2 (fun x y => exists wa wb, body x wa = (wb, inr y)) l l'.
Proof.
  induction l as [|x l IH]; intros l' w w' H.
  - inversion H. constructor.
  - cbn [for_each] in H. unfold bind in H at 1.
    destruct (body x w) as [w1 [e|y]] eqn:E1; [discriminate|].
    unfold bind in H at 1.
    destruct (for_each body l w1) as [w2 [e|ys]] eqn:E2; [discriminate|].
    inversion H; subst. constructor; [exists w, w1; exact E1 | eapply IH; exact E2].
Qed.

(** [extract_params_metadata] opens the template and touches nothing
    else. *)
Lemma extract_world (p : Path) (w : world) :
  fst (extract_params_metadata yaml_parse p w)
  = with_opened (Pathlib.to_string p) w.
Proof.
  unfold extract_params_metadata, load_file, read_lines, bind, lift.
  destruct (files w !! Pathlib.to_string p); reflexivity.
Qed.

(** [set_params_list] behind the reading of the declarations. *)
Lemma set_params_list_declared (p : Path) (users : list string) (w w0 : world)
    (items : list (key * pyval)) :
  extract_params_metadata yaml_parse p w = (w0, inr (PyDict items)) ->
  set_params_list yaml_parse p users w
  = match comprehension new_param items with
    | inl e => (w0, inl e)
    | inr decls =>
        for_each (set_param users) decls
          (with_stdout (stdout w0 ++ [collection_header]) w0)
    end.
Proof.
  intros Hx. unfold set_params_list. unfold bind at 1. rewrite Hx.
  unfold bind at 1. unfold lift at 1. cbn [Py.items].
  unfold bind at 1. unfold lift at 1.
  destruct (comprehension new_param items) as [e|decls]; reflexivity.
Qed.

Lemma set_params_list_returns (p : Path) (users : list string) (w w1 : world)
    (params : list Param) :
  set_params_list yaml_parse p users w = (w1, inr params) ->
  exists w0 items decls,
    extract_params_metadata yaml_parse p w = (w0, inr (PyDict items))
    /\ comprehension new_param items = inr decls
    /\ for_each (set_param users) decls
         (with_stdout (stdout w0 ++ [collection_header]) w0)
       = (w1, inr params).
Proof.
  intros H.
  destruct (extract_params_metadata yaml_parse p w) as [w0 [e|metadata]] eqn:Hx.
  - unfold set_params_list in H. unfold bind in H at 1. rewrite Hx in H.
    discriminate.
  - destruct metadata as [| | | | | |items|];
      try (unfold set_params_list in H; unfold bind in H at 1; rewrite Hx in H;
           discriminate).
    rewrite (set_params_list_declared p users w w0 items Hx) in H.
    exists w0, items. destruct (comprehension new_param items) as [e|decls].
    + inversion H.
    + exists decls. auto.
Qed.

(** Every record that [set_params_list] returns holds a text or a
    list. *)
Lemma set_params_list_stored (p : Path) (users : list string) (w w1 : world)
    (params : list Param) :
  set_params_list yaml_parse p users w = (w1, inr params) ->
  Forall (fun q => (exists s, _value q = Some (PyStr s))
                   \/ (exists l, _value q = Some (PyList l))) params.
Proof.
  intros H.
  destruct (set_params_list_returns p users w w1 params H)
    as (w0 & items & decls & _ & _ & Hf).
  apply for_each_Forall2 in Hf. clear H.
  induction Hf as [|d q decls params (wa & wb & Hq) _ IH]; constructor; [|exact IH].
  destruct (set_param_returns users d q wa wb Hq) as (v & -> & [[s ->] | [l ->]]);
    [left | right]; eexists; reflexivity.
Qed.

Lemma comprehension_entry_values (params : list Param) (entries : list pyval) :
  comprehension entry params = inr entries ->
  Forall (fun q => exists v, value q = inr v) params.
Proof.
  intros H. apply comprehension_Forall2 in H.
  induction H as [|q e params entries Hq _ IH]; constructor; [|exact IH].
  unfold entry in Hq. destruct (value q) as [x|v]; [discriminate|].
  exists v. reflexivity.
Qed.

(** The loop of [main] that prints the summary. *)
Lemma for_each_summary (params : list Param) :
  Forall (fun q => exists v, value q = inr v) params ->
  forall w : world,
    for_each (fun param =>
                print [Lit "  -Name: "; Fmt (name param)] ;;;
                v <- lift (value param) ;;
                print [Lit "  -Value: "; Fmt v]) params w
    = (with_stdout (stdout w ++ summary_lines params) w,
       inr (map (fun _ => tt) params)).
Proof.
  induction 1 as [|q params (v & Hv) _ IH]; intros w.
  - cbn. unfold ret, summary_lines. cbn. rewrite app_nil_r.
    destruct w; reflexivity.
  - cbn [for_each]. unfold bind at 1. unfold bind at 1. unfold print at 1.
    unfold bind at 1. unfold lift at 1. rewrite Hv. unfold print at 1.
    unfold bind at 1. rewrite IH. unfold ret. cbn [map]. f_equal.
    unfold summary_lines, summary_of. cbn [map List.concat]. rewrite Hv.
    unfold with_stdout. cbn [stdin stdout files unwritable opened].
    rewrite <- !app_assoc. reflexivity.
Qed.

(** [main] behind a collection that returned. *)
Lemma main_after_collection (p out : Path) (users : list string) (w w1 : world)
    (params : list Param) :
  set_params_list yaml_parse p users w = (w1, inr params) ->
  main yaml_parse p out users w
  = match comprehension entry params with
    | inl e => (with_stdout (stdout w1 ++ [summary_header]) w1, inl e)
    | inr entries =>
        let w2 :=
          with_opened (Pathlib.to_string out)
            (with_stdout (stdout w1 ++ summary_header :: summary_lines params
                                     ++ [saving_line out]) w1) in
        if bool_decide (Pathlib.to_string out ∈ unwritable w)
        then (w2, inl OSError)
        else
          match Json.iterencode 4 0 (PyList entries) with
          | (text, Some e) =>
              (with_files (<[Pathlib.to_string out := text]> (files w)) w2, inl e)
          | (text, None) =>
              (with_stdout (stdout w2 ++ [finish_line])
                 (with_files (<[Pathlib.to_string out := text]> (files w)) w2),
               inr tt)
          end
    end.
Proof.
  intros Hs.
  pose proof (keeps_files_set_params_list p users w) as Hf.
  pose proof (keeps_unwritable_set_params_list p users w) as Hu.
  rewrite Hs in Hf, Hu. cbn [fst] in Hf, Hu.
  unfold main. unfold bind at 1. rewrite Hs.
  unfold bind at 1. unfold print at 1.
  unfold bind at 1. unfold lift at 1.
  destruct (comprehension entry params) as [e|entries] eqn:He; [reflexivity|].
  unfold bind at 1.
  rewrite (for_each_summary params (comprehension_entry_values params entries He)).
  unfold bind at 1. unfold print at 1.
  unfold bind at 1. unfold open_w.
  cbn [stdin stdout files unwritable opened with_stdout with_opened].
  rewrite Hu.
  destruct (bool_decide (Pathlib.to_string out ∈ unwritable w)).
  - f_equal. unfold with_opened, with_stdout, saving_line, summary_header.
    cbn [stdin stdout files unwritable opened].
    repeat first [rewrite <- app_assoc | progress cbn [app]]. reflexivity.
  - unfold bind at 1. unfold dump.
    destruct (Json.iterencode 4 0 (PyList entries)) as [text [e|]].
    + unfold bind, write, lift. f_equal.
      unfold with_opened, with_stdout, with_files, saving_line, summary_header.
      cbn [stdin stdout files unwritable opened].
      rewrite lookup_insert_eq, insert_insert_eq, Hf. cbn [default].
      repeat first [rewrite <- app_assoc | progress cbn [app]]. reflexivity.
    + unfold bind, write, ret, print. f_equal.
      unfold with_opened, with_stdout, with_files, saving_line, summary_header,
        finish_line.
      cbn [stdin stdout files unwritable opened].
      rewrite lookup_insert_eq, insert_insert_eq, Hf. cbn [default].
      repeat first [rewrite <- app_assoc | progress cbn [app]]. reflexivity.
Qed.

(** C7: the output is not written as a whole or not at all.  It is left
    as it was when the run ends before the output is opened: whenever
    the collection raises (a template that does not load, a
    declaration without a type, an interruption or the end of the
    input at a prompt, a coercion with extra tokens), whenever a
    coercion raises behind the collection, and when the output cannot
    be opened.  When [main] returns, the output holds the whole
    document.  But the output is emptied when
    it is opened and gets the chunks of the encoder one after the
    other, so an encoder that raises leaves a document that is cut
    off: in the run on [template_dated], whose parameter is named by a
    date, the list [[]] that the output held is lost and the output
    ends behind the key of the first name, which is no JSON
    document. *)
Theorem failed_dump_leaves_a_partial_output :
  (forall p out users w w1 e,
     set_params_list yaml_parse p users w = (w1, inl e) ->
     snd (main yaml_parse p out users w) = inl e
     /\ files (fst (main yaml_parse p out users w)) = files w)
  /\ (forall p out users w w1 params e,
        set_params_list yaml_parse p users w = (w1, inr params) ->
        comprehension entry params = inl e ->
        snd (main yaml_parse p out users w) = inl e
        /\ files (fst (main yaml_parse p out users w)) = files w)
  /\ (forall p out users w w',
        main yaml_parse p out users w = (w', inr tt) ->
        exists w1 params entries text,
          set_params_list yaml_parse p users w = (w1, inr params)
          /\ comprehension entry params = inr entries
          /\ Json.iterencode 4 0 (PyList entries) = (text, None)
          /\ files w' = <[Pathlib.to_string out := text]> (files w))
  /\ (forall p out users w w1 params entries text e,
        set_params_list yaml_parse p users w = (w1, inr params) ->
        comprehension entry params = inr entries ->
        Json.iterencode 4 0 (PyList entries) = (text, Some e) ->
        Pathlib.to_string out ∉ unwritable w ->
        snd (main yaml_parse p out users w) = inl TypeError
        /\ files (fst (main yaml_parse p out users w))
           = <[Pathlib.to_string out := text]> (files w))
  /\ (forall p out users w w1 params entries,
        set_params_list yaml_parse p users w = (w1, inr params) ->
        comprehension entry params = inr entries ->
        Pathlib.to_string out ∈ unwritable w ->
        snd (main yaml_parse p out users w) = inl OSError
        /\ files (fst (main yaml_parse p out users w)) = files w)
  /\ (let w := {| stdin := [Typed "prod"]; stdout := [];
                  files := {[ "t.yaml" := template_dated; "params.json" := "[]" ]};
                  unwritable := ∅; opened := [] |} in
      let r := run yaml_known ["t.yaml"] w in
      snd r = Traceback TypeError
      /\ files w !! "params.json" = Some "[]"
      /\ files (fst r) !! "params.json" = Some half_document
      /\ files (fst r) !! "t.yaml" = Some template_dated
      /\ Json.loads half_document = None).
Proof.
  split; [|split; [|split; [|split; [|split]]]].
  - intros p out users w w1 e Hs.
    rewrite (main_collection_raises p out users w w1 e Hs). split; [reflexivity|].
    pose proof (keeps_files_set_params_list p users w) as Hf.
    rewrite Hs in Hf. exact Hf.
  - intros p out users w w1 params e Hs He.
    rewrite (main_coercion_raises p out users w w1 params e Hs He).
    split; [reflexivity|].
    pose proof (keeps_files_set_params_list p users w) as Hf.
    rewrite Hs in Hf. exact Hf.
  - intros p out users w w' Hmain.
    pose proof (main_cases p out users w) as Hc. rewrite Hmain in Hc. exact Hc.
  - intros p out users w w1 params entries text e Hs He Hi Hw.
    rewrite (main_after_collection p out users w w1 params Hs), He. cbv zeta.
    rewrite bool_decide_eq_false_2 by exact Hw. rewrite Hi.
    rewrite (iterencode_raises 4 (PyList entries) 0 text e Hi).
    split; reflexivity.
  - intros p out users w w1 params entries Hs He Hw.
    rewrite (main_after_collection p out users w w1 params Hs), He. cbv zeta.
    rewrite bool_decide_eq_true_2 by exact Hw. split; [reflexivity|].
    pose proof (keeps_files_set_params_list p users w) as Hf.
    rewrite Hs in Hf. exact Hf.
  - vm_compute. repeat split.
Qed.

End Atomicity.

Lemma failed_dump_leaves_a_partial_output_witness :
  snd (main yaml_known (Pathlib.of_string "t.yaml") (output_path "t.yaml") []
         (world_with "t.yaml" template_dated [Typed "prod"]))
  = inl TypeError
  /\ files (fst (main yaml_known (Pathlib.of_string "t.yaml") (output_path "t.yaml") []
                   (world_with "t.yaml" template_dated [Typed "prod"])))
     = <[Pathlib.to_string (output_path "t.yaml") := half_document]>
         (files (world_with "t.yaml" template_dated [Typed "prod"])).
Proof.
  apply (proj1 (proj2 (proj2 (proj2 (failed_dump_leaves_a_partial_output yaml_known))))
           (Pathlib.of_string "t.yaml") (output_path "t.yaml") []
           (world_with "t.yaml" template_dated [Typed "prod"])
           (fst (set_params_list yaml_known (Pathlib.of_string "t.yaml") []
                   (world_with "t.yaml" template_dated [Typed "prod"])))
           [ {| name := PyDate 2024 1 1; param_type := PyStr "String";
                description := PyStr EmptyString; _value := Some (PyStr "prod") |} ]
           [ entry_of (PyDate 2024 1 1) (PyStr "prod") ]
           half_document TypeError).
  - vm_compute. reflexivity.
  - reflexivity.
  - reflexivity.
  - apply not_elem_of_empty.
Defined.

Section Empty.

Variable yaml_parse : string -> option pyval.

(** C1: for a template in which no line mentions the word Parameters
    the extraction is empty, but the empty text loads as [None], not as
    an empty mapping, and [set_params_list] asks [None] for its items:
    the run ends with [AttributeError] behind the reading of the
    template, with nothing printed and no output file. *)
Theorem no_parameters_ends_in_attribute_error (arg : string) (users : list string)
    (w : world) (content : string) :
  accepted arg = true ->
  files w !! Pathlib.to_string (Pathlib.of_string arg) = Some content ->
  Forall (fun l => mentions_parameters l = false) (lines_of content) ->
  get_params_section (lines_of content) = []
  /\ parse_yaml_params_section_content yaml_parse
       (PyStr.join EmptyString (get_params_section (lines_of content)))
     = inr PyNone
  /\ run yaml_parse (arg :: users) w
     = (with_opened (Pathlib.to_string (Pathlib.of_string arg)) w,
        Traceback AttributeError).
Proof.
  intros Ha Hf Hl.
  pose proof (get_params_section_no_mention _ Hl) as Hs.
  split; [exact Hs|]. split; [rewrite Hs; reflexivity|].
  unfold run, validate_yaml_file. fold (accepted arg). rewrite Ha. simpl.
  unfold main, set_params_list, extract_params_metadata, load_file, read_lines.
  unfold bind at 1. unfold bind at 1. unfold bind at 1. rewrite Hf.
  fold (lines_of content). rewrite Hs. reflexivity.
Qed.

End Empty.

Lemma no_parameters_ends_in_attribute_error_witness :
  run yaml_env_count ["stack/template.yaml"]
      (world_with "stack/template.yaml" template_without_parameters [Typed "prod"])
  = (with_opened "stack/template.yaml"
       (world_with "stack/template.yaml" template_without_parameters [Typed "prod"]),
     Traceback AttributeError).
Proof.
  apply (no_parameters_ends_in_attribute_error yaml_env_count
           "stack/template.yaml" []
           (world_with "stack/template.yaml" template_without_parameters [Typed "prod"])
           template_without_parameters).
  - reflexivity.
  - reflexivity.
  - vm_compute. repeat constructor.
Defined.

(** ** Rounding to binary64 *)

Section Rounding.

Local Open Scope Z_scope.

Lemma pow2_pos (e : Z) : 0 <= e -> 0 < 2 ^ e.
Proof. intros. apply Z.pow_pos_nonneg; lia. Qed.

Lemma pow10_pos (e : Z) : 0 <= e -> 0 < 10 ^ e.
Proof. intros. apply Z.pow_pos_nonneg; lia. Qed.

Lemma scaled_pos (n d e : Z) :
  0 < n -> 0 < d -> 0 < fst (Float64.scaled n d e) /\ 0 < snd (Float64.scaled n d e).
Proof.
  intros Hn Hd. unfold Float64.scaled.
  destruct (0 <=? e) eqn:E; simpl.
  - apply Z.leb_le in E. pose proof (pow2_pos e E). split; [lia | nia].
  - apply Z.leb_gt in E. pose proof (pow2_pos (- e) ltac:(lia)). split; [nia | lia].
Qed.

(** [2^(e+j) <= n/d] means [2^j <= (n/d) / 2^e]. *)
Lemma ge_pow2_shift (n d e j : Z) :
  0 < d -> 0 <= j ->
  Float64.ge_pow2 n d (e + j) = true <->
  2 ^ j * snd (Float64.scaled n d e) <= fst (Float64.scaled n d e).
Proof.
  intros Hd Hj. unfold Float64.ge_pow2, Float64.scaled.
  pose proof (pow2_pos j Hj) as Pj.
  destruct (0 <=? e) eqn:E.
  - apply Z.leb_le in E.
    assert ((0 <=? e + j) = true) as -> by (apply Z.leb_le; lia).
    simpl. rewrite Z.leb_le, Z.pow_add_r by lia.
    replace (d * (2 ^ e * 2 ^ j)) with (2 ^ j * (d * 2 ^ e)) by ring. tauto.
  - apply Z.leb_gt in E. pose proof (pow2_pos (- e) ltac:(lia)) as Pe.
    destruct (0 <=? e + j) eqn:E'; simpl; rewrite Z.leb_le.
    + apply Z.leb_le in E'. pose proof (pow2_pos (e + j) E') as Pej.
      assert (2 ^ j = 2 ^ (e + j) * 2 ^ (- e)) as ->
          by (rewrite <- Z.pow_add_r by lia; f_equal; lia).
      replace (2 ^ (e + j) * 2 ^ (- e) * d) with (d * 2 ^ (e + j) * 2 ^ (- e)) by ring.
      apply Z.mul_le_mono_pos_r. exact Pe.
    + apply Z.leb_gt in E'. pose proof (pow2_pos (- (e + j)) ltac:(lia)) as Pej.
      assert (2 ^ (- e) = 2 ^ (- (e + j)) * 2 ^ j) as ->
          by (rewrite <- Z.pow_add_r by lia; f_equal; lia).
      replace (2 ^ j * d) with (d * 2 ^ j) by ring.
      replace (n * (2 ^ (- (e + j)) * 2 ^ j)) with (n * 2 ^ (- (e + j)) * 2 ^ j) by ring.
      apply Z.mul_le_mono_pos_r. exact Pj.
Qed.

Lemma ge_pow2_mono (n d l l' : Z) :
  0 < n -> 0 < d -> l' <= l ->
  Float64.ge_pow2 n d l = true -> Float64.ge_pow2 n d l' = true.
Proof.
  intros Hn Hd Hl H.
  replace l with (l' + (l - l')) in H by lia.
  apply ge_pow2_shift in H; [|lia|lia].
  replace l' with (l' + 0) by lia. apply ge_pow2_shift; [lia|lia|].
  pose proof (scaled_pos n d l' Hn Hd) as [_ Hs].
  pose proof (pow2_pos (l - l') ltac:(lia)).
  change (2 ^ 0) with 1. nia.
Qed.

Lemma ilog2_spec (n d : Z) :
  0 < n -> 0 < d ->
  Float64.ge_pow2 n d (Float64.ilog2 n d) = true
  /\ Float64.ge_pow2 n d (Float64.ilog2 n d + 1) = false.
Proof.
  intros Hn Hd.
  pose proof (Z.log2_spec n Hn) as [Ln1 Ln2].
  pose proof (Z.log2_spec d Hd) as [Ld1 Ld2].
  pose proof (Z.log2_nonneg n) as Ln0. pose proof (Z.log2_nonneg d) as Ld0.
  set (ln := Z.log2 n) in *. set (ld := Z.log2 d) in *.
  assert (G1 : Float64.ge_pow2 n d (ln - ld - 1) = true).
  { unfold Float64.ge_pow2, Float64.scaled.
    destruct (0 <=? ln - ld - 1) eqn:E; apply Z.leb_le.
    - apply Z.leb_le in E.
      assert (2 ^ Z.succ ld * 2 ^ (ln - ld - 1) = 2 ^ ln)
        by (rewrite <- Z.pow_add_r by lia; f_equal; lia).
      pose proof (pow2_pos (ln - ld - 1) E). nia.
    - apply Z.leb_gt in E.
      assert (2 ^ ln * 2 ^ (- (ln - ld - 1)) = 2 ^ Z.succ ld)
        by (rewrite <- Z.pow_add_r by lia; f_equal; lia).
      pose proof (pow2_pos (- (ln - ld - 1)) ltac:(lia)). nia. }
  assert (G2 : Float64.ge_pow2 n d (ln - ld + 1) = false).
  { unfold Float64.ge_pow2, Float64.scaled.
    destruct (0 <=? ln - ld + 1) eqn:E; apply Z.leb_gt.
    - apply Z.leb_le in E.
      assert (2 ^ ld * 2 ^ (ln - ld + 1) = 2 ^ Z.succ ln)
        by (rewrite <- Z.pow_add_r by lia; f_equal; lia).
      pose proof (pow2_pos (ln - ld + 1) E). nia.
    - apply Z.leb_gt in E.
      assert (2 ^ Z.succ ln * 2 ^ (- (ln - ld + 1)) = 2 ^ ld)
        by (rewrite <- Z.pow_add_r by lia; f_equal; lia).
      pose proof (pow2_pos (- (ln - ld + 1)) ltac:(lia)). nia. }
  unfold Float64.ilog2. fold ln ld.
  destruct (Float64.ge_pow2 n d (ln - ld)) eqn:E.
  - split; [exact E | exact G2].
  - split; [exact G1 |]. replace (ln - ld - 1 + 1) with (ln - ld) by lia. exact E.
Qed.

Lemma ilog2_unique (n d l : Z) :
  0 < n -> 0 < d ->
  Float64.ge_pow2 n d l = true -> Float64.ge_pow2 n d (l + 1) = false ->
  Float64.ilog2 n d = l.
Proof.
  intros Hn Hd H1 H2. destruct (ilog2_spec n d Hn Hd) as [S1 S2].
  destruct (Z.lt_trichotomy (Float64.ilog2 n d) l) as [Hlt | [Heq | Hgt]]; [|exact Heq|].
  - rewrite (ge_pow2_mono n d l (Float64.ilog2 n d + 1) Hn Hd ltac:(lia) H1) in S2.
    discriminate.
  - rewrite (ge_pow2_mono n d (Float64.ilog2 n d) (l + 1) Hn Hd ltac:(lia) S1) in H2.
    discriminate.
Qed.

Lemma scaled_scale (k n d e : Z) :
  Float64.scaled (k * n) (k * d) e
  = (k * fst (Float64.scaled n d e), k * snd (Float64.scaled n d e)).
Proof.
  unfold Float64.scaled. destruct (0 <=? e); simpl; f_equal; ring.
Qed.

Lemma ge_pow2_scale (k n d l : Z) :
  0 < k -> Float64.ge_pow2 (k * n) (k * d) l = Float64.ge_pow2 n d l.
Proof.
  intros Hk. unfold Float64.ge_pow2. rewrite scaled_scale.
  destruct (Float64.scaled n d l) as [N D]. simpl.
  destruct (D <=? N) eqn:E.
  - apply Z.leb_le in E. apply Z.leb_le. nia.
  - apply Z.leb_gt in E. apply Z.leb_gt. nia.
Qed.

Lemma ilog2_scale (k n d : Z) :
  0 < k -> 0 < n -> 0 < d -> Float64.ilog2 (k * n) (k * d) = Float64.ilog2 n d.
Proof.
  intros Hk Hn Hd. destruct (ilog2_spec n d Hn Hd) as [S1 S2].
  apply ilog2_unique; try nia; rewrite ge_pow2_scale by exact Hk; assumption.
Qed.

Lemma div_half_even_scale (k n d : Z) :
  0 < k -> 0 < d ->
  Float64.div_half_even (k * n) (k * d) = Float64.div_half_even n d.
Proof.
  intros Hk Hd. unfold Float64.div_half_even.
  rewrite Z.div_mul_cancel_l by lia. rewrite Z.mul_mod_distr_l by lia.
  pose proof (Z.mod_pos_bound n d Hd).
  destruct (2 * (n mod d) <? d) eqn:E1.
  - apply Z.ltb_lt in E1. assert ((2 * (k * (n mod d)) <? k * d) = true) as ->
        by (apply Z.ltb_lt; nia). reflexivity.
  - apply Z.ltb_ge in E1. assert ((2 * (k * (n mod d)) <? k * d) = false) as ->
        by (apply Z.ltb_ge; nia).
    destruct (d <? 2 * (n mod d)) eqn:E2.
    + apply Z.ltb_lt in E2. assert ((k * d <? 2 * (k * (n mod d))) = true) as ->
          by (apply Z.ltb_lt; nia). reflexivity.
    + apply Z.ltb_ge in E2. assert ((k * d <? 2 * (k * (n mod d))) = false) as ->
          by (apply Z.ltb_ge; nia). reflexivity.
Qed.

(** The rounding depends on the fraction, not on how it is written. *)
Lemma round_scale (neg : bool) (k n d : Z) :
  0 < k -> 0 <= n -> 0 < d ->
  Float64.round neg (k * n) (k * d) = Float64.round neg n d.
Proof.
  intros Hk Hn Hd. unfold Float64.round.
  destruct (n =? 0) eqn:E.
  - apply Z.eqb_eq in E. subst n. rewrite Z.mul_0_r. reflexivity.
  - apply Z.eqb_neq in E.
    assert ((k * n =? 0) = false) as -> by (apply Z.eqb_neq; nia).
    rewrite ilog2_scale by lia. rewrite scaled_scale.
    pose proof (scaled_pos n d (Z.max (Float64.ilog2 n d - (Float64.prec - 1)) Float64.emin)
                  ltac:(lia) Hd) as [_ Hs].
    destruct (Float64.scaled n d _) as [N D]. simpl in *.
    rewrite div_half_even_scale by assumption. reflexivity.
Qed.

Lemma div_half_even_bounds (n d : Z) :
  0 < d -> n / d <= Float64.div_half_even n d <= n / d + 1.
Proof.
  intros Hd. unfold Float64.div_half_even.
  destruct (_ <? _); [lia|]. destruct (_ <? _); [lia|]. destruct (Z.even _); lia.
Qed.

Lemma div_half_even_exact (m p : Z) :
  0 < p -> Float64.div_half_even (m * p) p = m.
Proof.
  intros Hp. unfold Float64.div_half_even.
  rewrite Z.div_mul by lia. rewrite Z.mod_mul by lia.
  assert ((2 * 0 <? p) = true) as -> by (apply Z.ltb_lt; lia). reflexivity.
Qed.

(** Above the scale of the result the fraction stays below [2^53]. *)
Lemma scaled_below (n d e : Z) :
  0 < n -> 0 < d -> Float64.ilog2 n d - 52 <= e ->
  fst (Float64.scaled n d e) < 2 ^ 53 * snd (Float64.scaled n d e).
Proof.
  intros Hn Hd He. destruct (ilog2_spec n d Hn Hd) as [_ S2].
  apply Z.nle_gt. intros Hc.
  apply (ge_pow2_shift n d e 53 Hd ltac:(lia)) in Hc.
  rewrite (ge_pow2_mono n d (e + 53) (Float64.ilog2 n d + 1) Hn Hd ltac:(lia) Hc) in S2.
  discriminate.
Qed.

Lemma scaled_above (n d : Z) :
  0 < n -> 0 < d ->
  2 ^ 52 * snd (Float64.scaled n d (Float64.ilog2 n d - 52))
  <= fst (Float64.scaled n d (Float64.ilog2 n d - 52)).
Proof.
  intros Hn Hd. destruct (ilog2_spec n d Hn Hd) as [S1 _].
  apply (ge_pow2_shift n d _ 52 Hd ltac:(lia)).
  replace (Float64.ilog2 n d - 52 + 52) with (Float64.ilog2 n d) by lia. exact S1.
Qed.

Lemma canonical_fin (neg : bool) (m e : Z) :
  Float64.canonical (Float64.Fin neg m e) = true <->
  0 <= m < 2 ^ 53 /\ -1074 <= e <= 971 /\ (2 ^ 52 <= m \/ e = -1074).
Proof.
  unfold Float64.canonical, Float64.prec, Float64.emin, Float64.emax.
  rewrite !andb_true_iff, orb_true_iff, !Z.leb_le, Z.ltb_lt, Z.eqb_eq.
  change (2 ^ (53 - 1)) with (2 ^ 52). tauto.
Qed.

Lemma round_canonical (neg : bool) (n d : Z) :
  0 <= n -> 0 < d -> Float64.canonical (Float64.round neg n d) = true.
Proof.
  intros Hn Hd. unfold Float64.round.
  destruct (n =? 0) eqn:E; [reflexivity|]. apply Z.eqb_neq in E.
  assert (Hn' : 0 < n) by lia.
  unfold Float64.prec, Float64.emin, Float64.emax. change (53 - 1) with 52.
  set (lg := Float64.ilog2 n d).
  set (e := Z.max (lg - 52) (-1074)).
  pose proof (scaled_below n d e Hn' Hd ltac:(unfold e; fold lg; lia)) as Hb.
  pose proof (scaled_pos n d e Hn' Hd) as [HN HD].
  assert (Hlow : e <> -1074 ->
                 2 ^ 52 * snd (Float64.scaled n d e) <= fst (Float64.scaled n d e)).
  { intros Hne. replace e with (lg - 52) by (unfold e in *; lia).
    apply scaled_above; assumption. }
  assert (He : -1074 <= e) by (unfold e; lia).
  destruct (Float64.scaled n d e) as [N D]. simpl fst in *. simpl snd in *.
  pose proof (div_half_even_bounds N D HD) as [B1 B2].
  assert (N / D < 2 ^ 53) by (apply Z.div_lt_upper_bound; lia).
  assert (0 <= N / D) by (apply Z.div_pos; lia).
  set (m := Float64.div_half_even N D) in *.
  destruct (m =? 2 ^ 53) eqn:Em.
  - destruct (971 <? e + 1) eqn:Ee; [reflexivity|].
    apply Z.ltb_ge in Ee. apply canonical_fin.
    change (2 ^ 53) with 9007199254740992. change (2 ^ 52) with 4503599627370496. lia.
  - apply Z.eqb_neq in Em.
    destruct (971 <? e) eqn:Ee; [reflexivity|].
    apply Z.ltb_ge in Ee. apply canonical_fin.
    split; [lia|]. split; [lia|].
    destruct (Z.eq_dec e (-1074)) as [Heq|Hne]; [right; exact Heq|left].
    specialize (Hlow Hne).
    assert (2 ^ 52 <= N / D) by (apply Z.div_le_lower_bound; lia). lia.
Qed.

(** A binary64 is the rounding of the fraction that it stands for. *)
Lemma round_exact (neg : bool) (m e : Z) :
  Float64.canonical (Float64.Fin neg m e) = true ->
  Float64.round neg (fst (Float64.fraction m e)) (snd (Float64.fraction m e))
  = Float64.Fin neg m e.
Proof.
  intros Hc. apply canonical_fin in Hc. destruct Hc as (Hm & He & Hn).
  set (n := fst (Float64.fraction m e)). set (d := snd (Float64.fraction m e)).
  set (P := 2 ^ Z.abs e).
  assert (HP : 0 < P) by (apply pow2_pos; lia).
  assert (Hnd : forall j, 0 <= j -> Float64.ge_pow2 n d (e + j) = true <-> 2 ^ j <= m).
  { intros j Hj.
    assert (Hd : 0 < d).
    { unfold d, Float64.fraction. destruct (0 <=? e) eqn:E; simpl; [lia|].
      apply Z.leb_gt in E. apply pow2_pos. lia. }
    rewrite (ge_pow2_shift n d e j Hd Hj).
    assert (Float64.scaled n d e = (m * P, 1 * P)) as ->.
    { unfold n, d, Float64.fraction, Float64.scaled, P.
      destruct (0 <=? e) eqn:E; simpl.
      - apply Z.leb_le in E. rewrite Z.abs_eq by lia. reflexivity.
      - apply Z.leb_gt in E. rewrite Z.abs_neq by lia. f_equal. lia. }
    simpl. pose proof (pow2_pos j Hj). split; intros; nia. }
  assert (Hscaled : Float64.scaled n d e = (m * P, 1 * P)).
  { unfold n, d, Float64.fraction, Float64.scaled, P.
    destruct (0 <=? e) eqn:E; simpl.
    - apply Z.leb_le in E. rewrite Z.abs_eq by lia. reflexivity.
    - apply Z.leb_gt in E. rewrite Z.abs_neq by lia. f_equal. lia. }
  unfold Float64.round. fold n d.
  destruct (n =? 0) eqn:E0.
  - apply Z.eqb_eq in E0.
    assert (m = 0).
    { unfold n, Float64.fraction in E0. destruct (0 <=? e) eqn:E; simpl in E0; [|exact E0].
      apply Z.leb_le in E. pose proof (pow2_pos e E). nia. }
    subst m. assert (e = -1074) by (change (2 ^ 52) with 4503599627370496 in Hn; lia).
    subst e. reflexivity.
  - apply Z.eqb_neq in E0.
    assert (Hm0 : 0 < m).
    { destruct (Z.eq_dec m 0) as [->|]; [|lia]. exfalso. apply E0.
      unfold n, Float64.fraction. destruct (0 <=? e); reflexivity. }
    assert (Hn0 : 0 < n).
    { unfold n, Float64.fraction. destruct (0 <=? e) eqn:E; simpl; [|lia].
      apply Z.leb_le in E. pose proof (pow2_pos e E). nia. }
    assert (Hd0 : 0 < d).
    { unfold d, Float64.fraction. destruct (0 <=? e) eqn:E; simpl; [lia|].
      apply Z.leb_gt in E. apply pow2_pos. lia. }
    unfold Float64.prec, Float64.emin, Float64.emax. change (53 - 1) with 52.
    assert (He' : Z.max (Float64.ilog2 n d - 52) (-1074) = e).
    { destruct Hn as [Hn | Hn].
      - rewrite (ilog2_unique n d (e + 52) Hn0 Hd0).
        + lia.
        + apply Hnd; lia.
        + replace (e + 52 + 1) with (e + 53) by lia.
          destruct (Float64.ge_pow2 n d (e + 53)) eqn:G; [|reflexivity].
          apply Hnd in G; lia.
      - subst e. destruct (ilog2_spec n d Hn0 Hd0) as [S1 _].
        destruct (Z.le_gt_cases (Float64.ilog2 n d) (-1074 + 52)) as [Hle|Hgt]; [lia|].
        assert (Hge : -1074 + 53 <= Float64.ilog2 n d) by lia.
        pose proof (ge_pow2_mono n d _ (-1074 + 53) Hn0 Hd0 Hge S1) as G.
        apply Hnd in G; lia. }
    rewrite He', Hscaled.
    replace (1 * P) with P by lia. rewrite div_half_even_exact by exact HP.
    assert ((m =? 2 ^ 53) = false) as -> by (apply Z.eqb_neq; lia).
    assert ((971 <? e) = false) as -> by (apply Z.ltb_ge; lia).
    reflexivity.
Qed.

End Rounding.

(** ** Decimals and their floats *)

Section Decimals.

Local Open Scope Z_scope.

Lemma of_decimal_canonical (neg : bool) (m k : Z) :
  0 <= m -> Float64.canonical (Float64.of_decimal neg m k) = true.
Proof.
  intros Hm. unfold Float64.of_decimal. destruct (0 <=? k) eqn:E.
  - apply Z.leb_le in E. pose proof (pow10_pos k E).
    apply round_canonical; nia.
  - apply Z.leb_gt in E. apply round_canonical; [lia|]. apply pow10_pos. lia.
Qed.

Lemma same_eq (x y : Float64.t) : Float64.same x y = true -> x = y.
Proof.
  destruct x as [|s|s m e], y as [|s'|s' m' e']; simpl; try discriminate; auto.
  - intros H. apply Bool.eqb_prop in H. congruence.
  - rewrite !andb_true_iff, !Z.eqb_eq. intros [[H1 H2] H3].
    apply Bool.eqb_prop in H1. congruence.
Qed.

(** A trailing zero of the digits moves into the exponent. *)
Lemma of_decimal_shift (neg : bool) (c s : Z) :
  0 <= c -> Float64.of_decimal neg (10 * c) s = Float64.of_decimal neg c (s + 1).
Proof.
  intros Hc. unfold Float64.of_decimal.
  destruct (0 <=? s) eqn:E.
  - apply Z.leb_le in E. assert ((0 <=? s + 1) = true) as -> by (apply Z.leb_le; lia).
    f_equal. rewrite Z.pow_add_r by lia. change (10 ^ 1) with 10. ring.
  - apply Z.leb_gt in E. destruct (0 <=? s + 1) eqn:E'.
    + apply Z.leb_le in E'. assert (s = -1) by lia. subst s.
      change (-1 + 1) with 0. change (- -1) with 1.
      change (10 ^ 1) with (10 * 1). change (10 ^ 0) with 1.
      rewrite round_scale by lia. f_equal. ring.
    + apply Z.leb_gt in E'.
      replace (10 ^ (- s)) with (10 * 10 ^ (- (s + 1))).
      * apply round_scale; [lia | lia | apply pow10_pos; lia].
      * replace (- s) with (1 + - (s + 1)) by lia.
        rewrite Z.pow_add_r by lia. reflexivity.
Qed.

Lemma exact_decimal_reads_back (m e : Z) :
  Float64.canonical (Float64.Fin false m e) = true ->
  Float64.of_decimal false (fst (Float64.exact_decimal m e))
                           (snd (Float64.exact_decimal m e))
  = Float64.Fin false m e.
Proof.
  intros Hc. pose proof (round_exact false m e Hc) as Hr.
  pose proof (proj1 (canonical_fin _ _ _) Hc) as (Hm & _ & _).
  unfold Float64.exact_decimal, Float64.fraction, Float64.of_decimal in *.
  destruct (0 <=? e) eqn:E; simpl in *.
  - change (10 ^ 0) with 1. rewrite Z.mul_1_r. exact Hr.
  - rewrite E. apply Z.leb_gt in E.
    replace (10 ^ (- e)) with (5 ^ (- e) * 2 ^ (- e))
      by (rewrite <- Z.pow_mul_l; reflexivity).
    rewrite (Z.mul_comm m). rewrite round_scale; [exact Hr | | lia |].
    + apply Z.pow_pos_nonneg; lia.
    + apply pow2_pos. lia.
Qed.

Lemma exact_decimal_pos (m e : Z) :
  0 < m -> 0 < fst (Float64.exact_decimal m e).
Proof.
  intros Hm. unfold Float64.exact_decimal. destruct (0 <=? e) eqn:E; simpl.
  - apply Z.leb_le in E. pose proof (pow2_pos e E). nia.
  - apply Z.leb_gt in E.
    assert (0 < 5 ^ (- e)) by (apply Z.pow_pos_nonneg; lia). nia.
Qed.

Lemma candidate_reads_back (m e k p c s : Z) :
  0 < m -> -1074 <= e ->
  Float64.candidate m e k p = Some (c, s) ->
  Float64.of_decimal false c s = Float64.Fin false m e /\ 0 <= c.
Proof.
  intros Hm He. unfold Float64.candidate.
  assert (Hf : 0 < fst (Float64.fraction m e) /\ 0 < snd (Float64.fraction m e)).
  { unfold Float64.fraction. destruct (0 <=? e) eqn:E; simpl.
    - apply Z.leb_le in E. pose proof (pow2_pos e E). split; [nia|lia].
    - apply Z.leb_gt in E. split; [lia|]. apply pow2_pos. lia. }
  destruct (Float64.fraction m e) as [n d]. simpl in Hf. destruct Hf as [Hn Hd].
  assert (Hs : 0 < fst (Float64.scaled10 n d (k - p))
               /\ 0 < snd (Float64.scaled10 n d (k - p))).
  { unfold Float64.scaled10. destruct (0 <=? k - p) eqn:E; simpl.
    - apply Z.leb_le in E. pose proof (pow10_pos _ E). split; [lia|nia].
    - apply Z.leb_gt in E. pose proof (pow10_pos (- (k - p)) ltac:(lia)). split; [nia|lia]. }
  destruct (Float64.scaled10 n d (k - p)) as [n' d']. simpl in Hs. destruct Hs as [Hn' Hd'].
  cbv beta iota zeta.
  pose proof (div_half_even_bounds n' d' Hd') as [B1 B2].
  assert (Hq : 0 <= n' / d') by (apply Z.div_pos; lia).
  destruct (Float64.same _ _) eqn:S1.
  - intros H. injection H as <- <-. split; [|lia]. apply same_eq. exact S1.
  - match goal with
    | |- context [if ?b then _ else None] => destruct b eqn:S2
    end; [|intros H; discriminate H].
    intros H. injection H as <- <-. split; [apply same_eq; exact S2|].
    destruct (_ =? _); lia.
Qed.

Lemma shortest_from_reads_back (fuel : nat) (m e k p : Z) :
  Float64.canonical (Float64.Fin false m e) = true -> 0 < m ->
  Float64.of_decimal false (fst (Float64.shortest_from fuel m e k p))
                           (snd (Float64.shortest_from fuel m e k p))
  = Float64.Fin false m e
  /\ 0 < fst (Float64.shortest_from fuel m e k p).
Proof.
  intros Hc Hm. pose proof (proj1 (canonical_fin _ _ _) Hc) as (_ & He & _).
  revert p. induction fuel as [|fuel IH]; intros p; simpl.
  - split; [apply exact_decimal_reads_back; exact Hc | apply exact_decimal_pos; exact Hm].
  - destruct (Float64.candidate m e k p) as [[c s]|] eqn:Ec; [|apply IH].
    destruct (candidate_reads_back m e k p c s Hm ltac:(lia) Ec) as [Hr Hc0].
    simpl. split; [exact Hr|].
    destruct (Z.eq_dec c 0) as [->|]; [|lia].
    exfalso. unfold Float64.of_decimal in Hr.
    destruct (0 <=? s); simpl in Hr; inversion Hr; lia.
Qed.

Lemma strip_zeros_reads_back (fuel : nat) (neg : bool) (c s : Z) :
  0 < c ->
  Float64.of_decimal neg (fst (Float64.strip_zeros fuel c s))
                         (snd (Float64.strip_zeros fuel c s))
  = Float64.of_decimal neg c s
  /\ 0 < fst (Float64.strip_zeros fuel c s).
Proof.
  revert c s. induction fuel as [|fuel IH]; intros c s Hc; simpl; [auto|].
  destruct (c mod 10 =? 0) eqn:E; simpl; [|auto].
  destruct (c =? 0) eqn:E0; simpl; [auto|].
  apply Z.eqb_eq in E. pose proof (Z.div_mod c 10 ltac:(lia)) as Hdm.
  assert (Hc' : 0 < c / 10) by lia.
  destruct (IH (c / 10) (s + 1) Hc') as [H1 H2]. split; [|exact H2].
  rewrite H1. rewrite <- of_decimal_shift by lia. f_equal. lia.
Qed.

End Decimals.

(** ** Digits *)

Section Digits.

Local Open Scope Z_scope.

Lemma append_cons (x : ascii) (a b : string) :
  String x a +:+ b = String x (a +:+ b).
Proof. reflexivity. Qed.

Lemma append_nil_l (b : string) : EmptyString +:+ b = b.
Proof. reflexivity. Qed.

Lemma append_assoc (a b c : string) : (a +:+ b) +:+ c = a +:+ (b +:+ c).
Proof.
  induction a as [|x a IH]; [reflexivity|].
  rewrite !append_cons. f_equal. exact IH.
Qed.

Lemma append_nil_r (a : string) : a +:+ EmptyString = a.
Proof.
  induction a as [|x a IH]; [reflexivity|]. rewrite append_cons. f_equal. exact IH.
Qed.

Lemma length_append (a b : string) :
  String.length (a +:+ b) = (String.length a + String.length b)%nat.
Proof.
  induction a as [|x a IH]; [reflexivity|].
  rewrite append_cons. cbn [String.length]. rewrite IH. reflexivity.
Qed.

Lemma all_digits_app (a b : string) :
  all_digits (a +:+ b) = all_digits a && all_digits b.
Proof.
  induction a as [|x a IH]; [reflexivity|].
  rewrite append_cons. cbn [all_digits]. rewrite IH. apply andb_assoc.
Qed.

Lemma dval_app (a b : string) (acc : Z) : dval (a +:+ b) acc = dval b (dval a acc).
Proof.
  revert acc. induction a as [|x a IH]; intros acc; [reflexivity|].
  rewrite append_cons. cbn [dval]. apply IH.
Qed.

Lemma digit_val_range (c : ascii) :
  Float64.is_digit c = true -> 0 <= Float64.digit_val c <= 9.
Proof.
  unfold Float64.is_digit, Float64.digit_val. rewrite andb_true_iff.
  intros [H1 H2]. apply Nat.leb_le in H1, H2. lia.
Qed.

Lemma dval_nonneg (s : string) (acc : Z) :
  all_digits s = true -> 0 <= acc -> 0 <= dval s acc.
Proof.
  revert acc. induction s as [|c s IH]; intros acc Hs Ha; simpl in *; [exact Ha|].
  apply andb_true_iff in Hs as [Hc Hs]. apply IH; [exact Hs|].
  pose proof (digit_val_range c Hc). lia.
Qed.

Lemma scan_digits_app (ds rest : string) (acc : Z) (cnt : nat) :
  all_digits ds = true -> no_digit_ahead rest = true ->
  Float64.scan_digits (ds +:+ rest) acc cnt
  = (dval ds acc, (cnt + String.length ds)%nat, rest).
Proof.
  intros Hd Hr. revert acc cnt. induction ds as [|c ds IH]; intros acc cnt.
  - rewrite append_nil_l. cbn [dval String.length]. rewrite Nat.add_0_r.
    destruct rest as [|c r]; [reflexivity|].
    cbn in *. apply negb_true_iff in Hr. rewrite Hr. reflexivity.
  - rewrite append_cons. cbn [all_digits] in Hd.
    apply andb_true_iff in Hd as [Hc Hd].
    cbn [Float64.scan_digits dval String.length]. rewrite Hc.
    rewrite IH by exact Hd. f_equal. f_equal. lia.
Qed.

Lemma scan_digits_nonneg (s : string) (acc : Z) (cnt : nat) :
  0 <= acc -> 0 <= fst (fst (Float64.scan_digits s acc cnt)).
Proof.
  revert acc cnt. induction s as [|c s IH]; intros acc cnt Ha; simpl; [exact Ha|].
  destruct (Float64.is_digit c) eqn:E; [|exact Ha].
  apply IH. pose proof (digit_val_range c E). lia.
Qed.

Lemma span_digits_app (ds rest : string) :
  all_digits ds = true -> no_digit_ahead rest = true ->
  Json.span_digits (ds +:+ rest) = (ds, rest).
Proof.
  intros Hd Hr. induction ds as [|c ds IH].
  - rewrite append_nil_l. destruct rest as [|c r]; [reflexivity|].
    cbn in *. apply negb_true_iff in Hr. rewrite Hr. reflexivity.
  - rewrite append_cons. cbn [all_digits] in Hd.
    apply andb_true_iff in Hd as [Hc Hd].
    cbn [Json.span_digits]. rewrite Hc.
    rewrite IH by exact Hd. reflexivity.
Qed.

Lemma digit_char_spec (d : Z) :
  0 <= d <= 9 ->
  Float64.is_digit (Float64.digit_char d) = true
  /\ Float64.digit_val (Float64.digit_char d) = d.
Proof.
  intros Hd.
  assert (d = 0 \/ d = 1 \/ d = 2 \/ d = 3 \/ d = 4 \/ d = 5 \/ d = 6 \/ d = 7
          \/ d = 8 \/ d = 9) as H by lia.
  repeat (destruct H as [-> | H]; [split; reflexivity|]). subst; split; reflexivity.
Qed.

Lemma digits_fuel_S (fuel : nat) (z : Z) (acc : string) :
  Float64.digits_fuel (S fuel) z acc
  = if z <? 10 then String (Float64.digit_char (z mod 10)) acc
    else Float64.digits_fuel fuel (z / 10) (String (Float64.digit_char (z mod 10)) acc).
Proof. reflexivity. Qed.

(** What [digits_fuel] puts before [acc]: the numeral of [z]. *)
Lemma digits_fuel_spec (fuel : nat) (z : Z) (acc : string) :
  0 <= z < 10 ^ Z.of_nat (S fuel) ->
  exists c ds,
    Float64.digits_fuel (S fuel) z acc = String c ds +:+ acc
    /\ all_digits (String c ds) = true
    /\ dval (String c ds) 0 = z
    /\ (0 < z -> Ascii.eqb c "0" = false).
Proof.
  revert z acc. induction fuel as [|fuel IH]; intros z acc Hz;
    rewrite Nat2Z.inj_succ, Z.pow_succ_r in Hz by lia;
    pose proof (Z.div_mod z 10 ltac:(lia)) as Hdm;
    pose proof (Z.mod_pos_bound z 10 ltac:(lia)) as Hmod;
    destruct (digit_char_spec (z mod 10) ltac:(lia)) as [D1 D2];
    rewrite digits_fuel_S; destruct (z <? 10) eqn:E.
  1, 3: apply Z.ltb_lt in E; rewrite Z.mod_small in * by lia;
    exists (Float64.digit_char z), EmptyString;
    (split; [reflexivity|]); (split; [cbn [all_digits]; rewrite D1; reflexivity|]);
    (split; [cbn [dval]; rewrite D2; lia|]);
    intros Hpos; destruct (Ascii.eqb _ "0") eqn:E0; [|reflexivity];
    apply Ascii.eqb_eq in E0; rewrite E0 in D2;
    change (Float64.digit_val "0") with 0 in D2; lia.
  - apply Z.ltb_ge in E. change (Z.of_nat 0) with 0 in Hz. lia.
  - apply Z.ltb_ge in E.
    destruct (IH (z / 10) (String (Float64.digit_char (z mod 10)) acc))
      as (c & ds & H1 & H2 & H3 & H4).
    { split; [apply Z.div_pos; lia | apply Z.div_lt_upper_bound; lia]. }
    exists c, (ds +:+ String (Float64.digit_char (z mod 10)) EmptyString).
    rewrite H1. split; [|split; [|split]].
    + rewrite <- append_cons, append_assoc. reflexivity.
    + rewrite <- append_cons, all_digits_app, H2. cbn [all_digits]. rewrite D1. reflexivity.
    + rewrite <- append_cons, dval_app, H3. cbn [dval]. rewrite D2. lia.
    + intros _. apply H4. lia.
Qed.

Lemma log2_fuel (z : Z) : 0 <= z -> z < 10 ^ Z.of_nat (S (Z.to_nat (Z.log2 z))).
Proof.
  intros Hz. rewrite Nat2Z.inj_succ, Z2Nat.id by apply Z.log2_nonneg.
  destruct (Z.eq_dec z 0) as [->|Hne]; [reflexivity|].
  pose proof (Z.log2_spec z ltac:(lia)) as [_ H].
  eapply Z.lt_le_trans; [exact H|].
  apply Z.pow_le_mono_l. pose proof (Z.log2_nonneg z). lia.
Qed.

Lemma digits_spec (z : Z) :
  0 <= z ->
  exists c ds,
    Float64.digits z = String c ds
    /\ all_digits (String c ds) = true
    /\ dval (String c ds) 0 = z
    /\ (0 < z -> Ascii.eqb c "0" = false).
Proof.
  intros Hz. unfold Float64.digits.
  destruct (digits_fuel_spec (Z.to_nat (Z.log2 z)) z EmptyString)
    as (c & ds & H1 & H2 & H3 & H4).
  { split; [exact Hz | apply log2_fuel; exact Hz]. }
  exists c, ds. rewrite H1, append_nil_r. auto.
Qed.

Lemma all_digits_zeros (n : nat) : all_digits (Float64.zeros n) = true.
Proof. induction n as [|n IH]; simpl; [reflexivity | exact IH]. Qed.

Lemma dval_zeros (n : nat) (acc : Z) :
  dval (Float64.zeros n) acc = acc * 10 ^ Z.of_nat n.
Proof.
  revert acc. induction n as [|n IH]; intros acc.
  - simpl. lia.
  - cbn [Float64.zeros dval]. rewrite IH.
    rewrite Nat2Z.inj_succ, Z.pow_succ_r by lia.
    change (Float64.digit_val "0") with 0. ring.
Qed.

Lemma length_zeros (n : nat) : String.length (Float64.zeros n) = n.
Proof. induction n as [|n IH]; simpl; [reflexivity | rewrite IH; reflexivity]. Qed.

Lemma take_drop (n : nat) (s : string) : PyStr.take n s +:+ PyStr.drop n s = s.
Proof.
  revert s. induction n as [|n IH]; intros s; destruct s as [|c s];
    try reflexivity. cbn [PyStr.take PyStr.drop]. rewrite append_cons, IH. reflexivity.
Qed.

Lemma all_digits_take_drop (n : nat) (s : string) :
  all_digits s = true ->
  all_digits (PyStr.take n s) = true /\ all_digits (PyStr.drop n s) = true.
Proof.
  intros Hs. rewrite <- (take_drop n s), all_digits_app in Hs.
  apply andb_true_iff in Hs. exact Hs.
Qed.

End Digits.

(** ** Numerals *)

Section Numerals.

Local Open Scope Z_scope.

Lemma digit_neq (d c : ascii) :
  Float64.is_digit d = true -> Float64.is_digit c = false -> Ascii.eqb d c = false.
Proof.
  intros Hd Hc. destruct (Ascii.eqb d c) eqn:E; [|reflexivity].
  apply Ascii.eqb_eq in E. congruence.
Qed.

Lemma numeral_parts (ip fp : string) (ex : option (bool * string)) :
  numeral ip fp ex = ip +:+ fraction_text fp +:+ exponent_part ex.
Proof. reflexivity. Qed.

Lemma no_digit_ahead_exponent (ex : option (bool * string)) (rest : string) :
  no_digit_ahead rest = true -> no_digit_ahead (exponent_part ex +:+ rest) = true.
Proof.
  intros Hr. destruct ex as [[neg ds]|]; [reflexivity | exact Hr].
Qed.

Lemma no_digit_ahead_exponent_only (ex : option (bool * string)) :
  no_digit_ahead (exponent_part ex) = true.
Proof. destruct ex as [[neg ds]|]; reflexivity. Qed.

Lemma no_digit_ahead_fraction (fp tail : string) :
  no_digit_ahead tail = true -> no_digit_ahead (fraction_text fp +:+ tail) = true.
Proof. intros Hr. destruct fp; [exact Hr | reflexivity]. Qed.

Lemma scan_decimal_exponent (ex : option (bool * string)) (m : Z) (nf : nat) :
  match ex with
  | None => True
  | Some (_, ds) => all_digits ds = true /\ ds <> EmptyString
  end ->
  match exponent_part ex with
  | EmptyString => Some (m, - Z.of_nat nf)
  | String c r3 =>
      if Ascii.eqb (Float64.lower c) "e" then
        let '(eneg, r4) := Float64.scan_sign r3 in
        let '(ev, ne, r5) := Float64.scan_digits r4 0 0 in
        match ne, r5 with
        | S _, EmptyString => Some (m, (if eneg then - ev else ev) - Z.of_nat nf)
        | _, _ => None
        end
      else None
  end = Some (m, exponent_value ex - Z.of_nat nf).
Proof.
  destruct ex as [[neg ds]|]; [|reflexivity]. intros [Hd Hne].
  unfold exponent_part, exponent_value.
  rewrite append_cons, append_nil_l.
  change (Ascii.eqb (Float64.lower "e") "e") with true. cbv iota.
  assert (Float64.scan_sign ((if neg then "-" else "+") +:+ ds) = (neg, ds)) as ->
      by (destruct neg; reflexivity).
  pose proof (scan_digits_app ds EmptyString 0 0 Hd eq_refl) as Hs.
  rewrite append_nil_r in Hs. rewrite Hs.
  destruct ds as [|c ds]; [contradiction|]. reflexivity.
Qed.

(** [float] reads a numeral as its digits and its decimal exponent. *)
Lemma scan_decimal_numeral (ip fp : string) (ex : option (bool * string)) :
  is_numeral ip fp ex ->
  Float64.scan_decimal (numeral ip fp ex)
  = Some (dval (ip +:+ fp) 0, exponent_value ex - Z.of_nat (String.length fp)).
Proof.
  intros ((c & ip' & Hip & _) & Hi & Hf & Hex).
  assert (Hex' : match ex with
                 | None => True
                 | Some (_, ds) => all_digits ds = true /\ ds <> EmptyString
                 end) by (destruct ex as [[? ?]|]; auto).
  unfold Float64.scan_decimal. rewrite numeral_parts.
  rewrite (scan_digits_app ip _ 0 0 Hi)
    by (apply no_digit_ahead_fraction, no_digit_ahead_exponent_only).
  destruct fp as [|d fp'].
  - cbn [fraction_text]. rewrite append_nil_l, append_nil_r.
    assert (Hlen : (0 + String.length ip =? 0)%nat = false).
    { subst ip. reflexivity. }
    destruct ex as [[neg ds]|]; [|contradiction].
    unfold exponent_part at 1. rewrite append_cons, append_nil_l.
    change (Ascii.eqb "e" ".") with false. cbv iota.
    rewrite Nat.add_0_r in *. rewrite Hlen.
    pose proof (scan_decimal_exponent (Some (neg, ds)) (dval ip 0) 0 Hex') as He.
    exact He.
  - cbn [fraction_text]. rewrite !append_cons, append_nil_l.
    change (Ascii.eqb "." ".") with true. cbv iota.
    rewrite (scan_digits_app (String d fp') _ (dval ip 0) 0 Hf)
      by (apply no_digit_ahead_exponent_only).
    assert (Hlen : (0 + String.length ip + (0 + String.length (String d fp')) =? 0)%nat = false).
    { subst ip. reflexivity. }
    rewrite Hlen. rewrite dval_app.
    pose proof (scan_decimal_exponent ex (dval (String d fp') (dval ip 0))
                  (0 + String.length (String d fp')) Hex') as He.
    exact He.
Qed.

Lemma after_value_no_digit (rest : string) :
  after_value rest = true -> no_digit_ahead rest = true.
Proof.
  destruct rest as [|c r]; [reflexivity|]. cbn. intros H.
  apply orb_true_iff in H as [H|H]; apply Ascii.eqb_eq in H; subst; reflexivity.
Qed.

Lemma scan_fraction_text (fp tail : string) :
  all_digits fp = true -> no_digit_ahead tail = true ->
  Json.at_char "." tail = false ->
  Json.scan_fraction (fraction_text fp +:+ tail) = (fraction_text fp, tail).
Proof.
  intros Hf Ht Hdot. destruct fp as [|d fp'].
  - cbn [fraction_text]. rewrite append_nil_l.
    destruct tail as [|p [|d r]]; try reflexivity.
    cbn in Hdot. cbn [Json.scan_fraction]. rewrite Hdot. reflexivity.
  - cbn [fraction_text]. rewrite !append_cons, append_nil_l, append_cons.
    cbn [all_digits] in Hf. apply andb_true_iff in Hf as [Hd Hf].
    cbn [Json.scan_fraction]. change (Ascii.eqb "." ".") with true. rewrite Hd.
    cbn [andb]. rewrite (span_digits_app fp' tail Hf Ht). reflexivity.
Qed.

Lemma scan_exponent_part (ex : option (bool * string)) (rest : string) :
  match ex with
  | None => True
  | Some (_, ds) => all_digits ds = true /\ ds <> EmptyString
  end ->
  after_value rest = true ->
  Json.scan_exponent (exponent_part ex +:+ rest) = (exponent_part ex, rest).
Proof.
  intros Hex Hr. destruct ex as [[neg ds]|].
  - destruct Hex as [Hd Hne]. unfold exponent_part.
    rewrite !append_cons, !append_nil_l.
    assert (Hsign : exists sc, (if neg then "-" else "+") = String sc EmptyString
                               /\ (Ascii.eqb sc "+" || Ascii.eqb sc "-") = true).
    { destruct neg; [exists "-"%char | exists "+"%char]; split; reflexivity. }
    destruct Hsign as (sc & -> & Hsc).
    rewrite !append_cons, !append_nil_l.
    cbn [Json.scan_exponent]. change (Ascii.eqb "e" "e") with true. cbn [orb].
    rewrite Hsc.
    rewrite (span_digits_app ds rest Hd (after_value_no_digit rest Hr)).
    destruct ds as [|c ds]; [contradiction|]. reflexivity.
  - cbn [exponent_part]. rewrite append_nil_l.
    destruct rest as [|c r]; [reflexivity|].
    cbn in Hr. cbn [Json.scan_exponent].
    assert ((Ascii.eqb c "e" || Ascii.eqb c "E") = false) as ->; [|reflexivity].
    apply orb_true_iff in Hr as [H|H]; apply Ascii.eqb_eq in H; subst; reflexivity.
Qed.

Lemma at_char_dot_exponent (ex : option (bool * string)) (rest : string) :
  after_value rest = true -> Json.at_char "." (exponent_part ex +:+ rest) = false.
Proof.
  intros Hr. destruct ex as [[neg ds]|]; [reflexivity|].
  cbn [exponent_part]. rewrite append_nil_l.
  destruct rest as [|c r]; [reflexivity|]. cbn in *.
  apply orb_true_iff in Hr as [H|H]; apply Ascii.eqb_eq in H; subst; reflexivity.
Qed.

(** The JSON scanner takes a signed numeral whole, as a float. *)
Lemma match_number_numeral (neg : bool) (ip fp : string)
    (ex : option (bool * string)) (rest : string) :
  is_numeral ip fp ex -> after_value rest = true ->
  Json.match_number ((if neg then "-" else "") +:+ numeral ip fp ex +:+ rest)
  = Some ((if neg then "-" else "") +:+ numeral ip fp ex, true, rest).
Proof.
  intros ((c & ip' & Hip & Hlead) & Hi & Hf & Hex) Hr. subst ip.
  cbn [all_digits] in Hi. apply andb_true_iff in Hi as [Hc Hi].
  assert (Hex' : match ex with
                 | None => True
                 | Some (_, ds) => all_digits ds = true /\ ds <> EmptyString
                 end) by (destruct ex as [[? ?]|]; auto).
  pose proof (after_value_no_digit rest Hr) as Hnd.
  unfold numeral. rewrite !append_assoc, append_cons.
  set (tail := fraction_text fp +:+ exponent_part ex +:+ rest).
  assert (Hhead :
    match (if neg then "-" else "") +:+ String c (ip' +:+ tail) with
    | String c0 r => if Ascii.eqb c0 "-" then ("-", r)
                     else (EmptyString, (if neg then "-" else "") +:+ String c (ip' +:+ tail))
    | EmptyString => (EmptyString, (if neg then "-" else "") +:+ String c (ip' +:+ tail))
    end = ((if neg then "-" else ""), String c (ip' +:+ tail))).
  { destruct neg.
    - reflexivity.
    - rewrite append_nil_l. rewrite (digit_neq c "-" Hc eq_refl). reflexivity. }
  unfold Json.match_number. rewrite Hhead. rewrite Hc. cbn [negb].
  assert (Hint : (if Ascii.eqb c "0" then (EmptyString, ip' +:+ tail)
                  else Json.span_digits (ip' +:+ tail)) = (ip', tail)).
  { destruct (Ascii.eqb c "0") eqn:E0.
    - destruct Hlead as [H|H]; [discriminate|]. subst ip'. reflexivity.
    - apply span_digits_app; [exact Hi|]. unfold tail.
      apply no_digit_ahead_fraction, no_digit_ahead_exponent. exact Hnd. }
  rewrite Hint. unfold tail.
  rewrite (scan_fraction_text fp _ Hf (no_digit_ahead_exponent ex rest Hnd)
             (at_char_dot_exponent ex rest Hr)).
  rewrite (scan_exponent_part ex rest Hex' Hr).
  f_equal. f_equal.
  destruct ex as [[eneg ds]|].
  - destruct (fraction_text fp); reflexivity.
  - destruct fp as [|d fp']; [contradiction|]. reflexivity.
Qed.

End Numerals.

(** ** Reading a numeral as a float *)

Section Reading.

Local Open Scope Z_scope.

Lemma clean_app (a b : string) : clean (a +:+ b) = clean a && clean b.
Proof.
  induction a as [|x a IH]; [reflexivity|].
  rewrite append_cons. cbn [clean]. rewrite IH. rewrite !andb_assoc. reflexivity.
Qed.

Lemma digit_clean (c : ascii) :
  Float64.is_digit c = true ->
  negb (Float64.float_isspace c) && negb (Ascii.eqb c "_") = true.
Proof.
  intros Hc.
  assert (H1 : Float64.float_isspace c = false).
  { destruct (Float64.float_isspace c) eqn:E; [|reflexivity].
    unfold Float64.is_digit, Float64.float_isspace in *.
    apply andb_true_iff in Hc as [H1 H2]. apply Nat.leb_le in H1, H2.
    repeat (apply orb_true_iff in E as [E|E]);
      [apply andb_true_iff in E as [E1 E2]; apply Nat.leb_le in E1, E2; lia
      | apply Nat.eqb_eq in E; lia ..]. }
  rewrite H1, (digit_neq c "_" Hc eq_refl). reflexivity.
Qed.

Lemma all_digits_clean (s : string) : all_digits s = true -> clean s = true.
Proof.
  induction s as [|c s IH]; [reflexivity|]. cbn [all_digits clean].
  intros H. apply andb_true_iff in H as [Hc Hs].
  rewrite (digit_clean c Hc), (IH Hs). reflexivity.
Qed.

Lemma numeral_clean (ip fp : string) (ex : option (bool * string)) :
  is_numeral ip fp ex -> clean (numeral ip fp ex) = true.
Proof.
  intros (_ & Hi & Hf & Hex). unfold numeral. rewrite !clean_app.
  rewrite (all_digits_clean ip Hi).
  assert (clean (fraction_text fp) = true) as ->.
  { destruct fp as [|d fp']; [reflexivity|].
    unfold fraction_text. rewrite clean_app, (all_digits_clean _ Hf). reflexivity. }
  destruct ex as [[neg ds]|]; [|reflexivity]. destruct Hex as [Hd _].
  unfold exponent_part. rewrite !clean_app, (all_digits_clean ds Hd).
  destruct neg; reflexivity.
Qed.

Lemma rstrip_with_clean (s : string) :
  clean s = true -> PyStr.rstrip_with Float64.float_isspace s = s.
Proof.
  induction s as [|c s IH]; [reflexivity|]. cbn [clean PyStr.rstrip_with].
  intros H. apply andb_true_iff in H as [H Hs]. apply andb_true_iff in H as [Hc _].
  rewrite (IH Hs). apply negb_true_iff in Hc. rewrite Hc. destruct s; reflexivity.
Qed.

Lemma lstrip_with_clean (s : string) :
  clean s = true -> PyStr.lstrip_with Float64.float_isspace s = s.
Proof.
  destruct s as [|c s]; [reflexivity|]. cbn [clean PyStr.lstrip_with].
  intros H. apply andb_true_iff in H as [H _]. apply andb_true_iff in H as [Hc _].
  apply negb_true_iff in Hc. rewrite Hc. reflexivity.
Qed.

Lemma remove_underscores_clean (prev : option ascii) (s : string) :
  clean s = true ->
  match prev with Some p => Ascii.eqb p "_" | None => false end = false ->
  Float64.remove_underscores prev s = Some s.
Proof.
  revert prev. induction s as [|c s IH]; intros prev Hs Hp.
  - cbn [Float64.remove_underscores]. rewrite Hp. reflexivity.
  - cbn [clean] in Hs. apply andb_true_iff in Hs as [H Hs].
    apply andb_true_iff in H as [_ Hu]. apply negb_true_iff in Hu.
    cbn [Float64.remove_underscores]. rewrite Hu, Hp. cbn [andb].
    rewrite (IH (Some c) Hs Hu). reflexivity.
Qed.

Lemma lower_digit (c : ascii) : Float64.is_digit c = true -> Float64.lower c = c.
Proof.
  unfold Float64.is_digit, Float64.lower. intros H.
  apply andb_true_iff in H as [H1 H2]. apply Nat.leb_le in H1, H2.
  assert ((65 <=? nat_of_ascii c)%nat = false) as -> by (apply Nat.leb_gt; lia).
  reflexivity.
Qed.

Lemma round_sign (neg : bool) (n d m e : Z) :
  Float64.round false n d = Float64.Fin false m e ->
  Float64.round neg n d = Float64.Fin neg m e.
Proof.
  unfold Float64.round. destruct (n =? 0).
  - intros H. inversion H. reflexivity.
  - destruct (Float64.scaled n d _) as [N D].
    destruct (_ =? _); destruct (_ <? _); intros H; inversion H; reflexivity.
Qed.

Lemma of_decimal_sign (neg : bool) (c s m e : Z) :
  Float64.of_decimal false c s = Float64.Fin false m e ->
  Float64.of_decimal neg c s = Float64.Fin neg m e.
Proof.
  unfold Float64.of_decimal. destruct (0 <=? s); apply round_sign.
Qed.

(** [float] reads a signed numeral as the float of its decimal. *)
Lemma of_string_numeral (neg : bool) (ip fp : string) (ex : option (bool * string)) :
  is_numeral ip fp ex ->
  Float64.of_string (sign_text neg +:+ numeral ip fp ex)
  = Some (Float64.of_decimal neg (dval (ip +:+ fp) 0)
            (exponent_value ex - Z.of_nat (String.length fp))).
Proof.
  intros Hn. pose proof (numeral_clean ip fp ex Hn) as Hcl.
  pose proof (scan_decimal_numeral ip fp ex Hn) as Hsd.
  destruct Hn as ((c & ip' & Hip & _) & Hi & _ & _).
  assert (Hc : Float64.is_digit c = true).
  { subst ip. cbn [all_digits] in Hi. apply andb_true_iff in Hi. tauto. }
  assert (Hclean : clean (sign_text neg +:+ numeral ip fp ex) = true).
  { rewrite clean_app, Hcl. destruct neg; reflexivity. }
  unfold Float64.of_string.
  rewrite (rstrip_with_clean _ Hclean), (lstrip_with_clean _ Hclean).
  rewrite (remove_underscores_clean None _ Hclean eq_refl).
  assert (Hnum : exists tail, numeral ip fp ex = String c tail).
  { unfold numeral. subst ip. rewrite append_cons. eauto. }
  destruct Hnum as (tail & Hnum).
  assert (Hsign : Float64.scan_sign (sign_text neg +:+ numeral ip fp ex)
                  = (neg, numeral ip fp ex)).
  { rewrite Hnum. destruct neg; [reflexivity|].
    unfold sign_text. rewrite append_nil_l. cbn [Float64.scan_sign].
    rewrite (digit_neq c "-" Hc eq_refl), (digit_neq c "+" Hc eq_refl). reflexivity. }
  rewrite Hsign. rewrite Hsd.
  rewrite Hnum. cbn [Float64.lower_string]. rewrite (lower_digit c Hc).
  assert (Hinf : forall w, String.eqb (String c (Float64.lower_string tail)) (String "i" w) = false).
  { intros w. cbn [String.eqb]. rewrite (digit_neq c "i" Hc eq_refl). reflexivity. }
  assert (Hnan : forall w, String.eqb (String c (Float64.lower_string tail)) (String "n" w) = false).
  { intros w. cbn [String.eqb]. rewrite (digit_neq c "n" Hc eq_refl). reflexivity. }
  rewrite (Hinf "nf"), (Hinf "nfinity"), (Hnan "an"). reflexivity.
Qed.

End Reading.

(** ** The text of a float *)

Section Writing.

Local Open Scope Z_scope.

Lemma fraction_text_cons (d : ascii) (fp : string) :
  fraction_text (String d fp) = String "." (String d fp).
Proof. reflexivity. Qed.

Lemma length_drop (n : nat) (s : string) :
  String.length (PyStr.drop n s) = (String.length s - n)%nat.
Proof.
  revert s. induction n as [|n IH]; intros s; destruct s as [|c s]; cbn; auto.
Qed.

Lemma of_decimal_pow (neg : bool) (c k : Z) :
  0 <= k -> Float64.of_decimal neg (c * 10 ^ k) 0 = Float64.of_decimal neg c k.
Proof.
  intros Hk. unfold Float64.of_decimal.
  assert ((0 <=? k) = true) as -> by (apply Z.leb_le; exact Hk).
  change (0 <=? 0) with true. cbv iota. change (10 ^ 0) with 1.
  rewrite Z.mul_1_r. reflexivity.
Qed.

Lemma exponent_text_part (x : Z) :
  exists ds,
    "e" +:+ Float64.exponent_text x = exponent_part (Some (x <? 0, ds))
    /\ all_digits ds = true /\ ds <> EmptyString
    /\ exponent_value (Some (x <? 0, ds)) = x.
Proof.
  destruct (digits_spec (Z.abs x) (Z.abs_nonneg x)) as (c & ds & Hd & Ha & Hv & _).
  exists ((if Z.abs x <? 10 then "0" else "") +:+ Float64.digits (Z.abs x)).
  split; [reflexivity|]. rewrite Hd.
  split; [|split].
  - rewrite all_digits_app, Ha. destruct (Z.abs x <? 10); reflexivity.
  - destruct (Z.abs x <? 10); discriminate.
  - unfold exponent_value. rewrite dval_app.
    assert (dval (if Z.abs x <? 10 then "0" else "") 0 = 0) as ->
        by (destruct (Z.abs x <? 10); reflexivity).
    rewrite Hv. destruct (x <? 0) eqn:E; [apply Z.ltb_lt in E | apply Z.ltb_ge in E]; lia.
Qed.

(** The text that [float.__repr__] makes of digits and a position of the
    point is a numeral, and it denotes the decimal with these digits. *)
Lemma format_short_numeral (c : ascii) (ds' : string) (decpt : Z) :
  all_digits (String c ds') = true -> Ascii.eqb c "0" = false ->
  exists ip fp ex,
    Float64.format_short (String c ds') decpt = numeral ip fp ex
    /\ is_numeral ip fp ex
    /\ forall neg,
         Float64.of_decimal neg (dval (ip +:+ fp) 0)
           (exponent_value ex - Z.of_nat (String.length fp))
         = Float64.of_decimal neg (dval (String c ds') 0)
             (decpt - Z.of_nat (String.length (String c ds'))).
Proof.
  intros Hd Hc0. set (ds := String c ds') in *.
  pose proof Hd as Hd'. cbn [ds all_digits] in Hd'.
  apply andb_true_iff in Hd' as [Hc Hds'].
  unfold Float64.format_short. fold ds.
  set (len := Z.of_nat (String.length ds)).
  assert (Hlen : len = 1 + Z.of_nat (String.length ds'))
    by (unfold len, ds; cbn [String.length]; lia).
  destruct ((decpt <=? -4) || (16 <? decpt)) eqn:Eexp.
  - (* exponent notation *)
    destruct (exponent_text_part (decpt - 1)) as (eds & He & Hea & Hen & Hev).
    exists (String c EmptyString), ds', (Some (decpt - 1 <? 0, eds)).
    split; [|split].
    + unfold numeral. rewrite <- He.
      change (PyStr.take 1 ds) with (String c EmptyString).
      change (PyStr.drop 1 ds) with ds'.
      f_equal. f_equal.
      destruct ds' as [|d r].
      * assert ((1 <? len) = false) as -> by (apply Z.ltb_ge; cbn in Hlen; lia).
        reflexivity.
      * assert ((1 <? len) = true) as ->
            by (apply Z.ltb_lt; cbn [String.length] in Hlen; lia).
        reflexivity.
    + split; [exists c, EmptyString; auto|].
      split; [cbn [all_digits]; rewrite Hc; reflexivity|].
      split; [exact Hds'|]. split; assumption.
    + intros neg. rewrite Hev. rewrite append_cons, append_nil_l. fold ds.
      f_equal. fold len. lia.
  - destruct (decpt <=? 0) eqn:E0.
    + (* a zero before the point *)
      apply Z.leb_le in E0.
      exists "0"%string, (Float64.zeros (Z.to_nat (- decpt)) +:+ ds), None.
      assert (Hfp : exists d r, Float64.zeros (Z.to_nat (- decpt)) +:+ ds = String d r).
      { destruct (Z.to_nat (- decpt)); cbn [Float64.zeros].
        - rewrite append_nil_l. unfold ds. eauto.
        - rewrite append_cons. eauto. }
      destruct Hfp as (d & r & Hfp).
      split; [|split].
      * unfold numeral. rewrite Hfp, fraction_text_cons. cbn [exponent_part].
        rewrite append_nil_r. rewrite <- Hfp. reflexivity.
      * split; [exists "0"%char, EmptyString; auto|].
        split; [reflexivity|]. split.
        -- rewrite all_digits_app, all_digits_zeros. exact Hd.
        -- rewrite Hfp. discriminate.
      * intros neg. rewrite append_cons, append_nil_l. cbn [dval].
        change (10 * 0 + Float64.digit_val "0") with 0.
        rewrite dval_app, dval_zeros. rewrite Z.mul_0_l.
        rewrite length_append, length_zeros. cbn [exponent_value].
        f_equal. fold len. lia.
    + apply Z.leb_gt in E0. destruct (decpt <? len) eqn:E1.
      * (* the point inside the digits *)
        apply Z.ltb_lt in E1.
        set (k := Z.to_nat decpt).
        assert (Hk : (1 <= k)%nat /\ (k < String.length ds)%nat) by (unfold k, len in *; lia).
        exists (PyStr.take k ds), (PyStr.drop k ds), None.
        destruct (all_digits_take_drop k ds Hd) as [Ht Hdr].
        assert (Hfp : exists d r, PyStr.drop k ds = String d r).
        { pose proof (length_drop k ds) as Hl.
          destruct (PyStr.drop k ds) as [|d r]; [cbn in Hl; lia | eauto]. }
        destruct Hfp as (d & r & Hfp).
        assert (Htk : exists ip', PyStr.take k ds = String c ip').
        { destruct k as [|k']; [lia|]. unfold ds. cbn [PyStr.take]. eauto. }
        destruct Htk as (ip' & Htk).
        split; [|split].
        -- unfold numeral. rewrite Hfp, fraction_text_cons. cbn [exponent_part].
           rewrite append_nil_r. reflexivity.
        -- split; [exists c, ip'; auto|].
           split; [exact Ht|]. split; [exact Hdr|]. rewrite Hfp. discriminate.
        -- intros neg. rewrite take_drop. cbn [exponent_value].
           f_equal. rewrite length_drop. fold len. unfold len in *. lia.
      * (* zeros up to the point *)
        apply Z.ltb_ge in E1.
        exists (ds +:+ Float64.zeros (Z.to_nat (decpt - len))), "0"%string, None.
        split; [|split].
        -- unfold numeral. change (fraction_text "0") with ".0"%string.
           cbn [exponent_part]. rewrite append_nil_r, append_assoc. reflexivity.
        -- split.
           { exists c, (ds' +:+ Float64.zeros (Z.to_nat (decpt - len))).
             split; [reflexivity | auto]. }
           split; [rewrite all_digits_app, Hd, all_digits_zeros; reflexivity|].
           split; [reflexivity | discriminate].
        -- intros neg. rewrite dval_app. cbn [dval String.length exponent_value].
           change (Float64.digit_val "0") with 0.
           rewrite dval_app, dval_zeros, Z2Nat.id by lia.
           change (0 - Z.of_nat 1) with (-1).
           rewrite Z.add_0_r.
           assert (Hnn : 0 <= dval ds 0 * 10 ^ (decpt - len)).
           { pose proof (dval_nonneg ds 0 Hd ltac:(lia)).
             pose proof (pow10_pos (decpt - len) ltac:(lia)). nia. }
           rewrite (of_decimal_shift neg _ (-1) Hnn). change (-1 + 1) with 0.
           rewrite of_decimal_pow by lia. reflexivity.
Qed.

End Writing.

(** ** A float and its text *)

Section ReadBack.

Local Open Scope Z_scope.

Lemma shortest_spec (m e : Z) :
  Float64.canonical (Float64.Fin false m e) = true -> 0 < m ->
  exists c ds',
    fst (Float64.shortest m e) = String c ds'
    /\ all_digits (String c ds') = true
    /\ Ascii.eqb c "0" = false
    /\ forall neg,
         Float64.of_decimal neg (dval (String c ds') 0)
           (snd (Float64.shortest m e) - Z.of_nat (String.length (String c ds')))
         = Float64.Fin neg m e.
Proof.
  intros Hc Hm. unfold Float64.shortest.
  destruct (Float64.fraction m e) as [n d].
  destruct (Float64.exact_decimal m e) as [c0 s0].
  set (fuel := Z.to_nat (Float64.ndigits c0)).
  set (k := Float64.decimal_exponent n d).
  destruct (shortest_from_reads_back fuel m e k 1 Hc Hm) as [Hr Hpos].
  destruct (Float64.shortest_from fuel m e k 1) as [c1 s1]. cbn [fst snd] in *.
  destruct (strip_zeros_reads_back (Z.to_nat (Float64.ndigits c1)) false c1 s1 Hpos)
    as [Hr2 Hpos2].
  destruct (Float64.strip_zeros _ c1 s1) as [c2 s2]. cbn [fst snd] in *.
  destruct (digits_spec c2 ltac:(lia)) as (c & ds' & Hd & Ha & Hv & Hz).
  exists c, ds'. cbn [fst snd]. rewrite Hd.
  split; [reflexivity|]. split; [exact Ha|]. split; [apply Hz; exact Hpos2|].
  intros neg. apply of_decimal_sign. rewrite Hv.
  replace (Z.of_nat (String.length (String c ds')) + s2
           - Z.of_nat (String.length (String c ds'))) with s2 by lia.
  rewrite Hr2. exact Hr.
Qed.

(** The text of a finite float is a signed numeral that denotes it. *)
Lemma repr_numeral (neg : bool) (m e : Z) :
  Float64.canonical (Float64.Fin neg m e) = true ->
  exists ip fp ex,
    Float64.repr (Float64.Fin neg m e) = sign_text neg +:+ numeral ip fp ex
    /\ is_numeral ip fp ex
    /\ Float64.of_decimal neg (dval (ip +:+ fp) 0)
         (exponent_value ex - Z.of_nat (String.length fp))
       = Float64.Fin neg m e.
Proof.
  intros Hc. pose proof (proj1 (canonical_fin _ _ _) Hc) as (Hm & He & Hn).
  unfold Float64.repr. fold (sign_text neg).
  destruct (m =? 0) eqn:E0.
  - apply Z.eqb_eq in E0. subst m.
    assert (e = -1074) by (change (2 ^ 52) with 4503599627370496 in Hn; lia). subst e.
    exists "0"%string, "0"%string, None.
    split; [reflexivity|]. split.
    + split; [exists "0"%char, EmptyString; auto|].
      split; [reflexivity|]. split; [reflexivity | discriminate].
    + destruct neg; reflexivity.
  - apply Z.eqb_neq in E0.
    assert (Hc' : Float64.canonical (Float64.Fin false m e) = true)
      by (apply canonical_fin; auto).
    destruct (shortest_spec m e Hc' ltac:(lia)) as (c & ds' & Hs & Ha & Hz & Hv).
    destruct (Float64.shortest m e) as [ds decpt]. cbn [fst snd] in *. subst ds.
    destruct (format_short_numeral c ds' decpt Ha Hz) as (ip & fp & ex & Hf & Hnum & Hval).
    exists ip, fp, ex. rewrite Hf. split; [reflexivity|]. split; [exact Hnum|].
    rewrite Hval. apply Hv.
Qed.

(** [float(repr(x))] is [x] for every finite binary64 [x]. *)
Lemma of_string_repr (neg : bool) (m e : Z) :
  Float64.canonical (Float64.Fin neg m e) = true ->
  Float64.of_string (Float64.repr (Float64.Fin neg m e))
  = Some (Float64.Fin neg m e).
Proof.
  intros Hc. destruct (repr_numeral neg m e Hc) as (ip & fp & ex & Hr & Hn & Hv).
  rewrite Hr, (of_string_numeral neg ip fp ex Hn), Hv. reflexivity.
Qed.

Lemma scan_decimal_nonneg (s : string) (m k : Z) :
  Float64.scan_decimal s = Some (m, k) -> 0 <= m.
Proof.
  unfold Float64.scan_decimal.
  pose proof (scan_digits_nonneg s 0 0 ltac:(lia)) as H1.
  destruct (Float64.scan_digits s 0 0) as [[ip ni] r1]. cbn [fst] in H1.
  assert (H2 : forall r, 0 <= fst (fst (Float64.scan_digits r ip 0)))
    by (intros r; apply scan_digits_nonneg; exact H1).
  assert (H3 : 0 <= fst (fst match r1 with
                             | String c r =>
                                 if Ascii.eqb c "." then Float64.scan_digits r ip 0
                                 else (ip, O, r1)
                             | EmptyString => (ip, O, r1)
                             end)).
  { destruct r1 as [|c r]; [exact H1|]. destruct (Ascii.eqb c "."); [apply H2 | exact H1]. }
  destruct (match r1 with
            | String c r => _
            | EmptyString => _
            end) as [[m' nf] r2]. cbn [fst] in H3.
  destruct (_ =? _)%nat; [discriminate|].
  destruct r2 as [|c r3].
  - intros H. inversion H. subst. exact H3.
  - destruct (Ascii.eqb _ "e"); [|discriminate].
    destruct (Float64.scan_sign r3) as [eneg r4].
    destruct (Float64.scan_digits r4 0 0) as [[ev ne] r5].
    destruct ne; [discriminate|]. destruct r5; [|discriminate].
    intros H. inversion H. subst. exact H3.
Qed.

(** Whatever [float] reads is a binary64. *)
Lemma of_string_canonical (s : string) (x : Float64.t) :
  Float64.of_string s = Some x -> Float64.canonical x = true.
Proof.
  unfold Float64.of_string.
  destruct (Float64.remove_underscores None _) as [body|]; [|discriminate].
  destruct (Float64.scan_sign body) as [neg r].
  destruct (_ || _); [intros H; inversion H; reflexivity|].
  destruct (String.eqb _ "nan"); [intros H; inversion H; reflexivity|].
  destruct (Float64.scan_decimal r) as [[m k]|] eqn:E; [|discriminate].
  intros H. inversion H. apply of_decimal_canonical.
  eapply scan_decimal_nonneg. exact E.
Qed.

End ReadBack.

(** ** JSON texts *)

Lemma scanstring_escape (c : ascii) (tail : string) :
  Json.scanstring (Json.escape c +:+ tail) = Json.cons_fst c (Json.scanstring tail).
Proof. destruct c as [[] [] [] [] [] [] [] []]; reflexivity. Qed.

Lemma scanstring_escape_all (s rest : string) :
  Json.scanstring (Json.escape_all s +:+ String Json.DQ rest) = Some (s, rest).
Proof.
  induction s as [|c s IH].
  - reflexivity.
  - cbn [Json.escape_all]. rewrite append_assoc, scanstring_escape, IH. reflexivity.
Qed.

Lemma encode_basestring_ascii_app (s rest : string) :
  Json.encode_basestring_ascii s +:+ rest
  = String Json.DQ (Json.escape_all s +:+ String Json.DQ rest).
Proof.
  unfold Json.encode_basestring_ascii. rewrite append_cons, append_assoc. reflexivity.
Qed.

Lemma value_start_spec (c : ascii) :
  value_start c = true ->
  Json.is_ws c = false /\ Ascii.eqb c "]" = false /\ Ascii.eqb c "}" = false
  /\ Ascii.eqb c "," = false /\ Ascii.eqb c ":" = false.
Proof. destruct c as [[] [] [] [] [] [] [] []]; cbv; intros H; try discriminate H; auto. Qed.

Lemma skip_ws_start (c : ascii) (s : string) :
  Json.is_ws c = false -> Json.skip_ws (String c s) = String c s.
Proof. intros H. unfold Json.skip_ws. cbn [PyStr.lstrip_with]. rewrite H. reflexivity. Qed.

Lemma skip_ws_spaces (n : nat) (s : string) :
  Json.skip_ws (Json.spaces n +:+ s) = Json.skip_ws s.
Proof.
  induction n as [|n IH]; [reflexivity|].
  cbn [Json.spaces]. rewrite append_cons. unfold Json.skip_ws in *.
  cbn [PyStr.lstrip_with]. change (Json.is_ws " ") with true. exact IH.
Qed.

Lemma skip_ws_newline_indent (indent level : nat) (s : string) :
  Json.skip_ws (Json.newline_indent indent level +:+ s) = Json.skip_ws s.
Proof.
  unfold Json.newline_indent. rewrite append_cons.
  unfold Json.skip_ws at 1. cbn [PyStr.lstrip_with].
  change (Json.is_ws PyStr.LF) with true. cbv iota.
  apply skip_ws_spaces.
Qed.

Lemma after_value_newline_indent (indent level : nat) (s : string) :
  after_value (Json.newline_indent indent level +:+ s) = true.
Proof. reflexivity. Qed.

(** *** Floats *)

Lemma floatstr_head (x : Float64.t) :
  Float64.canonical x = true ->
  exists c s, Json.floatstr x = String c s /\ value_start c = true.
Proof.
  intros Hc. destruct x as [|[]|neg m e]; try (cbn; eexists _, _; split; reflexivity).
  destruct (repr_numeral neg m e Hc) as (ip & fp & ex & Hr & ((c & ip' & -> & _) & Hi & _) & _).
  cbn [Json.floatstr]. rewrite Hr. unfold numeral. rewrite append_cons.
  destruct neg.
  - eexists _, _. split; reflexivity.
  - exists c. eexists. split; [reflexivity|].
    cbn [all_digits] in Hi. apply andb_true_iff in Hi as [Hd _].
    unfold value_start. rewrite Hd. reflexivity.
Qed.

Lemma digit_head_tests (c : ascii) (s : string) :
  Float64.is_digit c = true ->
  Json.at_char Json.DQ (String c s) = false
  /\ Json.at_char "{" (String c s) = false
  /\ Json.at_char "[" (String c s) = false
  /\ Json.strip_prefix "null" (String c s) = None
  /\ Json.strip_prefix "true" (String c s) = None
  /\ Json.strip_prefix "false" (String c s) = None.
Proof.
  intros Hd. unfold Json.at_char, Json.strip_prefix. cbn [PyStr.startswith].
  rewrite (digit_neq c Json.DQ Hd eq_refl), (digit_neq c "{" Hd eq_refl),
    (digit_neq c "[" Hd eq_refl).
  rewrite (Ascii.eqb_sym "n" c), (Ascii.eqb_sym "t" c), (Ascii.eqb_sym "f" c).
  rewrite (digit_neq c "n" Hd eq_refl), (digit_neq c "t" Hd eq_refl),
    (digit_neq c "f" Hd eq_refl). cbn [andb]. repeat split; reflexivity.
Qed.

(** The decoder reads the text of a float back as that float. *)
Lemma scan_once_float (fuel : nat) (x : Float64.t) (rest : string) :
  Float64.canonical x = true -> after_value rest = true ->
  Json.scan_once (S fuel) (Json.floatstr x +:+ rest) = Some (PyFloat x, rest).
Proof.
  intros Hc Hr. destruct x as [|[]|neg m e].
  - destruct rest as [|c r]; [reflexivity|]. cbn in Hr.
    apply orb_true_iff in Hr as [H|H]; apply Ascii.eqb_eq in H; subst; reflexivity.
  - reflexivity.
  - reflexivity.
  - destruct (repr_numeral neg m e Hc) as (ip & fp & ex & Hrepr & Hn & Hv).
    cbn [Json.floatstr]. rewrite Hrepr.
    pose proof (match_number_numeral neg ip fp ex rest Hn Hr) as Hm.
    pose proof (of_string_numeral neg ip fp ex Hn) as Ho. rewrite Hv in Ho.
    fold (sign_text neg) in Hm. rewrite <- append_assoc in Hm.
    destruct Hn as ((c & ip' & Hip & _) & Hi & _ & _). subst ip.
    cbn [all_digits] in Hi. apply andb_true_iff in Hi as [Hd _].
    set (text := sign_text neg +:+ numeral (String c ip') fp ex) in *.
    assert (Hhead : Json.at_char Json.DQ (text +:+ rest) = false
                    /\ Json.at_char "{" (text +:+ rest) = false
                    /\ Json.at_char "[" (text +:+ rest) = false
                    /\ Json.strip_prefix "null" (text +:+ rest) = None
                    /\ Json.strip_prefix "true" (text +:+ rest) = None
                    /\ Json.strip_prefix "false" (text +:+ rest) = None).
    { unfold text, numeral. destruct neg.
      - repeat split; reflexivity.
      - unfold sign_text. rewrite append_nil_l, !append_cons.
        apply digit_head_tests. exact Hd. }
    destruct Hhead as (H1 & H2 & H3 & H4 & H5 & H6).
    cbn [Json.scan_once]. rewrite H1, H2, H3, H4, H5, H6, Hm, Ho. reflexivity.
Qed.

(** *** Integers *)

Lemma after_value_cases (rest : string) :
  after_value rest = true ->
  rest = EmptyString
  \/ exists r, rest = String "," r \/ rest = String PyStr.LF r.
Proof.
  destruct rest as [|c r]; [auto|]. cbn. intros H. right. exists r.
  apply orb_true_iff in H as [H|H]; apply Ascii.eqb_eq in H; subst; auto.
Qed.

Lemma scan_fraction_none (rest : string) :
  after_value rest = true -> Json.scan_fraction rest = (EmptyString, rest).
Proof.
  intros H. destruct (after_value_cases rest H) as [-> | (r & [-> | ->])];
    try reflexivity; destruct r; reflexivity.
Qed.

Lemma scan_exponent_none (rest : string) :
  after_value rest = true -> Json.scan_exponent rest = (EmptyString, rest).
Proof.
  intros H. destruct (after_value_cases rest H) as [-> | (r & [-> | ->])];
    reflexivity.
Qed.

(** The JSON scanner takes the digits of a natural number whole, as an
    integer. *)
Lemma match_number_digits (c : ascii) (ds rest : string) :
  all_digits (String c ds) = true ->
  (Ascii.eqb c "0" = true -> ds = EmptyString) ->
  after_value rest = true ->
  Json.match_number (String c ds +:+ rest) = Some (String c ds, false, rest).
Proof.
  intros Hd H0 Hr. cbn [all_digits] in Hd. apply andb_true_iff in Hd as [Hc Hds].
  rewrite append_cons. unfold Json.match_number.
  rewrite (digit_neq c "-" Hc eq_refl). rewrite Hc. cbn [negb].
  destruct (Ascii.eqb c "0") eqn:E0.
  - rewrite (H0 eq_refl), append_nil_l.
    rewrite (scan_fraction_none rest Hr), (scan_exponent_none rest Hr).
    reflexivity.
  - rewrite (span_digits_app ds rest Hds (after_value_no_digit rest Hr)).
    rewrite (scan_fraction_none rest Hr), (scan_exponent_none rest Hr).
    rewrite !append_nil_r. reflexivity.
Qed.

Lemma match_number_minus_digits (c : ascii) (ds rest : string) :
  all_digits (String c ds) = true ->
  (Ascii.eqb c "0" = true -> ds = EmptyString) ->
  after_value rest = true ->
  Json.match_number (String "-" (String c ds +:+ rest))
  = Some (String "-" (String c ds), false, rest).
Proof.
  intros Hd H0 Hr. cbn [all_digits] in Hd. apply andb_true_iff in Hd as [Hc Hds].
  rewrite append_cons. unfold Json.match_number.
  change (Ascii.eqb "-" "-") with true. cbv iota. rewrite Hc. cbn [negb].
  destruct (Ascii.eqb c "0") eqn:E0.
  - rewrite (H0 eq_refl), append_nil_l.
    rewrite (scan_fraction_none rest Hr), (scan_exponent_none rest Hr).
    reflexivity.
  - rewrite (span_digits_app ds rest Hds (after_value_no_digit rest Hr)).
    rewrite (scan_fraction_none rest Hr), (scan_exponent_none rest Hr).
    rewrite !append_nil_r. reflexivity.
Qed.

Lemma int_of_text_digits (c : ascii) (ds : string) :
  all_digits (String c ds) = true ->
  Json.int_of_text (String c ds) = dval (String c ds) 0
  /\ Json.int_of_text (String "-" (String c ds)) = (- dval (String c ds) 0)%Z.
Proof.
  intros Hd. pose proof (scan_digits_app (String c ds) EmptyString 0 0 Hd eq_refl) as Hs.
  rewrite append_nil_r in Hs.
  assert (Hc : Ascii.eqb c "-" = false).
  { cbn [all_digits] in Hd. apply andb_true_iff in Hd as [Hc _].
    exact (digit_neq c "-" Hc eq_refl). }
  unfold Json.int_of_text. rewrite Hc. change (Ascii.eqb "-" "-") with true.
  cbv iota. rewrite Hs. split; reflexivity.
Qed.

Lemma int_repr_text (z : Z) :
  exists c ds,
    Float64.digits (Z.abs z) = String c ds
    /\ all_digits (String c ds) = true
    /\ dval (String c ds) 0 = Z.abs z
    /\ (Ascii.eqb c "0" = true -> ds = EmptyString).
Proof.
  destruct (Z.eq_dec (Z.abs z) 0%Z) as [E|E].
  - rewrite E. exists "0"%char, EmptyString. repeat split.
  - destruct (digits_spec (Z.abs z) ltac:(lia)) as (c & ds & H1 & H2 & H3 & H4).
    exists c, ds. repeat split; try assumption.
    intros Hc. rewrite H4 in Hc by lia. discriminate.
Qed.

Lemma int_repr_head (z : Z) :
  exists c s, Json.int_repr z = String c s /\ value_start c = true.
Proof.
  unfold Json.int_repr, Py.int_repr.
  destruct (int_repr_text z) as (c & ds & -> & Hd & _).
  destruct (z <? 0)%Z.
  - eexists _, _. split; reflexivity.
  - rewrite append_nil_l. exists c, ds. split; [reflexivity|].
    cbn [all_digits] in Hd. apply andb_true_iff in Hd as [Hc _].
    unfold value_start. rewrite Hc. reflexivity.
Qed.

(** The decoder reads the text of an integer back as that integer. *)
Lemma scan_once_int (fuel : nat) (z : Z) (rest : string) :
  after_value rest = true ->
  Json.scan_once (S fuel) (Json.int_repr z +:+ rest) = Some (PyInt z, rest).
Proof.
  intros Hr. unfold Json.int_repr, Py.int_repr.
  destruct (int_repr_text z) as (c & ds & -> & Hd & Hv & H0).
  pose proof (match_number_digits c ds rest Hd H0 Hr) as Hm.
  destruct (int_of_text_digits c ds Hd) as [Hp Hn].
  assert (Hc : Float64.is_digit c = true).
  { cbn [all_digits] in Hd. apply andb_true_iff in Hd as [Hc _]. exact Hc. }
  destruct (z <? 0)%Z eqn:Ez.
  - pose proof (match_number_minus_digits c ds rest Hd H0 Hr) as Hm'.
    rewrite append_cons, append_nil_l, append_cons.
    assert (H4 : forall s, Json.strip_prefix "null" (String "-" s) = None)
      by reflexivity.
    assert (H5 : forall s, Json.strip_prefix "true" (String "-" s) = None)
      by reflexivity.
    assert (H6 : forall s, Json.strip_prefix "false" (String "-" s) = None)
      by reflexivity.
    cbn [Json.scan_once Json.at_char].
    change (Ascii.eqb "-" Json.DQ) with false.
    change (Ascii.eqb "-" "{") with false.
    change (Ascii.eqb "-" "[") with false. cbv iota.
    rewrite H4, H5, H6, Hm', Hn, Hv. apply Z.ltb_lt in Ez.
    f_equal. f_equal. f_equal. lia.
  - rewrite append_nil_l. rewrite append_cons.
    destruct (digit_head_tests c (ds +:+ rest) Hc) as (H1 & H2 & H3 & H4 & H5 & H6).
    cbn [Json.scan_once]. rewrite H1, H2, H3, H4, H5, H6.
    rewrite <- append_cons, Hm, Hp, Hv. apply Z.ltb_ge in Ez.
    f_equal. f_equal. f_equal. lia.
Qed.

(** ** The decoder on the output of the encoder *)

Section RoundTrip.

Variable indent : nat.

Lemma encode_list_cons (level : nat) (x : pyval) (l : list pyval) :
  document indent level (PyList (x :: l))
  = "[" +:+ Json.newline_indent indent (S level)
    +:+ PyStr.join (separator indent (S level))
          (map (document indent (S level)) (x :: l))
    +:+ Json.newline_indent indent level +:+ "]".
Proof. reflexivity. Qed.

Lemma members_text_keys (level : nat) (d : list (string * pyval)) :
  map (fun kv => Json.encode_basestring_ascii (key_name (fst kv)) +:+ ": "
                 +:+ document indent level (snd kv)) (Py.text_keys d)
  = map (member_text indent level) d.
Proof.
  unfold Py.text_keys. rewrite map_map. apply map_ext. intros [k v]. reflexivity.
Qed.

Lemma encode_dict_cons (level : nat) (kv : string * pyval)
    (d : list (string * pyval)) :
  document indent level (PyDict (Py.text_keys (kv :: d)))
  = "{" +:+ Json.newline_indent indent (S level)
    +:+ PyStr.join (separator indent (S level))
          (map (member_text indent (S level)) (kv :: d))
    +:+ Json.newline_indent indent level +:+ "}".
Proof.
  rewrite <- (members_text_keys (S level) (kv :: d)). reflexivity.
Qed.

Lemma weight_text_keys (d : list (string * pyval)) :
  weight (PyDict (Py.text_keys d)) = S (members_weight d).
Proof.
  cbn [weight]. unfold Py.text_keys, members_weight. rewrite map_map. reflexivity.
Qed.

Lemma join_cons (sep a : string) (l : list string) :
  PyStr.join sep (a :: l)
  = a +:+ match l with [] => EmptyString | _ => sep +:+ PyStr.join sep l end.
Proof.
  unfold PyStr.join. destruct l as [|b l]; cbn [String.concat].
  - rewrite append_nil_r. reflexivity.
  - reflexivity.
Qed.

Lemma encode_head (level : nat) (v : pyval) :
  jsonable v ->
  exists c s, document indent level v = String c s /\ value_start c = true.
Proof.
  intros Hv. destruct Hv as [|b|z|x Hx|s|l _|d _ _].
  - eexists _, _. split; reflexivity.
  - destruct b; eexists _, _; split; reflexivity.
  - apply int_repr_head.
  - apply floatstr_head. exact Hx.
  - eexists _, _. split; reflexivity.
  - destruct l; eexists _, _; split; reflexivity.
  - destruct d; eexists _, _; split; reflexivity.
Qed.

Lemma skip_ws_encode (level : nat) (v : pyval) (rest : string) :
  jsonable v ->
  Json.skip_ws (document indent level v +:+ rest)
  = document indent level v +:+ rest
  /\ Json.at_char "]" (document indent level v +:+ rest) = false.
Proof.
  intros Hv. destruct (encode_head level v Hv) as (c & s & -> & Hc).
  destruct (value_start_spec c Hc) as (H1 & H2 & _).
  rewrite append_cons. split; [apply skip_ws_start; exact H1 | exact H2].
Qed.

Lemma dict_set_fresh (acc : list (string * pyval)) (k : string) (v : pyval) :
  ~ In k (map fst acc) -> Json.dict_set acc k v = acc ++ [(k, v)].
Proof.
  induction acc as [|[k' v'] acc IH]; intros Hk; [reflexivity|].
  cbn [Json.dict_set]. cbn [map fst In] in Hk.
  destruct (String.eqb k' k) eqn:E.
  - apply String.eqb_eq in E. tauto.
  - rewrite IH by tauto. reflexivity.
Qed.

Lemma reads_values_step (fuel : nat) :
  reads_items indent fuel -> reads_members indent fuel ->
  reads_values indent (S fuel).
Proof.
  intros HA HO v level rest Hv Hw Hr.
  destruct Hv as [|b|z|x Hx|s|l Hl|d Hnd Hd].
  - destruct rest as [|c r]; [reflexivity|]. cbn in Hr.
    apply orb_true_iff in Hr as [H|H]; apply Ascii.eqb_eq in H; subst; reflexivity.
  - destruct b; reflexivity.
  - apply scan_once_int; assumption.
  - apply scan_once_float; assumption.
  - cbn [document]. rewrite encode_basestring_ascii_app.
    cbn [Json.scan_once Json.at_char PyStr.drop].
    change (Ascii.eqb Json.DQ Json.DQ) with true. cbv iota.
    rewrite scanstring_escape_all. reflexivity.
  - destruct l as [|x l]; [reflexivity|].
    rewrite encode_list_cons. rewrite !append_assoc, append_cons, append_nil_l.
    cbn [Json.scan_once Json.at_char PyStr.drop].
    change (Ascii.eqb "[" Json.DQ) with false.
    change (Ascii.eqb "[" "{") with false.
    change (Ascii.eqb "[" "[") with true. cbv iota.
    rewrite skip_ws_newline_indent.
    inversion Hl as [|? ? Hx Hl']; subst.
    assert (Hs : forall tail,
               Json.skip_ws (PyStr.join (separator indent (S level))
                               (map (document indent (S level)) (x :: l)) +:+ tail)
               = PyStr.join (separator indent (S level))
                   (map (document indent (S level)) (x :: l)) +:+ tail
               /\ Json.at_char "]"
                    (PyStr.join (separator indent (S level))
                       (map (document indent (S level)) (x :: l)) +:+ tail) = false).
    { intros tail. cbn [map]. rewrite join_cons, append_assoc.
      apply skip_ws_encode. exact Hx. }
    destruct (Hs (Json.newline_indent indent level +:+ "]" +:+ rest)) as [-> ->].
    rewrite (HA (x :: l) [] level rest); [reflexivity | discriminate | exact Hl |].
    cbn [weight] in Hw. unfold items_weight. lia.
  - destruct d as [|kv d]; [reflexivity|].
    rewrite encode_dict_cons. rewrite !append_assoc, append_cons, append_nil_l.
    cbn [Json.scan_once Json.at_char PyStr.drop].
    change (Ascii.eqb "{" Json.DQ) with false.
    change (Ascii.eqb "{" "{") with true. cbv iota.
    rewrite skip_ws_newline_indent.
    assert (Hs : forall tail,
               Json.skip_ws (PyStr.join (separator indent (S level))
                               (map (member_text indent (S level)) (kv :: d)) +:+ tail)
               = PyStr.join (separator indent (S level))
                   (map (member_text indent (S level)) (kv :: d)) +:+ tail
               /\ Json.at_char "}"
                    (PyStr.join (separator indent (S level))
                       (map (member_text indent (S level)) (kv :: d)) +:+ tail) = false).
    { intros tail.
      assert (Hform : exists y,
                 PyStr.join (separator indent (S level))
                   (map (member_text indent (S level)) (kv :: d)) +:+ tail
                 = String Json.DQ y).
      { cbn [map]. rewrite join_cons. unfold member_text at 1.
        rewrite !append_assoc, encode_basestring_ascii_app. eauto. }
      destruct Hform as (y & ->). split; reflexivity. }
    destruct (Hs (Json.newline_indent indent level +:+ "}" +:+ rest)) as [-> ->].
    rewrite (HO (kv :: d) [] level rest); [reflexivity | discriminate | exact Hd | exact Hnd |].
    rewrite weight_text_keys in Hw. lia.
Qed.

Lemma weight_pos (v : pyval) : 1 <= weight v.
Proof. destruct v; cbn [weight]; lia. Qed.

Lemma skip_ws_closing (level : nat) (c : ascii) (rest : string) :
  Json.is_ws c = false ->
  Json.skip_ws (Json.newline_indent indent level +:+ String c rest) = String c rest.
Proof. intros Hc. rewrite skip_ws_newline_indent. apply skip_ws_start. exact Hc. Qed.

Lemma reads_items_step (fuel : nat) :
  reads_values indent fuel -> reads_items indent fuel ->
  reads_items indent (S fuel).
Proof.
  intros HV HA items acc level rest Hne Hj Hw.
  destruct items as [|x l]; [contradiction|].
  inversion Hj as [|? ? Hx Hl]; subst.
  unfold items_weight in Hw. cbn [map list_sum fold_right] in Hw.
  cbn [map]. rewrite join_cons, append_assoc.
  cbn [Json.parse_array].
  destruct l as [|y l'].
  - cbn [map]. rewrite append_nil_l.
    rewrite (HV x (S level) _ Hx ltac:(lia) (after_value_newline_indent _ _ _)).
    rewrite append_cons, append_nil_l.
    rewrite (skip_ws_closing level "]" rest eq_refl).
    cbn [Json.at_char PyStr.drop]. change (Ascii.eqb "]" "]") with true. reflexivity.
  - set (J := PyStr.join (separator indent (S level))
                (map (document indent (S level)) (y :: l'))
              +:+ Json.newline_indent indent level +:+ "]" +:+ rest).
    assert (Hrest : (separator indent (S level)
                     +:+ PyStr.join (separator indent (S level))
                           (map (document indent (S level)) (y :: l')))
                    +:+ Json.newline_indent indent level +:+ "]" +:+ rest
                    = String "," (Json.newline_indent indent (S level) +:+ J)).
    { unfold separator, J. rewrite !append_assoc, append_cons, append_nil_l. reflexivity. }
    cbn [map] in Hrest |- *. rewrite Hrest.
    rewrite (HV x (S level) (String "," (Json.newline_indent indent (S level) +:+ J))
               Hx ltac:(lia) eq_refl).
    rewrite (skip_ws_start "," _ eq_refl).
    cbn [Json.at_char PyStr.drop].
    change (Ascii.eqb "," "]") with false. change (Ascii.eqb "," ",") with true.
    cbv iota. rewrite skip_ws_newline_indent.
    assert (HJ : Json.skip_ws J = J).
    { unfold J. cbn [map]. rewrite join_cons, append_assoc.
      apply skip_ws_encode. inversion Hl; assumption. }
    rewrite HJ. unfold J.
    rewrite (HA (y :: l') (acc ++ [x]) level rest); [| discriminate | exact Hl |].
    + rewrite <- app_assoc. reflexivity.
    + unfold items_weight. cbn [map list_sum fold_right] in *. lia.
Qed.

Lemma reads_members_step (fuel : nat) :
  reads_values indent fuel -> reads_members indent fuel ->
  reads_members indent (S fuel).
Proof.
  intros HV HO d acc level rest Hne Hj Hnd Hw.
  destruct d as [|[k v] d']; [contradiction|].
  inversion Hj as [|? ? Hv Hd]; subst. cbn [snd] in Hv.
  unfold members_weight in Hw. cbn [map list_sum fold_right snd] in Hw.
  assert (Hfresh : ~ In k (map fst acc)).
  { cbn [map fst] in Hnd. apply NoDup_app in Hnd as (_ & Hnd & _).
    intros Hin. apply list_elem_of_In in Hin. apply (Hnd k Hin). left. }
  cbn [map]. rewrite join_cons, append_assoc. unfold member_text at 1. cbn [fst snd].
  rewrite !append_assoc, encode_basestring_ascii_app.
  cbn [Json.parse_object Json.at_char PyStr.drop].
  change (Ascii.eqb Json.DQ Json.DQ) with true. cbv iota.
  rewrite scanstring_escape_all. cbv beta iota.
  rewrite append_cons, append_cons, append_nil_l.
  rewrite (skip_ws_start ":" _ eq_refl).
  cbn [Json.at_char PyStr.drop]. change (Ascii.eqb ":" ":") with true. cbv iota.
  assert (Hsp : forall t, Json.skip_ws (String " " (document indent (S level) v +:+ t))
                          = document indent (S level) v +:+ t).
  { intros t. unfold Json.skip_ws at 1. cbn [PyStr.lstrip_with].
    change (Json.is_ws " ") with true. cbv iota.
    apply (skip_ws_encode (S level) v t Hv). }
  rewrite Hsp.
  destruct d' as [|kv' d''].
  - cbn [map]. rewrite append_nil_l.
    rewrite (HV v (S level) _ Hv ltac:(lia) (after_value_newline_indent _ _ _)).
    rewrite (dict_set_fresh acc k v Hfresh).
    rewrite append_cons, append_nil_l.
    rewrite (skip_ws_closing level "}" rest eq_refl).
    cbn [Json.at_char PyStr.drop]. change (Ascii.eqb "}" "}") with true. reflexivity.
  - set (J := PyStr.join (separator indent (S level))
                (map (member_text indent (S level)) (kv' :: d''))
              +:+ Json.newline_indent indent level +:+ "}" +:+ rest).
    assert (Hrest : (separator indent (S level)
                     +:+ PyStr.join (separator indent (S level))
                           (map (member_text indent (S level)) (kv' :: d'')))
                    +:+ Json.newline_indent indent level +:+ "}" +:+ rest
                    = String "," (Json.newline_indent indent (S level) +:+ J)).
    { unfold separator, J. rewrite !append_assoc, append_cons, append_nil_l. reflexivity. }
    cbn [map] in Hrest |- *. rewrite Hrest.
    rewrite (HV v (S level) (String "," (Json.newline_indent indent (S level) +:+ J))
               Hv ltac:(lia) eq_refl).
    rewrite (dict_set_fresh acc k v Hfresh).
    rewrite (skip_ws_start "," _ eq_refl).
    cbn [Json.at_char PyStr.drop].
    change (Ascii.eqb "," "}") with false. change (Ascii.eqb "," ",") with true.
    cbv iota. rewrite skip_ws_newline_indent.
    assert (HJ : Json.skip_ws J = J).
    { assert (Hform : exists y, J = String Json.DQ y).
      { unfold J. cbn [map]. rewrite join_cons. unfold member_text at 1.
        rewrite !append_assoc, encode_basestring_ascii_app. eauto. }
      destruct Hform as (y & Hy). rewrite Hy. reflexivity. }
    rewrite HJ. unfold J.
    rewrite (HO (kv' :: d'') (acc ++ [(k, v)]) level rest); [| discriminate | exact Hd | |].
    + rewrite <- app_assoc. reflexivity.
    + rewrite map_app. cbn [map fst]. rewrite <- app_assoc. exact Hnd.
    + unfold members_weight. cbn [map list_sum fold_right] in *. lia.
Qed.

(** With fuel for its weight, the decoder reads back what the encoder
    wrote. *)
Lemma decoder_reads (fuel : nat) :
  reads_values indent fuel /\ reads_items indent fuel /\ reads_members indent fuel.
Proof.
  induction fuel as [|fuel (HV & HA & HO)].
  - split; [|split].
    + intros v level rest _ Hw _. pose proof (weight_pos v). lia.
    + intros [|x l] acc level rest Hne _ Hw; [contradiction|].
      unfold items_weight in Hw. cbn [map list_sum fold_right] in Hw. lia.
    + intros [|x l] acc level rest Hne _ _ Hw; [contradiction|].
      unfold members_weight in Hw. cbn [map list_sum fold_right] in Hw. lia.
  - split; [|split].
    + apply reads_values_step; assumption.
    + apply reads_items_step; assumption.
    + apply reads_members_step; assumption.
Qed.

End RoundTrip.

(** ** Loading what was dumped *)

Lemma length_join_weight {A : Type} (f : A -> string) (w : A -> nat)
    (sep : string) (items : list A) :
  1 <= String.length sep ->
  Forall (fun x => w x <= String.length (f x)) items ->
  list_sum (map (fun x => S (w x)) items)
  <= String.length (PyStr.join sep (map f items)) + 1.
Proof.
  intros Hsep. induction items as [|x l IH]; intros Hall.
  - cbn. lia.
  - inversion Hall as [|? ? Hx Hl]; subst. specialize (IH Hl).
    cbn [map]. rewrite join_cons, length_append.
    change (list_sum (S (w x) :: map (fun x => S (w x)) l))
      with (S (w x) + list_sum (map (fun x => S (w x)) l)).
    destruct l as [|y l'].
    + cbn [map list_sum fold_right String.length]. lia.
    + cbn [map] in *. rewrite length_append. lia.
Qed.

Lemma length_newline_indent (indent level : nat) :
  1 <= String.length (Json.newline_indent indent level).
Proof. unfold Json.newline_indent. cbn [String.length]. lia. Qed.

(** The text of a value is at least as long as the value is heavy. *)
Lemma weight_le_length (indent : nat) (v : pyval) :
  jsonable v -> forall level, weight v <= String.length (document indent level v).
Proof.
  induction v as [|b|z|f|s|l IH|d IH|y m d'] using pyval_nested_ind; intros Hv level.
  - cbn. lia.
  - destruct b; cbn; lia.
  - destruct (int_repr_head z) as (c & t & Ht & _).
    cbn [document weight]. rewrite Ht. cbn [String.length]. lia.
  - inversion Hv as [| | |x Hx| | |]; subst.
    destruct (floatstr_head f Hx) as (c & t & Ht & _).
    cbn [document weight]. rewrite Ht. cbn [String.length]. lia.
  - cbn [document weight]. unfold Json.encode_basestring_ascii.
    cbn [String.length]. lia.
  - destruct l as [|x l]; [cbn; lia|].
    inversion Hv as [| | | | |l0 Hl|]; subst.
    rewrite encode_list_cons. rewrite !length_append. cbn [weight].
    pose proof (length_newline_indent indent (S level)).
    pose proof (length_newline_indent indent level).
    assert (Hall : Forall (fun x => weight x
                                    <= String.length (document indent (S level) x))
                          (x :: l)).
    { apply Forall_forall. intros y Hy.
      rewrite Forall_forall in IH. rewrite Forall_forall in Hl.
      apply (IH y Hy (Hl y Hy)). }
    pose proof (length_join_weight (document indent (S level)) weight
                  (separator indent (S level)) (x :: l)
                  ltac:(unfold separator; rewrite length_append; cbn; lia) Hall).
    cbn [String.length]. lia.
  - inversion Hv as [| | | | | |d0 Hnd Hd Heq]; subst.
    destruct d0 as [|kv d0]; [cbn; lia|].
    rewrite encode_dict_cons. rewrite !length_append. rewrite weight_text_keys.
    unfold members_weight.
    pose proof (length_newline_indent indent (S level)).
    pose proof (length_newline_indent indent level).
    unfold Py.text_keys in IH. rewrite Forall_map in IH. cbn [snd] in IH.
    assert (Hall : Forall (fun kv => weight (snd kv)
                                     <= String.length (member_text indent (S level) kv))
                          (kv :: d0)).
    { apply Forall_forall. intros y Hy.
      rewrite Forall_forall in IH. rewrite Forall_forall in Hd.
      pose proof (IH y Hy (Hd y Hy) (S level)).
      unfold member_text. rewrite !length_append. lia. }
    pose proof (length_join_weight (member_text indent (S level))
                  (fun kv => weight (snd kv))
                  (separator indent (S level)) (kv :: d0)
                  ltac:(unfold separator; rewrite length_append; cbn; lia) Hall).
    cbn [String.length]. lia.
  - inversion Hv.
Qed.

(** [json.loads] reads the document of a value back as that value. *)
Lemma loads_document (indent : nat) (v : pyval) :
  jsonable v -> Json.loads (document indent 0 v) = Some v.
Proof.
  intros Hv. unfold Json.loads.
  pose proof (skip_ws_encode indent 0 v EmptyString Hv) as [Hs _].
  rewrite append_nil_r in Hs. rewrite Hs.
  pose proof (proj1 (decoder_reads indent (S (String.length (document indent 0 v))))
                v 0 EmptyString Hv) as Hr.
  rewrite append_nil_r in Hr. rewrite Hr; [reflexivity | | reflexivity].
  pose proof (weight_le_length indent v Hv 0). lia.
Qed.

(** ** The encoder on the values that it can encode *)

Lemma iterencode_list_document (enc : pyval -> string * option exn)
    (doc : pyval -> string) (sep close : string) (l : list pyval) :
  Forall (fun x => enc x = (doc x, None)) l ->
  l <> [] ->
  forall buf,
    Json.iterencode_list enc sep close buf l
    = (buf +:+ PyStr.join sep (map doc l) +:+ close, None).
Proof.
  induction 1 as [|x l Hx Hl IH]; intros Hne buf; [contradiction|].
  cbn [Json.iterencode_list map]. rewrite Hx, join_cons.
  destruct l as [|y l'].
  - cbn [Json.iterencode_list]. rewrite append_nil_r. reflexivity.
  - rewrite (IH ltac:(discriminate) sep). cbn [map]. rewrite !append_assoc.
    reflexivity.
Qed.

Lemma iterencode_dict_document (enc : pyval -> string * option exn)
    (doc : string * pyval -> string) (sep close : string)
    (d : list (string * pyval)) :
  Forall (fun kv => exists t, enc (snd kv) = (t, None)
                              /\ doc kv = Json.encode_basestring_ascii (fst kv)
                                          +:+ ": " +:+ t) d ->
  d <> [] ->
  forall buf,
    Json.iterencode_dict enc sep close buf (Py.text_keys d)
    = (buf +:+ PyStr.join sep (map doc d) +:+ close, None).
Proof.
  induction 1 as [|[k x] d (t & Hx & Hdoc) Hd IH]; intros Hne buf; [contradiction|].
  cbn [Py.text_keys map fst snd Json.iterencode_dict Json.key_text] in *.
  rewrite Hx, join_cons, Hdoc.
  destruct d as [|kv d'].
  - cbn [map Json.iterencode_dict]. rewrite append_nil_r, !append_assoc. reflexivity.
  - fold (Py.text_keys (kv :: d')).
    rewrite (IH ltac:(discriminate) sep). cbn [map]. rewrite !append_assoc.
    reflexivity.
Qed.

(** On a value that holds no date the encoder yields its document and
    raises nothing. *)
Lemma iterencode_jsonable (indent : nat) (v : pyval) :
  jsonable v ->
  forall level, Json.iterencode indent level v = (document indent level v, None).
Proof.
  induction v as [|b|z|f|s|l IH|d IH|y m d'] using pyval_nested_ind; intros Hv level;
    try reflexivity.
  - destruct b; reflexivity.
  - destruct l as [|x l]; [reflexivity|].
    inversion Hv as [| | | | |l0 Hl|]; subst.
    rewrite encode_list_cons. cbn [Json.iterencode].
    rewrite (iterencode_list_document _ (document indent (S level)));
      [ rewrite !append_assoc; reflexivity | | discriminate ].
    apply Forall_forall. intros y Hy.
    rewrite Forall_forall in IH. rewrite Forall_forall in Hl.
    apply (IH y Hy (Hl y Hy)).
  - inversion Hv as [| | | | | |d0 Hnd Hd Heq]; subst.
    destruct d0 as [|kv d0]; [reflexivity|].
    rewrite encode_dict_cons.
    change (Json.iterencode indent level (PyDict (Py.text_keys (kv :: d0))))
      with (let '(t, e) :=
              Json.iterencode_dict (Json.iterencode indent (S level))
                ("," +:+ Json.newline_indent indent (S level))
                (Json.newline_indent indent level +:+ "}")
                EmptyString (Py.text_keys (kv :: d0)) in
            ("{" +:+ Json.newline_indent indent (S level) +:+ t, e)).
    rewrite (iterencode_dict_document _ (member_text indent (S level)));
      [ rewrite append_nil_l; reflexivity | | discriminate ].
    unfold Py.text_keys in IH. rewrite Forall_map in IH. cbn [snd] in IH.
    apply Forall_forall. intros y Hy.
    rewrite Forall_forall in IH. rewrite Forall_forall in Hd.
    exists (document indent (S level) (snd y)).
    split; [apply (IH y Hy (Hd y Hy)) | reflexivity].
  - inversion Hv.
Qed.

(** What the encoder has met when it raised nothing. *)
Lemma iterencode_list_returns (enc : pyval -> string * option exn)
    (sep close : string) (l : list pyval) :
  forall buf t,
    Json.iterencode_list enc sep close buf l = (t, None) ->
    Forall (fun x => snd (enc x) = None) l.
Proof.
  induction l as [|x l IH]; intros buf t; [constructor|].
  cbn [Json.iterencode_list]. destruct (enc x) as [tx [e|]] eqn:Ex; [discriminate|].
  destruct (Json.iterencode_list enc sep close sep l) as [t' e'] eqn:El.
  intros H. inversion H; subst. constructor; [rewrite Ex; reflexivity|].
  eapply IH. exact El.
Qed.

Lemma iterencode_dict_returns (enc : pyval -> string * option exn)
    (sep close : string) (d : list (key * pyval)) :
  forall buf t,
    Json.iterencode_dict enc sep close buf d = (t, None) ->
    Forall (fun kv => snd (enc (snd kv)) = None) d.
Proof.
  induction d as [|[k x] d IH]; intros buf t; [constructor|].
  cbn [Json.iterencode_dict]. destruct (Json.key_text k) as [e|s]; [discriminate|].
  destruct (enc x) as [tx [e|]] eqn:Ex; [discriminate|].
  destruct (Json.iterencode_dict enc sep close sep d) as [t' e'] eqn:El.
  intros H. inversion H; subst. constructor; [cbn [snd]; rewrite Ex; reflexivity|].
  eapply IH. exact El.
Qed.

(** ** The output read back *)

Lemma strings_jsonable (l : list string) : Forall jsonable (map PyStr l).
Proof. induction l as [|x l IH]; constructor; [constructor | exact IH]. Qed.

(** The coerced value of a record that stores a text or a list. *)
Lemma value_jsonable (param : Param) (v : pyval) :
  (exists s, _value param = Some (PyStr s))
  \/ (exists l, _value param = Some (PyList l)) ->
  value param = inr v -> jsonable v.
Proof.
  intros Hst. unfold value, TYPES_MAPPING_getitem.
  destruct (param_type param) as [|b|z|f|s|l|d|y m d']; try discriminate.
  unfold TYPES_MAPPING. cbn [Py.assoc Py.key_eqb].
  destruct (String.eqb "String" s).
  { destruct (_value param); [|discriminate]. intros H. inversion H. constructor. }
  destruct (String.eqb "Number" s).
  { destruct Hst as [[raw ->] | [l ->]]; [|discriminate]. unfold float, Py.float.
    destruct (Float64.of_string raw) as [x|] eqn:E; [|discriminate].
    intros H. inversion H. constructor. eapply of_string_canonical. exact E. }
  destruct (String.eqb "CommaDelimitedList" s); [|discriminate].
  destruct Hst as [[raw ->] | [l ->]]; [|discriminate].
  intros H. inversion H. constructor. apply strings_jsonable.
Qed.

Lemma entry_of_jsonable (k v : pyval) :
  jsonable k -> jsonable v -> jsonable (entry_of k v).
Proof.
  intros Hk Hv. unfold entry_of.
  change (jsonable (PyDict (Py.text_keys [("ParameterKey", k); ("ParameterValue", v)]))).
  constructor.
  - cbn [map fst]. apply NoDup_cons. split.
    + intros H. apply list_elem_of_singleton in H. discriminate.
    + apply NoDup_singleton.
  - repeat constructor; assumption.
Qed.

(** A name that the encoder takes is none of a date. *)
Lemma of_key_jsonable (indent level : nat) (k : key) :
  snd (Json.iterencode indent level (Py.of_key k)) = None ->
  jsonable (Py.of_key k).
Proof. destruct k; cbn; intros H; try constructor. discriminate. Qed.

Lemma entry_name_encodes (indent level : nat) (k v : pyval) :
  snd (Json.iterencode indent level (entry_of k v)) = None ->
  snd (Json.iterencode indent (S level) k) = None.
Proof.
  unfold entry_of. cbn [Json.iterencode].
  destruct (Json.iterencode_dict _ _ _ _ _) as [t e] eqn:E. cbn [snd]. intros ->.
  apply iterencode_dict_returns in E. inversion E as [|? ? Hk _]. exact Hk.
Qed.

Lemma names_are_keys (items : list (key * pyval)) (params : list Param) :
  map name params = map (fun item => Py.of_key (fst item)) items ->
  Forall (fun q => exists k, name q = Py.of_key k) params.
Proof.
  revert items. induction params as [|q params IH]; intros items H; [constructor|].
  destruct items as [|item items]; [discriminate|].
  cbn [map] in H. inversion H as [[Hq Hr]].
  constructor; [exists (fst item); exact Hq | eapply IH; exact Hr].
Qed.

(** The entries that the encoder took are values that load as they
    are. *)
Lemma complete_jsonable (items : list (key * pyval)) (params : list Param)
    (entries : list pyval) (text : string) :
  complete items params entries ->
  Forall (fun q => (exists s, _value q = Some (PyStr s))
                   \/ (exists l, _value q = Some (PyList l))) params ->
  Json.iterencode 4 0 (PyList entries) = (text, None) ->
  Forall jsonable entries.
Proof.
  intros [Hn H] Hst Hi.
  assert (He : Forall (fun e => snd (Json.iterencode 4 1 e) = None) entries).
  { destruct entries as [|e entries]; [constructor|].
    cbn [Json.iterencode] in Hi. eapply iterencode_list_returns. exact Hi. }
  apply names_are_keys in Hn. clear Hi.
  induction H as [|param e params entries (v & Hv & ->) _ IH]; [constructor|].
  inversion Hn as [|? ? [k Hk] Hn']; subst.
  inversion Hst as [|? ? Hs Hst']; subst.
  inversion He as [|? ? He1 He']; subst.
  constructor; [|apply IH; assumption].
  apply entry_of_jsonable.
  - rewrite Hk. apply (of_key_jsonable 4 2). rewrite <- Hk.
    apply (entry_name_encodes 4 1 _ v). exact He1.
  - eapply value_jsonable; eassumption.
Qed.








Section Reparse.

Variable yaml_parse : string -> option pyval.


End Reparse.



(** ** The extracted section as a piece of the template *)

Lemma collect_param_lines_run (lines : list string) :
  exists post,
    lines = collect_param_lines lines ++ post
    /\ Forall (fun l => is_label l = false) (collect_param_lines lines)
    /\ match post with
       | [] => True
       | l :: _ => is_label l = true
       end.
Proof.
  unfold is_label. induction lines as [|l lines (post & Hl & Hs & Hp)]; simpl.
  - exists []. repeat split. constructor.
  - destruct (is_not_aws_cloudformation_sections l) eqn:E.
    + exists post. split; [simpl; f_equal; exact Hl|]. split; [|exact Hp].
      constructor; [rewrite E; reflexivity | exact Hs].
    + exists (l :: lines). split; [reflexivity|]. split; [constructor|].
      rewrite E. reflexivity.
Qed.

Lemma get_params_section_run (lines : list string) :
  (Forall (fun l => mentions_parameters l = false) lines
   /\ get_params_section lines = [])
  \/ exists pre header post,
       lines = pre ++ header :: get_params_section lines ++ post
       /\ Forall (fun l => mentions_parameters l = false) pre
       /\ mentions_parameters header = true
       /\ Forall (fun l => is_label l = false) (get_params_section lines)
       /\ match post with
          | [] => True
          | l :: _ => is_label l = true
          end.
Proof.
  induction lines as [|l lines IH].
  - left. split; [constructor | reflexivity].
  - cbn [get_params_section]. fold (mentions_parameters l).
    destruct (mentions_parameters l) eqn:E.
    + right. destruct (collect_param_lines_run lines) as (post & Hl & Hs & Hp).
      exists [], l, post. split; [simpl; f_equal; exact Hl|].
      split; [constructor|]. split; [exact E|]. split; assumption.
    + destruct IH as [[Hn Hs] | (pre & header & post & Hl & Hpre & Hh & Hs & Hp)].
      * left. split; [constructor; assumption | exact Hs].
      * right. exists (l :: pre), header, post.
        split; [simpl; f_equal; exact Hl|].
        split; [constructor; assumption|]. repeat split; assumption.
Qed.

(** X1: the result of [get_params_section] is the run of lines that stands
    between the first line that mentions the word Parameters and the
    next line that is a section label, or the end of the lines; it is
    empty when no line mentions the word.  No line of the result is a
    section label, and the lines come out as they went in. *)
Theorem section_is_the_run_behind_the_first_mention (lines : list string) :
  (Forall (fun l => mentions_parameters l = false) lines
   /\ get_params_section lines = [])
  \/ exists pre header post,
       lines = pre ++ header :: get_params_section lines ++ post
       /\ Forall (fun l => mentions_parameters l = false) pre
       /\ mentions_parameters header = true
       /\ Forall (fun l => is_label l = false) (get_params_section lines)
       /\ match post with
          | [] => True
          | l :: _ => is_label l = true
          end.
Proof. exact (get_params_section_run lines). Qed.

(** ** Reading the template *)

Lemma join_empty_cons (l : string) (ls : list string) :
  PyStr.join EmptyString (l :: ls) = l +:+ PyStr.join EmptyString ls.
Proof.
  rewrite join_cons. destruct ls; [|reflexivity].
  unfold PyStr.join. simpl. reflexivity.
Qed.

Lemma join_empty_app (a b : list string) :
  PyStr.join EmptyString (a ++ b)
  = PyStr.join EmptyString a +:+ PyStr.join EmptyString b.
Proof.
  induction a as [|l a IH]; [reflexivity|].
  cbn [app]. rewrite !join_empty_cons, IH, append_assoc. reflexivity.
Qed.

Lemma splitlines_keep_join (s : string) :
  PyStr.join EmptyString (PyStr.splitlines_keep s) = s.
Proof.
  induction s as [|c s IH]; [reflexivity|].
  cbn [PyStr.splitlines_keep]. destruct (Ascii.eqb c PyStr.LF).
  - rewrite join_empty_cons, IH. reflexivity.
  - destruct (PyStr.splitlines_keep s) as [|l ls].
    + cbn in IH. subst s. reflexivity.
    + rewrite join_empty_cons in *. rewrite append_cons, IH. reflexivity.
Qed.

Lemma splitlines_keep_one_line (s : string) :
  Forall (fun l => one_line l = true) (PyStr.splitlines_keep s).
Proof.
  induction s as [|c s IH]; [constructor|].
  cbn [PyStr.splitlines_keep]. destruct (Ascii.eqb c PyStr.LF) eqn:E.
  - constructor; [reflexivity | exact IH].
  - destruct (PyStr.splitlines_keep s) as [|l ls]; [repeat constructor|].
    inversion IH as [|? ? Hl Hls]; subst. constructor; [|exact Hls].
    destruct l as [|a l]; [discriminate|].
    change (negb (Ascii.eqb c PyStr.LF) && one_line (String a l) = true).
    rewrite E, Hl. reflexivity.
Qed.

Lemma ends_with_newline_cons (c : ascii) (l : string) :
  ends_with_newline l = true -> ends_with_newline (String c l) = true.
Proof.
  unfold ends_with_newline. intros H. cbn [PyStr.endswith]. rewrite H.
  apply orb_true_r.
Qed.

Lemma splitlines_keep_terminated (s : string) :
  Forall (fun l => ends_with_newline l = true)
         (removelast (PyStr.splitlines_keep s)).
Proof.
  induction s as [|c s IH]; [constructor|].
  cbn [PyStr.splitlines_keep]. destruct (Ascii.eqb c PyStr.LF) eqn:E.
  - apply Ascii.eqb_eq in E. subst c.
    destruct (PyStr.splitlines_keep s) as [|l ls]; [constructor|].
    cbn [removelast] in *. constructor; [reflexivity | exact IH].
  - destruct (PyStr.splitlines_keep s) as [|l ls]; [constructor|].
    cbn [removelast] in *. destruct ls as [|l' ls]; [constructor|].
    inversion IH as [|? ? Hl Hls]; subst. constructor; [|exact Hls].
    apply ends_with_newline_cons. exact Hl.
Qed.

Lemma holds_cr_cons (c : ascii) (s : string) :
  holds_cr (String c s) = Ascii.eqb PyStr.CR c || holds_cr s.
Proof.
  unfold holds_cr. cbn [PyStr.contains PyStr.startswith].
  rewrite andb_true_r. reflexivity.
Qed.

Lemma translate_newlines_no_cr (s : string) :
  holds_cr (PyStr.translate_newlines s) = false.
Proof.
  induction s as [|c s IH]; [reflexivity|].
  cbn [PyStr.translate_newlines]. destruct (Ascii.eqb c PyStr.CR) eqn:E.
  - destruct s as [|c' s'].
    + reflexivity.
    + destruct (Ascii.eqb c' PyStr.LF) eqn:E'.
      * apply Ascii.eqb_eq in E'. subst c'.
        change (PyStr.translate_newlines (String PyStr.LF s'))
          with (String PyStr.LF (PyStr.translate_newlines s')) in IH.
        rewrite holds_cr_cons in IH. rewrite holds_cr_cons. exact IH.
      * rewrite holds_cr_cons. exact IH.
  - rewrite holds_cr_cons, Ascii.eqb_sym, E. exact IH.
Qed.

(** X2: [load_file] on a template that exists returns lines that, put
    together again, are the text of the file with every CR LF and every
    CR read as LF: no line is empty, a line holds no LF but its last
    character, every line but the last ends with LF, and no CR is
    left.  Nothing is printed and no file changes; the world only
    records that the template was opened. *)
Theorem load_file_lines_rebuild_the_text (p : Path) (w : world) (content : string) :
  files w !! Pathlib.to_string p = Some content ->
  exists lines,
    load_file p w = (with_opened (Pathlib.to_string p) w, inr lines)
    /\ PyStr.join EmptyString lines = PyStr.translate_newlines content
    /\ Forall (fun l => one_line l = true) lines
    /\ Forall (fun l => ends_with_newline l = true) (removelast lines)
    /\ holds_cr (PyStr.join EmptyString lines) = false.
Proof.
  intros Hf. exists (lines_of content). unfold load_file, read_lines. rewrite Hf.
  unfold lines_of. split; [reflexivity|].
  rewrite splitlines_keep_join.
  split; [reflexivity|]. split; [apply splitlines_keep_one_line|].
  split; [apply splitlines_keep_terminated | apply translate_newlines_no_cr].
Qed.

Lemma load_file_lines_rebuild_the_text_witness :
  exists lines,
    load_file (Pathlib.of_string "t.yaml")
      (world_with "t.yaml" (String "a" (String PyStr.CR (String PyStr.LF "b"))) [])
    = (with_opened (Pathlib.to_string (Pathlib.of_string "t.yaml"))
         (world_with "t.yaml" (String "a" (String PyStr.CR (String PyStr.LF "b"))) []),
       inr lines)
    /\ PyStr.join EmptyString lines
       = PyStr.translate_newlines (String "a" (String PyStr.CR (String PyStr.LF "b")))
    /\ Forall (fun l => one_line l = true) lines
    /\ Forall (fun l => ends_with_newline l = true) (removelast lines)
    /\ holds_cr (PyStr.join EmptyString lines) = false.
Proof.
  apply (load_file_lines_rebuild_the_text (Pathlib.of_string "t.yaml")
           (world_with "t.yaml" (String "a" (String PyStr.CR (String PyStr.LF "b"))) [])).
  reflexivity.
Defined.

Section Reading.

Variable yaml_parse : string -> option pyval.

(** X3: when the template does not exist, the run ends with
    [FileNotFoundError] right behind the attempt to open it: nothing was
    printed, no line of input was taken and no file was written. *)
Theorem missing_template_ends_in_file_not_found (arg : string)
    (users : list string) (w : world) :
  accepted arg = true ->
  files w !! Pathlib.to_string (Pathlib.of_string arg) = None ->
  run yaml_parse (arg :: users) w
  = (with_opened (Pathlib.to_string (Pathlib.of_string arg)) w,
     Traceback FileNotFoundError).
Proof.
  intros Ha Hf. unfold run, validate_yaml_file. fold (accepted arg). rewrite Ha.
  simpl. unfold main, set_params_list, extract_params_metadata, load_file, read_lines.
  unfold bind at 1. unfold bind at 1. unfold bind at 1. rewrite Hf. reflexivity.
Qed.

(** X4: the text that [extract_params_metadata] hands to the YAML parser is
    a piece of the text of the template, CR LF and CR read as LF: the
    lines of the section put together, between what stands before them
    and what stands behind them; the piece begins behind a line that
    mentions the word Parameters, or the piece is empty. *)
Theorem parsed_text_is_a_piece_of_the_template (p : Path) (w : world)
    (content : string) :
  files w !! Pathlib.to_string p = Some content ->
  exists before section after,
    extract_params_metadata yaml_parse p w
    = (with_opened (Pathlib.to_string p) w,
       parse_yaml_params_section_content yaml_parse section)
    /\ section = PyStr.join EmptyString (get_params_section (lines_of content))
    /\ PyStr.translate_newlines content = before +:+ section +:+ after
    /\ (section = EmptyString
        \/ exists head header,
             before = head +:+ header /\ mentions_parameters header = true
             /\ one_line header = true).
Proof.
  intros Hf.
  assert (Hx : extract_params_metadata yaml_parse p w
               = (with_opened (Pathlib.to_string p) w,
                  parse_yaml_params_section_content yaml_parse
                    (PyStr.join EmptyString (get_params_section (lines_of content))))).
  { unfold extract_params_metadata, load_file, read_lines, bind, lift.
    rewrite Hf. reflexivity. }
  pose proof (splitlines_keep_join (PyStr.translate_newlines content)) as Hj.
  pose proof (splitlines_keep_one_line (PyStr.translate_newlines content)) as Ho.
  fold (lines_of content) in Hj, Ho.
  destruct (get_params_section_run (lines_of content))
    as [[_ Hs] | (pre & header & post & Hl & _ & Hh & _ & _)].
  - exists EmptyString, EmptyString, (PyStr.translate_newlines content).
    rewrite Hs in Hx. split; [exact Hx|]. split; [rewrite Hs; reflexivity|].
    split; [reflexivity | left; reflexivity].
  - exists (PyStr.join EmptyString pre +:+ header),
           (PyStr.join EmptyString (get_params_section (lines_of content))),
           (PyStr.join EmptyString post).
    split; [exact Hx|]. split; [reflexivity|]. split.
    + rewrite <- Hj at 1. rewrite Hl at 1.
      rewrite join_empty_app, join_empty_cons, join_empty_app, !append_assoc.
      reflexivity.
    + right. exists (PyStr.join EmptyString pre), header.
      split; [reflexivity|]. split; [exact Hh|].
      rewrite Hl in Ho. apply Forall_app in Ho. destruct Ho as [_ Ho].
      inversion Ho. assumption.
Qed.

End Reading.

(** ** The collection as a whole *)

Lemma with_stdout_stdin (w : world) (keys : list keyboard) (out out' : list output) :
  with_stdin keys
    (with_stdout (stdout (with_stdin keys (with_stdout out w)) ++ out')
       (with_stdin keys (with_stdout out w)))
  = with_stdin keys (with_stdout (out ++ out') w).
Proof. reflexivity. Qed.

Lemma eq_text (v : pyval) (s : string) : Py.eq v (PyStr s) = true -> v = PyStr s.
Proof.
  destruct v; cbn [Py.eq]; try discriminate.
  intros H. apply String.eqb_eq in H. congruence.
Qed.

Section Collecting.

Variable yaml_parse : string -> option pyval.

(** What a typed line leaves in a declaration. *)
Lemma set_param_stores (users : list string) (param : Param) (w : world)
    (line : string) (rest : list keyboard) :
  users = [] \/ param_type param = PyStr "String" ->
  stdin w = Typed line :: rest ->
  set_param users param w
  = (with_stdin rest (with_stdout (stdout w ++ shown param) w),
     inr (set_value param (PyStr (suffixed users line)))).
Proof.
  intros Hu Hin. rewrite (set_param_typed users param w line rest Hin).
  f_equal. destruct users as [|u users]; [reflexivity|].
  destruct Hu as [Hu|Ht]; [discriminate|].
  rewrite (append_users_string param line (u :: users) Ht). reflexivity.
Qed.

Lemma for_each_set_param_stores (users : list string) (decls : list Param) :
  users = [] \/ Forall (fun d => param_type d = PyStr "String") decls ->
  forall (lines : list string) (rest : list keyboard) (w : world),
    stdin w = typed lines ++ rest ->
    length lines = length decls ->
    for_each (set_param users) decls w
    = (with_stdin rest (with_stdout (stdout w ++ prompts decls) w),
       inr (stored decls (map (suffixed users) lines))).
Proof.
  intros Hu. induction decls as [|d decls IH]; intros lines rest w Hin Hlen.
  - destruct lines; [|discriminate]. simpl in Hin. cbn.
    unfold ret, prompts. simpl. rewrite app_nil_r.
    destruct w; simpl in *; subst; reflexivity.
  - destruct lines as [|line lines]; [discriminate|].
    cbn [for_each]. unfold bind at 1.
    rewrite (set_param_stores users d w line (typed lines ++ rest)).
    + unfold bind at 1.
      rewrite (IH ltac:(destruct Hu as [Hu|Hu];
                         [left; exact Hu | right; inversion Hu; assumption])
                 lines rest); [| reflexivity | simpl in Hlen; lia].
      unfold ret. cbn [map stored]. f_equal.
      unfold with_stdin, with_stdout, prompts.
      cbn [stdin stdout files unwritable opened map List.concat].
      rewrite <- app_assoc. reflexivity.
    + destruct Hu as [Hu|Hu]; [left; exact Hu | right; inversion Hu; assumption].
    + exact Hin.
Qed.

(** A typed line for a declaration that takes the extra tokens. *)
Lemma set_param_passes (users : list string) (param : Param) (w : world)
    (line : string) (rest : list keyboard) :
  takes_tokens users param = true ->
  stdin w = Typed line :: rest ->
  set_param users param w
  = (with_stdin rest (with_stdout (stdout w ++ shown param) w),
     inr (set_value param (kept users param line))).
Proof.
  intros Ht Hin. rewrite (set_param_typed users param w line rest Hin).
  f_equal. unfold kept. destruct users as [|u users]; [reflexivity|].
  cbn [takes_tokens] in Ht. apply orb_true_iff in Ht as [Ht|Ht]; apply eq_text in Ht.
  - rewrite (append_users_string param line (u :: users) Ht). rewrite Ht. reflexivity.
  - rewrite (append_users_list param line (u :: users) Ht). rewrite Ht. reflexivity.
Qed.

Lemma firstn_takes_tokens (users : list string) (d : Param) (decls : list Param)
    (n : nat) :
  forallb (takes_tokens users) (firstn (S n) (d :: decls)) = true ->
  takes_tokens users d = true
  /\ forallb (takes_tokens users) (firstn n decls) = true.
Proof. cbn [firstn forallb]. intros H. apply andb_true_iff in H. exact H. Qed.

Lemma for_each_set_param_stops (users : list string) (decls : list Param) :
  forall (lines : list string) (key : keyboard) (rest : list keyboard) (w : world),
    forallb (takes_tokens users) (firstn (length lines) decls) = true ->
    (forall line, key <> Typed line) ->
    stdin w = typed lines ++ key :: rest ->
    length lines < length decls ->
    for_each (set_param users) decls w
    = (with_stdin rest
         (with_stdout (stdout w ++ prompts (firstn (S (length lines)) decls)) w),
       inl (raised_by key)).
Proof.
  induction decls as [|d decls IH]; intros lines key rest w Hu Hk Hin Hlen.
  - simpl in Hlen. lia.
  - cbn [for_each]. unfold bind at 1. destruct lines as [|line lines].
    + rewrite (set_param_stops users d w key rest Hk Hin).
      unfold prompts. cbn [length firstn map List.concat]. rewrite app_nil_r.
      reflexivity.
    + cbn [length] in Hu. apply firstn_takes_tokens in Hu as [Hd Hu].
      rewrite (set_param_passes users d w line (typed lines ++ key :: rest) Hd Hin).
      unfold bind at 1.
      rewrite (IH lines key rest); [| exact Hu | exact Hk | reflexivity
                                    | simpl in Hlen; lia].
      f_equal. unfold with_stdin, with_stdout, prompts.
      cbn [stdin stdout files unwritable opened length firstn map List.concat].
      rewrite <- app_assoc. reflexivity.
Qed.

Lemma for_each_set_param_exhausted (users : list string) (decls : list Param) :
  forall (lines : list string) (w : world),
    forallb (takes_tokens users) (firstn (length lines) decls) = true ->
    stdin w = typed lines ->
    length lines < length decls ->
    for_each (set_param users) decls w
    = (with_stdin []
         (with_stdout (stdout w ++ prompts (firstn (S (length lines)) decls)) w),
       inl EOFError).
Proof.
  induction decls as [|d decls IH]; intros lines w Hu Hin Hlen.
  - simpl in Hlen. lia.
  - cbn [for_each]. unfold bind at 1. destruct lines as [|line lines].
    + rewrite (set_param_exhausted users d w Hin).
      unfold prompts. cbn [length firstn map List.concat]. rewrite app_nil_r.
      f_equal. destruct w; simpl in *; subst; reflexivity.
    + cbn [length] in Hu. apply firstn_takes_tokens in Hu as [Hd Hu].
      rewrite (set_param_passes users d w line (typed lines) Hd Hin).
      unfold bind at 1.
      rewrite (IH lines); [| exact Hu | reflexivity | simpl in Hlen; lia].
      f_equal. unfold with_stdin, with_stdout, prompts.
      cbn [stdin stdout files unwritable opened length firstn map List.concat].
      rewrite <- app_assoc. reflexivity.
Qed.

(** The type tag behind a coerced text and behind a coerced list. *)
Lemma value_text_tag (param : Param) (s : string) :
  value param = inr (PyStr s) -> param_type param = PyStr "String".
Proof.
  unfold value, TYPES_MAPPING_getitem.
  destruct (param_type param) as [| | | |t| | |]; try discriminate.
  cbn [Py.assoc Py.key_eqb TYPES_MAPPING].
  destruct (String.eqb_spec "String" t) as [<-|_]; [reflexivity|].
  destruct (String.eqb "Number" t).
  { destruct (_value param); [|discriminate]. unfold float.
    destruct (Py.float _); discriminate. }
  destruct (String.eqb "CommaDelimitedList" t); [|discriminate].
  destruct (_value param) as [raw|]; [|discriminate].
  destruct raw; discriminate.
Qed.

Lemma value_list_tag (param : Param) (l : list pyval) :
  value param = inr (PyList l) -> param_type param = PyStr "CommaDelimitedList".
Proof.
  unfold value, TYPES_MAPPING_getitem.
  destruct (param_type param) as [| | | |t| | |]; try discriminate.
  cbn [Py.assoc Py.key_eqb TYPES_MAPPING].
  destruct (String.eqb "String" t).
  { destruct (_value param); discriminate. }
  destruct (String.eqb "Number" t).
  { destruct (_value param); [|discriminate]. unfold float.
    destruct (Py.float _); discriminate. }
  destruct (String.eqb_spec "CommaDelimitedList" t) as [<-|_]; [reflexivity|].
  discriminate.
Qed.

(** With extra tokens a record comes back only from a declaration of
    type [String], with a text, or of type [CommaDelimitedList], with
    a list. *)
Lemma set_param_users_kinds (users : list string) (d q : Param) (w w' : world) :
  users <> [] ->
  set_param users d w = (w', inr q) ->
  (param_type q = PyStr "String" /\ exists s, _value q = Some (PyStr s))
  \/ (param_type q = PyStr "CommaDelimitedList"
      /\ (exists l, _value q = Some (PyList l))
      /\ value q = inl AttributeError).
Proof.
  intros Hu. destruct (stdin w) as [|key rest] eqn:Hin.
  - rewrite (set_param_exhausted users d w Hin). discriminate.
  - destruct key as [line| |].
    + rewrite (set_param_typed users d w line rest Hin).
      destruct users as [|u users]; [contradiction|].
      unfold append_users.
      destruct (value (set_value d (PyStr line))) as [e|v] eqn:Ev; [discriminate|].
      destruct v as [| | | |s|l| |]; try discriminate; cbn [Py.iadd_str];
        intros H; inversion H.
      * left. split; [apply (value_text_tag _ _ Ev) | eexists; reflexivity].
      * right. pose proof (value_list_tag _ _ Ev) as Ht. cbn in Ht.
        split; [exact Ht|]. split; [eexists; reflexivity|].
        apply value_of_stored_list. exact Ht.
    + rewrite (set_param_stops users d w CtrlC rest); [discriminate | discriminate | exact Hin].
    + rewrite (set_param_stops users d w CtrlD rest); [discriminate | discriminate | exact Hin].
Qed.


Lemma new_param_well_declared (item : key * pyval) (q : Param) :
  new_param item = inr q ->
  well_declared item = true
  /\ q = {| name := Py.of_key (fst item);
            param_type := match Py.getitem (snd item) "Type" with
                          | inr ty => ty
                          | inl _ => PyNone
                          end;
            description := match Py.get (snd item) "Description" (PyStr EmptyString) with
                           | inr desc => desc
                           | inl _ => PyNone
                           end;
            _value := None |}.
Proof.
  destruct item as [key metadata]. unfold new_param, well_declared. cbn [fst snd].
  destruct metadata as [| | | | | |d|]; try discriminate.
  unfold Py.getitem, Py.get.
  destruct (Py.assoc "Type" d); [|discriminate].
  destruct (Py.assoc "Description" d); intros H; inversion H; split; reflexivity.
Qed.

Lemma new_param_fails (item : key * pyval) :
  well_declared item = false ->
  new_param item = inl KeyError \/ new_param item = inl TypeError.
Proof.
  destruct item as [key metadata]. unfold new_param, well_declared. cbn [fst snd].
  destruct metadata as [| | | | | |d|]; try (right; reflexivity).
  unfold Py.getitem. destruct (Py.assoc "Type" d); [discriminate|].
  left. reflexivity.
Qed.

Lemma comprehension_new_param_fails (items : list (key * pyval)) :
  forallb well_declared items = false ->
  comprehension new_param items = inl KeyError
  \/ comprehension new_param items = inl TypeError.
Proof.
  induction items as [|item items IH]; [discriminate|].
  cbn [forallb comprehension]. destruct (well_declared item) eqn:E.
  - cbn [andb]. intros H. specialize (IH H).
    destruct (new_param item) as [e|q] eqn:En.
    + destruct item as [key metadata]. unfold new_param in En.
      destruct metadata as [| | | | | |d|]; try (inversion En; auto).
      unfold Py.getitem, Py.get in En.
      destruct (Py.assoc "Type" d); [|inversion En; auto].
      destruct (Py.assoc "Description" d); discriminate.
    + destruct IH as [-> | ->]; auto.
  - intros _. destruct (new_param_fails item E) as [-> | ->]; auto.
Qed.

Lemma collection_stores (p : Path) (users : list string)
    (w w0 : world) (items : list (key * pyval)) (decls : list Param)
    (lines : list string) (rest : list keyboard) :
  extract_params_metadata yaml_parse p w = (w0, inr (PyDict items)) ->
  comprehension new_param items = inr decls ->
  users = [] \/ Forall (fun d => param_type d = PyStr "String") decls ->
  stdin w = typed lines ++ rest ->
  length lines = length decls ->
  set_params_list yaml_parse p users w
  = (with_stdin rest
       (with_stdout (stdout w ++ collection_header :: prompts decls)
          (with_opened (Pathlib.to_string p) w)),
     inr (stored decls (map (suffixed users) lines))).
Proof.
  intros Hx Hd Hu Hin Hlen.
  rewrite (set_params_list_declared yaml_parse p users w w0 items Hx), Hd.
  pose proof (extract_world yaml_parse p w) as Hw. rewrite Hx in Hw.
  cbn [fst] in Hw. subst w0.
  rewrite (for_each_set_param_stores users decls Hu lines rest);
    [| exact Hin | exact Hlen].
  f_equal. unfold with_stdin, with_stdout, with_opened.
  cbn [stdin stdout files unwritable opened]. rewrite <- app_assoc. reflexivity.
Qed.

Lemma collection_stops (p : Path) (users : list string)
    (w w0 : world) (items : list (key * pyval)) (decls : list Param)
    (lines : list string) (key : keyboard) (rest : list keyboard) :
  extract_params_metadata yaml_parse p w = (w0, inr (PyDict items)) ->
  comprehension new_param items = inr decls ->
  forallb (takes_tokens users) (firstn (length lines) decls) = true ->
  (forall line, key <> Typed line) ->
  stdin w = typed lines ++ key :: rest ->
  length lines < length decls ->
  set_params_list yaml_parse p users w
  = (with_stdin rest
       (with_stdout (stdout w ++ collection_header
                              :: prompts (firstn (S (length lines)) decls))
          (with_opened (Pathlib.to_string p) w)),
     inl (raised_by key)).
Proof.
  intros Hx Hd Hu Hk Hin Hlen.
  rewrite (set_params_list_declared yaml_parse p users w w0 items Hx), Hd.
  pose proof (extract_world yaml_parse p w) as Hw. rewrite Hx in Hw.
  cbn [fst] in Hw. subst w0.
  rewrite (for_each_set_param_stops users decls lines key rest);
    [| exact Hu | exact Hk | exact Hin | exact Hlen].
  f_equal. unfold with_stdin, with_stdout, with_opened.
  cbn [stdin stdout files unwritable opened]. rewrite <- app_assoc. reflexivity.
Qed.

Lemma collection_exhausted (p : Path) (users : list string)
    (w w0 : world) (items : list (key * pyval)) (decls : list Param)
    (lines : list string) :
  extract_params_metadata yaml_parse p w = (w0, inr (PyDict items)) ->
  comprehension new_param items = inr decls ->
  forallb (takes_tokens users) (firstn (length lines) decls) = true ->
  stdin w = typed lines ->
  length lines < length decls ->
  set_params_list yaml_parse p users w
  = (with_stdin []
       (with_stdout (stdout w ++ collection_header
                              :: prompts (firstn (S (length lines)) decls))
          (with_opened (Pathlib.to_string p) w)),
     inl EOFError).
Proof.
  intros Hx Hd Hu Hin Hlen.
  rewrite (set_params_list_declared yaml_parse p users w w0 items Hx), Hd.
  pose proof (extract_world yaml_parse p w) as Hw. rewrite Hx in Hw.
  cbn [fst] in Hw. subst w0.
  rewrite (for_each_set_param_exhausted users decls lines);
    [| exact Hu | exact Hin | exact Hlen].
  f_equal. unfold with_stdin, with_stdout, with_opened.
  cbn [stdin stdout files unwritable opened]. rewrite <- app_assoc. reflexivity.
Qed.

(** X5: the collection as a whole, when the operator types a line at every
    prompt and either no extra token was given or every declaration is
    of type [String]: the header is printed, every declaration is shown
    in the order of the mapping, as many lines are taken as there are
    declarations, and the record of the i-th declaration holds the i-th
    line, with the extra tokens behind it when there are any. *)
Theorem collection_stores_the_typed_lines (p : Path) (users : list string)
    (w w0 : world) (items : list (key * pyval)) (decls : list Param)
    (lines : list string) (rest : list keyboard) :
  extract_params_metadata yaml_parse p w = (w0, inr (PyDict items)) ->
  comprehension new_param items = inr decls ->
  users = [] \/ Forall (fun d => param_type d = PyStr "String") decls ->
  stdin w = typed lines ++ rest ->
  length lines = length decls ->
  set_params_list yaml_parse p users w
  = (with_stdin rest
       (with_stdout (stdout w ++ collection_header :: prompts decls)
          (with_opened (Pathlib.to_string p) w)),
     inr (stored decls (map (suffixed users) lines))).
Proof. apply collection_stores. Qed.

(** X6: with extra tokens [set_params_list] returns only when every
    declaration of the template is of type [String] or
    [CommaDelimitedList]: a record of the first kind holds a text, a
    record of the second kind holds a list, and the value of such a
    record cannot be read any more, it is an [AttributeError].  So
    [main] returns with extra tokens only when every declaration is of
    type [String]. *)
Theorem tokens_need_text_or_list_declarations (p : Path) (users : list string)
    (w w1 : world) (params : list Param) :
  users <> [] ->
  set_params_list yaml_parse p users w = (w1, inr params) ->
  Forall (fun q =>
            (param_type q = PyStr "String" /\ exists s, _value q = Some (PyStr s))
            \/ (param_type q = PyStr "CommaDelimitedList"
                /\ (exists l, _value q = Some (PyList l))
                /\ value q = inl AttributeError)) params
  /\ (forall out w',
        main yaml_parse p out users w = (w', inr tt) ->
        Forall (fun q => param_type q = PyStr "String") params).
Proof.
  intros Hu H.
  assert (Hk : Forall (fun q =>
            (param_type q = PyStr "String" /\ exists s, _value q = Some (PyStr s))
            \/ (param_type q = PyStr "CommaDelimitedList"
                /\ (exists l, _value q = Some (PyList l))
                /\ value q = inl AttributeError)) params).
  { destruct (set_params_list_returns yaml_parse p users w w1 params H)
      as (w0 & items & decls & _ & _ & Hf).
    apply for_each_Forall2 in Hf. clear H.
    induction Hf as [|d q decls params (wa & wb & Hq) _ IH]; constructor; [|exact IH].
    exact (set_param_users_kinds users d q wa wb Hu Hq). }
  split; [exact Hk|].
  intros out w' Hmain. pose proof (main_cases yaml_parse p out users w) as Hc.
  rewrite Hmain in Hc. destruct Hc as (w1' & params' & entries & text & Hs & He & _).
  rewrite H in Hs. inversion Hs; subst params'.
  apply comprehension_entry_values in He.
  clear - Hk He. induction Hk as [|q params Hq _ IH]; constructor.
  - inversion He as [|? ? [v Hv] _]; subst.
    destruct Hq as [[Ht _] | (_ & _ & Ha)]; [exact Ht|]. rewrite Ha in Hv. discriminate.
  - apply IH. inversion He; assumption.
Qed.


End Collecting.

(** ** The template and the output are two paths *)

Lemma append_inj_l (a b c : string) : a +:+ b = a +:+ c -> b = c.
Proof.
  induction a as [|x a IH]; [intros H; exact H|].
  rewrite !append_cons. intros H. inversion H. auto.
Qed.

Lemma join_snoc_inj (sep : string) (ps : list string) (n m : string) :
  PyStr.join sep (ps ++ [n]) = PyStr.join sep (ps ++ [m]) -> n = m.
Proof.
  induction ps as [|x ps IH]; cbn [app].
  - unfold PyStr.join. simpl. auto.
  - rewrite !join_cons.
    destruct ps as [|y ps]; cbn [app] in *.
    + intros H. apply append_inj_l in H. apply append_inj_l in H.
      unfold PyStr.join in H. simpl in H. exact H.
    + intros H. apply append_inj_l in H. apply append_inj_l in H. auto.
Qed.

Lemma accepted_path_has_name (p : Path) :
  PyStr.endswith "yaml" (Pathlib.suffix p) || PyStr.endswith "yml" (Pathlib.suffix p)
  = true ->
  exists ps n, parts p = ps ++ [n] /\ n <> "params.json".
Proof.
  intros Ha. destruct (exists_last (l := parts p)) as (ps & n & Hp).
  - intros Hnil. unfold Pathlib.suffix, Pathlib.name in Ha. rewrite Hnil in Ha.
    discriminate.
  - exists ps, n. split; [exact Hp|]. intros ->.
    unfold Pathlib.suffix, Pathlib.name in Ha. rewrite Hp, last_last in Ha.
    discriminate.
Qed.

Lemma template_is_not_the_output (p : Path) :
  PyStr.endswith "yaml" (Pathlib.suffix p) || PyStr.endswith "yml" (Pathlib.suffix p)
  = true ->
  Pathlib.to_string p
  <> Pathlib.to_string (Pathlib.child (Pathlib.parent p) "params.json").
Proof.
  intros Ha. destruct (accepted_path_has_name p Ha) as (ps & n & Hp & Hn).
  unfold Pathlib.to_string, Pathlib.child, Pathlib.parent.
  cbn [root parts]. rewrite Hp, removelast_last.
  intros H. apply Hn.
  assert (H' : root p +:+ PyStr.join "/" (ps ++ [n])
               = root p +:+ PyStr.join "/" (ps ++ ["params.json"])).
  { destruct (root p); [|exact H].
    destruct ps; exact H. }
  apply append_inj_l in H'. exact (join_snoc_inj _ _ _ _ H').
Qed.

(** ** Runs from the first line to the last *)

Ltac fields :=
  unfold with_stdin, with_stdout, with_opened, with_files;
  cbn [fst snd stdin stdout files unwritable opened].

Ltac flatten_lists :=
  repeat first [rewrite <- app_assoc | progress cbn [app]].

Section Running.

Variable yaml_parse : string -> option pyval.

(** What a run leaves in the files: what was there, or that and the
    output file. *)
Lemma run_files (argv : list string) (w : world) :
  files (fst (run yaml_parse argv w)) = files w
  \/ exists arg users text,
       argv = arg :: users /\ accepted arg = true
       /\ files (fst (run yaml_parse argv w))
          = <[Pathlib.to_string (output_path arg) := text]> (files w).
Proof.
  destruct argv as [|arg users]; [left; reflexivity|].
  destruct (accepted arg) eqn:Ha.
  - rewrite (run_accepted yaml_parse arg users w Ha).
    pose proof (main_cases yaml_parse (Pathlib.of_string arg) (output_path arg)
                  users w) as Hc.
    destruct (main yaml_parse _ _ users w) as [w' [e|u]].
    + destruct Hc as [Hc | (w1 & params & entries & text & _ & _ & _ & Hf)].
      * left. destruct e; exact Hc.
      * right. exists arg, users, text. split; [reflexivity|]. split; [exact Ha|].
        destruct e; exact Hf.
    + right. destruct Hc as (w1 & params & entries & text & _ & _ & _ & Hf).
      exists arg, users, text. auto.
  - left. unfold run, validate_yaml_file. fold (accepted arg). rewrite Ha.
    reflexivity.
Qed.

(** X8: a run changes no path but that of [params.json] in the directory of
    the template: every other path holds behind the run what it held
    before, whether the run ends normally or not; the template is such
    a path, so a run never overwrites the template that it reads. *)
Theorem run_writes_no_other_path (arg : string) (users : list string) (w : world) :
  (forall q,
     q <> Pathlib.to_string (output_path arg) ->
     files (fst (run yaml_parse (arg :: users) w)) !! q = files w !! q)
  /\ files (fst (run yaml_parse (arg :: users) w)) !! template_path arg
     = files w !! template_path arg.
Proof.
  assert (H1 : forall q,
             q <> Pathlib.to_string (output_path arg) ->
             files (fst (run yaml_parse (arg :: users) w)) !! q = files w !! q).
  { intros q Hq.
    destruct (run_files (arg :: users) w) as [-> | (a & us & text & Ha & _ & ->)];
      [reflexivity|].
    inversion Ha; subst a us. apply lookup_insert_ne. congruence. }
  split; [exact H1|].
  destruct (run_files (arg :: users) w) as [-> | (a & us & text & Ha & Hacc & _)];
    [reflexivity|].
  inversion Ha; subst a us. apply H1.
  apply template_is_not_the_output. exact Hacc.
Qed.

(** The exceptions of the coercion of a text. *)
Lemma value_raises (param : Param) (raw : string) (e : exn) :
  value (set_value param (PyStr raw)) = inl e ->
  e = KeyError \/ e = TypeError \/ e = ValueError.
Proof.
  unfold value, TYPES_MAPPING_getitem. cbn [param_type _value set_value].
  destruct (param_type param) as [| | | |t| | |];
    try (intros H; inversion H; auto).
  revert H. cbn [Py.assoc Py.key_eqb TYPES_MAPPING].
  destruct (String.eqb "String" t); [discriminate|].
  destruct (String.eqb "Number" t).
  { unfold float, Py.float. destruct (Float64.of_string raw); [discriminate|].
    intros H; inversion H; auto. }
  destruct (String.eqb "CommaDelimitedList" t); [discriminate|].
  intros H; inversion H; auto.
Qed.

Lemma comprehension_entry_raises (decls : list Param) :
  forall (raws : list string) (e : exn),
    comprehension entry (stored decls raws) = inl e ->
    e = KeyError \/ e = TypeError \/ e = ValueError.
Proof.
  induction decls as [|d decls IH]; intros raws e; [discriminate|].
  destruct raws as [|raw raws]; [discriminate|].
  cbn [stored comprehension]. unfold entry at 1.
  destruct (value (set_value d (PyStr raw))) as [e'|v] eqn:Ev.
  - intros H. inversion H. subst e'. exact (value_raises d raw e Ev).
  - destruct (comprehension entry (stored decls raws)) as [e'|es] eqn:Ec;
      [|discriminate].
    intros H. inversion H. subst e'. exact (IH raws e Ec).
Qed.

(** The entries of records whose names are no dates. *)
Lemma undated_jsonable (items : list (key * pyval)) (params : list Param)
    (entries : list pyval) :
  complete items params entries ->
  Forall (fun q => (exists s, _value q = Some (PyStr s))
                   \/ (exists l, _value q = Some (PyList l))) params ->
  forallb (fun item => negb (dated (fst item))) items = true ->
  Forall jsonable entries.
Proof.
  intros [Hn H] Hst. revert items Hn.
  induction H as [|param e params entries (v & Hv & ->) _ IH]; intros items Hn Hd;
    [constructor|].
  destruct items as [|item items]; [discriminate|].
  cbn [map] in Hn. inversion Hn as [[Hk Hr]].
  cbn [forallb] in Hd. apply andb_true_iff in Hd as [Hd1 Hd2].
  inversion Hst as [|? ? Hs Hst']; subst.
  constructor; [|apply (IH Hst' items Hr Hd2)].
  apply entry_of_jsonable.
  - rewrite Hk. destruct (fst item); try constructor. discriminate.
  - eapply value_jsonable; eassumption.
Qed.

Lemma suffixed_nil (lines : list string) : map (suffixed []) lines = lines.
Proof. apply map_id. Qed.

(** X9: a run in which the operator types a line at every prompt, every
    record coerces and no declaration is named by a date, from the
    first line to the last: the declarations are shown and asked in the
    order of the mapping, then the summary names every record with its
    coerced value, then the output file is opened and gets the document
    of the entries of all records, and the run ends normally; the lines
    behind the last prompt stay on the keyboard. *)
Theorem run_with_every_line_typed (arg : string) (users : list string)
    (w w0 : world) (items : list (key * pyval)) (decls : list Param)
    (lines : list string) (rest : list keyboard) (entries : list pyval) :
  accepted arg = true ->
  extract_params_metadata yaml_parse (Pathlib.of_string arg) w
  = (w0, inr (PyDict items)) ->
  forallb (fun item => negb (dated (fst item))) items = true ->
  comprehension new_param items = inr decls ->
  users = [] \/ Forall (fun d => param_type d = PyStr "String") decls ->
  stdin w = typed lines ++ rest ->
  length lines = length decls ->
  comprehension entry (stored decls (map (suffixed users) lines)) = inr entries ->
  Pathlib.to_string (output_path arg) ∉ unwritable w ->
  snd (run yaml_parse (arg :: users) w) = Finished
  /\ stdin (fst (run yaml_parse (arg :: users) w)) = rest
  /\ stdout (fst (run yaml_parse (arg :: users) w))
     = stdout w ++ collection_header :: prompts decls
         ++ summary_header
         :: summary_lines (stored decls (map (suffixed users) lines))
         ++ [saving_line (output_path arg); finish_line]
  /\ files (fst (run yaml_parse (arg :: users) w))
     = <[Pathlib.to_string (output_path arg) := document 4 0 (PyList entries)]>
         (files w)
  /\ Json.loads (document 4 0 (PyList entries)) = Some (PyList entries)
  /\ opened (fst (run yaml_parse (arg :: users) w))
     = opened w ++ [template_path arg; Pathlib.to_string (output_path arg)].
Proof.
  intros Ha Hx Hnd Hd Hu Hin Hlen He Hw.
  pose proof (collection_stores yaml_parse (Pathlib.of_string arg) users w w0
                items decls lines rest Hx Hd Hu Hin Hlen) as Hs.
  assert (Hj : Forall jsonable entries).
  { destruct (set_params_list_names yaml_parse _ _ _ _ _ Hs) as (w0' & items' & Hx' & Hn).
    rewrite Hx in Hx'. inversion Hx'; subst items'.
    apply (undated_jsonable items _ entries (entries_complete items _ entries Hn He)
             (set_params_list_stored yaml_parse _ _ _ _ _ Hs) Hnd). }
  rewrite (run_accepted yaml_parse arg users w Ha).
  rewrite (main_after_collection yaml_parse _ (output_path arg) users w _ _ Hs), He.
  cbv zeta.
  rewrite bool_decide_eq_false_2 by exact Hw.
  rewrite (iterencode_jsonable 4 (PyList entries) (jsonable_list _ Hj) 0).
  fields. unfold template_path, finish_line, saving_line.
  repeat split; flatten_lists; try reflexivity.
  apply loads_document. constructor. exact Hj.
Qed.

(** X10: without extra tokens a line that does not coerce, and a type tag
    that is not supported, are reported only when every prompt was
    answered: the run ends with the exception of the first record that
    fails ([ValueError], [KeyError] or [TypeError]) right behind the
    header of the summary, with no file written and the output file not
    even opened. *)
Theorem failed_coercion_ends_the_run_behind_the_prompts (arg : string)
    (w w0 : world) (items : list (key * pyval)) (decls : list Param)
    (lines : list string) (rest : list keyboard) (e : exn) :
  accepted arg = true ->
  extract_params_metadata yaml_parse (Pathlib.of_string arg) w
  = (w0, inr (PyDict items)) ->
  comprehension new_param items = inr decls ->
  stdin w = typed lines ++ rest ->
  length lines = length decls ->
  comprehension entry (stored decls lines) = inl e ->
  snd (run yaml_parse [arg] w) = Traceback e
  /\ (e = KeyError \/ e = TypeError \/ e = ValueError)
  /\ stdin (fst (run yaml_parse [arg] w)) = rest
  /\ stdout (fst (run yaml_parse [arg] w))
     = stdout w ++ collection_header :: prompts decls ++ [summary_header]
  /\ files (fst (run yaml_parse [arg] w)) = files w
  /\ opened (fst (run yaml_parse [arg] w)) = opened w ++ [template_path arg].
Proof.
  intros Ha Hx Hd Hin Hlen He.
  pose proof (collection_stores yaml_parse (Pathlib.of_string arg) [] w w0
                items decls lines rest Hx Hd (or_introl eq_refl) Hin Hlen) as Hs.
  rewrite suffixed_nil in Hs.
  pose proof (comprehension_entry_raises decls lines e He) as Hk.
  rewrite (run_accepted yaml_parse arg [] w Ha).
  rewrite (main_after_collection yaml_parse _ (output_path arg) [] w _ _ Hs), He.
  destruct e; try (destruct Hk as [Hk | [Hk | Hk]]; discriminate Hk);
    fields; unfold template_path; repeat split; auto; flatten_lists; reflexivity.
Qed.

(** X11: an interruption at a prompt ends the run normally.  The prompt
    is reached when the declarations before it took their lines: any
    declaration without extra tokens, those of type [String] or
    [CommaDelimitedList] with them.  When the operator types such
    lines and then interrupts, the declarations up to the one that was
    being asked were shown, the line of the interruption is printed
    last, no file is written and the output file is not opened; the
    keys behind the interruption stay on the keyboard. *)
Theorem interruption_ends_the_run_normally (arg : string) (users : list string)
    (w w0 : world) (items : list (key * pyval)) (decls : list Param)
    (lines : list string) (rest : list keyboard) :
  accepted arg = true ->
  extract_params_metadata yaml_parse (Pathlib.of_string arg) w
  = (w0, inr (PyDict items)) ->
  comprehension new_param items = inr decls ->
  forallb (takes_tokens users) (firstn (length lines) decls) = true ->
  stdin w = typed lines ++ CtrlC :: rest ->
  length lines < length decls ->
  snd (run yaml_parse (arg :: users) w) = Finished
  /\ stdin (fst (run yaml_parse (arg :: users) w)) = rest
  /\ stdout (fst (run yaml_parse (arg :: users) w))
     = stdout w ++ collection_header
         :: prompts (firstn (S (length lines)) decls) ++ [terminated_line]
  /\ files (fst (run yaml_parse (arg :: users) w)) = files w
  /\ opened (fst (run yaml_parse (arg :: users) w)) = opened w ++ [template_path arg].
Proof.
  intros Ha Hx Hd Hu Hin Hlen.
  pose proof (collection_stops yaml_parse (Pathlib.of_string arg) users w w0
                items decls lines CtrlC rest Hx Hd Hu ltac:(discriminate) Hin Hlen)
    as Hs.
  rewrite (run_accepted yaml_parse arg users w Ha).
  rewrite (main_collection_raises yaml_parse _ (output_path arg) users w _ _ Hs).
  cbn [raised_by]. fields.
  unfold template_path, terminated_line. repeat split; flatten_lists; reflexivity.
Qed.

(** X12: the end of the input at a prompt is not caught.  The prompt is
    reached when the declarations before it took their lines: any
    declaration without extra tokens, those of type [String] or
    [CommaDelimitedList] with them.  When the operator types such
    lines and then ends the input, or the input runs out, the run ends
    with the traceback of an [EOFError] behind the prompt that was
    being asked; no file is written. *)
Theorem end_of_input_ends_the_run_with_a_traceback (arg : string)
    (users : list string) (w w0 : world) (items : list (key * pyval))
    (decls : list Param) (lines : list string) (tail : list keyboard) :
  accepted arg = true ->
  extract_params_metadata yaml_parse (Pathlib.of_string arg) w
  = (w0, inr (PyDict items)) ->
  comprehension new_param items = inr decls ->
  forallb (takes_tokens users) (firstn (length lines) decls) = true ->
  stdin w = typed lines ++ tail ->
  tail = [] \/ (exists rest, tail = CtrlD :: rest) ->
  length lines < length decls ->
  snd (run yaml_parse (arg :: users) w) = Traceback EOFError
  /\ stdin (fst (run yaml_parse (arg :: users) w)) = List.tl tail
  /\ stdout (fst (run yaml_parse (arg :: users) w))
     = stdout w ++ collection_header :: prompts (firstn (S (length lines)) decls)
  /\ files (fst (run yaml_parse (arg :: users) w)) = files w
  /\ opened (fst (run yaml_parse (arg :: users) w)) = opened w ++ [template_path arg].
Proof.
  intros Ha Hx Hd Hu Hin Ht Hlen.
  rewrite (run_accepted yaml_parse arg users w Ha).
  destruct Ht as [-> | [rest ->]].
  - rewrite app_nil_r in Hin.
    pose proof (collection_exhausted yaml_parse (Pathlib.of_string arg) users w w0
                  items decls lines Hx Hd Hu Hin Hlen) as Hs.
    rewrite (main_collection_raises yaml_parse _ (output_path arg) users w _ _ Hs).
    cbn [List.tl]. fields.
    unfold template_path. repeat split; flatten_lists; reflexivity.
  - pose proof (collection_stops yaml_parse (Pathlib.of_string arg) users w w0
                  items decls lines CtrlD rest Hx Hd Hu ltac:(discriminate) Hin Hlen)
      as Hs.
    rewrite (main_collection_raises yaml_parse _ (output_path arg) users w _ _ Hs).
    cbn [raised_by List.tl]. fields.
    unfold template_path. repeat split; flatten_lists; reflexivity.
Qed.

(** X13: a declaration that is no mapping, or a mapping without a [Type],
    ends the run before the first line is printed: the records are made
    before anything is shown, so the run ends with a [TypeError] or a
    [KeyError] right behind the reading of the template, whatever the
    other declarations are. *)
Theorem bad_declaration_ends_the_run_before_the_first_prompt (arg : string)
    (users : list string) (w w0 : world) (items : list (key * pyval)) :
  accepted arg = true ->
  extract_params_metadata yaml_parse (Pathlib.of_string arg) w
  = (w0, inr (PyDict items)) ->
  forallb well_declared items = false ->
  exists e,
    (e = KeyError \/ e = TypeError)
    /\ run yaml_parse (arg :: users) w
       = (with_opened (template_path arg) w, Traceback e).
Proof.
  intros Ha Hx Hb.
  pose proof (extract_world yaml_parse (Pathlib.of_string arg) w) as Hw.
  rewrite Hx in Hw. cbn [fst] in Hw. subst w0.
  rewrite (run_accepted yaml_parse arg users w Ha).
  pose proof (set_params_list_declared yaml_parse _ users w _ items Hx) as Hs.
  destruct (comprehension_new_param_fails items Hb) as [Hc|Hc]; rewrite Hc in Hs;
    rewrite (main_collection_raises yaml_parse _ (output_path arg) users w _ _ Hs);
    [exists KeyError | exists TypeError]; split; auto.
Qed.

Lemma extract_of_content (p : Path) (w : world) (content : string) :
  files w !! Pathlib.to_string p = Some content ->
  extract_params_metadata yaml_parse p w
  = (with_opened (Pathlib.to_string p) w,
     parse_yaml_params_section_content yaml_parse
       (PyStr.join EmptyString (get_params_section (lines_of content)))).
Proof.
  intros Hf. unfold extract_params_metadata, load_file, read_lines, bind, lift.
  rewrite Hf. reflexivity.
Qed.

(** X14: a section that does not load, or that loads as something else than
    a mapping, ends the run before the first line is printed: with the
    [YAMLError] of the parser in the first case, and in the second case
    (a text, a list, a number, or nothing at all) with the
    [AttributeError] of the call of [items]. *)
Theorem section_that_is_no_mapping_ends_the_run (arg : string)
    (users : list string) (w : world) (content : string) :
  accepted arg = true ->
  files w !! template_path arg = Some content ->
  (parse_yaml_params_section_content yaml_parse
     (PyStr.join EmptyString (get_params_section (lines_of content)))
   = inl YAMLError ->
   run yaml_parse (arg :: users) w
   = (with_opened (template_path arg) w, Traceback YAMLError))
  /\ (forall v,
        parse_yaml_params_section_content yaml_parse
          (PyStr.join EmptyString (get_params_section (lines_of content)))
        = inr v ->
        (forall items, v <> PyDict items) ->
        run yaml_parse (arg :: users) w
        = (with_opened (template_path arg) w, Traceback AttributeError)).
Proof.
  intros Ha Hf. pose proof (extract_of_content _ w content Hf) as Hx.
  rewrite (run_accepted yaml_parse arg users w Ha). split.
  - intros Hp. rewrite Hp in Hx.
    rewrite (main_collection_raises yaml_parse (Pathlib.of_string arg) (output_path arg)
               users w (with_opened (template_path arg) w) YAMLError);
      [reflexivity|].
    unfold set_params_list. unfold bind at 1. rewrite Hx. reflexivity.
  - intros v Hp Hv. rewrite Hp in Hx.
    rewrite (main_collection_raises yaml_parse (Pathlib.of_string arg) (output_path arg)
               users w (with_opened (template_path arg) w) AttributeError);
      [reflexivity|].
    unfold set_params_list. unfold bind at 1. rewrite Hx.
    unfold bind at 1. unfold lift at 1.
    destruct v as [| | | | | |items|]; try reflexivity.
    destruct (Hv items). reflexivity.
Qed.

(** X15: a section that loads as an empty mapping gives an empty list: the
    run asks nothing, prints its four lines and writes the two
    characters of an empty JSON list. *)
Theorem empty_mapping_gives_an_empty_list (arg : string) (users : list string)
    (w w0 : world) :
  accepted arg = true ->
  extract_params_metadata yaml_parse (Pathlib.of_string arg) w
  = (w0, inr (PyDict [])) ->
  Pathlib.to_string (output_path arg) ∉ unwritable w ->
  snd (run yaml_parse (arg :: users) w) = Finished
  /\ stdin (fst (run yaml_parse (arg :: users) w)) = stdin w
  /\ stdout (fst (run yaml_parse (arg :: users) w))
     = stdout w ++ [collection_header; summary_header;
                    saving_line (output_path arg); finish_line]
  /\ files (fst (run yaml_parse (arg :: users) w))
     = <[Pathlib.to_string (output_path arg) := "[]"]> (files w).
Proof.
  intros Ha Hx Hw.
  pose proof (collection_stores yaml_parse (Pathlib.of_string arg) users w w0
                [] [] [] (stdin w) Hx eq_refl (or_intror (List.Forall_nil _))
                eq_refl eq_refl) as Hs.
  rewrite (run_accepted yaml_parse arg users w Ha).
  rewrite (main_after_collection yaml_parse _ (output_path arg) users w _ _ Hs).
  cbn [stored map comprehension Json.iterencode]. cbv zeta. fields.
  rewrite bool_decide_eq_false_2 by exact Hw. fields.
  unfold finish_line, saving_line. repeat split; flatten_lists; reflexivity.
Qed.

End Running.

(** ** The names that the extension check accepts *)

Lemma contains_char_cons (c a : ascii) (s : string) :
  PyStr.contains (String c EmptyString) (String a s)
  = Ascii.eqb c a || PyStr.contains (String c EmptyString) s.
Proof. cbn [PyStr.contains PyStr.startswith]. rewrite andb_true_r. reflexivity. Qed.

Lemma rfind_none (c : ascii) (s : string) :
  PyStr.rfind c s = None <-> PyStr.contains (String c EmptyString) s = false.
Proof.
  induction s as [|a s IH]; [split; reflexivity|].
  rewrite contains_char_cons. cbn [PyStr.rfind].
  destruct (PyStr.rfind c s) as [i|].
  - split; [discriminate|]. intros H. apply orb_false_elim in H.
    destruct H as [_ H]. apply IH in H. discriminate.
  - rewrite (proj1 IH eq_refl), orb_false_r, Ascii.eqb_sym.
    destruct (Ascii.eqb c a); split; auto; discriminate.
Qed.

Lemma rfind_last (c : ascii) (stem ext : string) :
  PyStr.contains (String c EmptyString) ext = false ->
  PyStr.rfind c (stem +:+ String c ext) = Some (String.length stem).
Proof.
  intros He. apply rfind_none in He.
  induction stem as [|a stem IH].
  - rewrite append_nil_l. cbn [PyStr.rfind]. rewrite He, Ascii.eqb_refl. reflexivity.
  - rewrite append_cons. cbn [PyStr.rfind]. rewrite IH. reflexivity.
Qed.

Lemma rfind_some (c : ascii) (s : string) :
  forall i,
    PyStr.rfind c s = Some i ->
    exists ext,
      PyStr.drop i s = String c ext
      /\ PyStr.contains (String c EmptyString) ext = false
      /\ String.length (PyStr.take i s) = i.
Proof.
  induction s as [|a s IH]; intros i; [discriminate|].
  cbn [PyStr.rfind]. destruct (PyStr.rfind c s) as [j|] eqn:E.
  - intros H. inversion H; subst i. destruct (IH j eq_refl) as (ext & Hd & Hc & Hl).
    exists ext. cbn [PyStr.drop PyStr.take String.length]. auto.
  - destruct (Ascii.eqb a c) eqn:Ea; [|discriminate].
    intros H. inversion H; subst i. apply Ascii.eqb_eq in Ea. subst a.
    exists s. cbn [PyStr.drop PyStr.take String.length].
    split; [reflexivity|]. split; [apply rfind_none; exact E | reflexivity].
Qed.

Lemma drop_length_app (a b : string) : PyStr.drop (String.length a) (a +:+ b) = b.
Proof.
  induction a as [|x a IH]; [destruct b; reflexivity|].
  rewrite append_cons. exact IH.
Qed.

Lemma endswith_cons (p : string) (c : ascii) (s : string) :
  PyStr.endswith p s = true -> PyStr.endswith p (String c s) = true.
Proof. intros H. cbn [PyStr.endswith]. rewrite H. apply orb_true_r. Qed.

Lemma endswith_not_empty (p : string) :
  p <> EmptyString -> PyStr.endswith p EmptyString = false.
Proof. destruct p; [contradiction | reflexivity]. Qed.

(** The suffix of a [yaml_name], and the names that have an accepted
    suffix. *)
Lemma suffix_of_yaml_name (p : Path) (stem ext : string) :
  Pathlib.name p = stem +:+ "." +:+ ext ->
  stem <> EmptyString ->
  ext <> EmptyString ->
  PyStr.contains "." ext = false ->
  Pathlib.suffix p = "." +:+ ext.
Proof.
  intros Hn Hs He Hc. unfold Pathlib.suffix. rewrite Hn.
  change ("." +:+ ext) with (String "." ext).
  rewrite (rfind_last "." stem ext Hc), drop_length_app, length_append.
  destruct stem as [|a stem]; [contradiction|].
  destruct ext as [|b ext]; [contradiction|].
  cbn [String.length].
  replace (0 <? S (String.length stem))%nat with true
    by (symmetry; apply Nat.ltb_lt; lia).
  replace (S (String.length stem) <? S (String.length stem) + S (S (String.length ext)) - 1)%nat
    with true by (symmetry; apply Nat.ltb_lt; lia).
  reflexivity.
Qed.

Lemma accepted_suffix_name (p : Path) (tail : string) :
  (tail = "yaml" \/ tail = "yml") ->
  PyStr.endswith tail (Pathlib.suffix p) = true ->
  exists stem ext,
    Pathlib.name p = stem +:+ "." +:+ ext
    /\ stem <> EmptyString
    /\ PyStr.contains "." ext = false
    /\ PyStr.endswith tail ext = true.
Proof.
  intros Ht. unfold Pathlib.suffix.
  destruct (PyStr.rfind "." (Pathlib.name p)) as [i|] eqn:E;
    [|destruct Ht as [-> | ->]; discriminate].
  destruct (0 <? i)%nat eqn:E0; [|destruct Ht as [-> | ->]; discriminate].
  destruct (i <? String.length (Pathlib.name p) - 1)%nat;
    [|destruct Ht as [-> | ->]; discriminate].
  cbn [andb]. destruct (rfind_some "." _ i E) as (ext & Hd & Hc & Hl).
  rewrite Hd. intros He.
  exists (PyStr.take i (Pathlib.name p)), ext.
  split.
  { change ("." +:+ ext) with (String "." ext). rewrite <- Hd. symmetry.
    apply take_drop. }
  split.
  { intros Hnil. rewrite Hnil in Hl. cbn in Hl. subst i. discriminate. }
  split; [exact Hc|].
  destruct Ht as [-> | ->]; cbn [PyStr.endswith] in He; cbn [String.eqb] in He;
    exact He.
Qed.

(** X16: [validate_yaml_file] returns for the paths whose last component
    is a stem that is not empty, a dot and an extension without a dot
    that ends with yaml or yml, and for no other path; the directories
    of the path play no part.  What is returned is the directory of the
    path and the path itself.  So a name without a dot, the name
    [.yaml], which begins with its only dot, and a name that ends with
    a dot are refused with [IsNotYamlFile]. *)
Theorem validate_accepts_exactly_the_yaml_names :
  (forall p,
     yaml_name (Pathlib.name p) ->
     validate_yaml_file p = inr (Pathlib.parent p, p))
  /\ (forall p,
        ~ yaml_name (Pathlib.name p) ->
        validate_yaml_file p = inl IsNotYamlFile)
  /\ validate_yaml_file (Pathlib.of_string "stack.yaml/template") = inl IsNotYamlFile
  /\ validate_yaml_file (Pathlib.of_string "stack/.yaml") = inl IsNotYamlFile
  /\ validate_yaml_file (Pathlib.of_string "stack/template.yaml.") = inl IsNotYamlFile.
Proof.
  split; [|split; [|repeat split]]; intros p.
  - intros (stem & ext & Hn & Hs & Hc & He).
    assert (Hext : ext <> EmptyString).
    { intros ->. destruct He as [He|He]; discriminate He. }
    unfold validate_yaml_file.
    rewrite (suffix_of_yaml_name p stem ext Hn Hs Hext Hc).
    change ("." +:+ ext) with (String "." ext).
    destruct He as [He|He]; rewrite (endswith_cons _ "." ext He);
      rewrite ?orb_true_r; reflexivity.
  - intros Hno. unfold validate_yaml_file.
    destruct (PyStr.endswith "yaml" (Pathlib.suffix p)) eqn:E1.
    { exfalso. apply Hno.
      destruct (accepted_suffix_name p "yaml" (or_introl eq_refl) E1)
        as (stem & ext & Hn & Hs & Hc & He).
      exists stem, ext. auto. }
    destruct (PyStr.endswith "yml" (Pathlib.suffix p)) eqn:E2; [|reflexivity].
    exfalso. apply Hno.
    destruct (accepted_suffix_name p "yml" (or_intror eq_refl) E2)
      as (stem & ext & Hn & Hs & Hc & He).
    exists stem, ext. auto.
Qed.

(** ** The values that coerce *)

Lemma supported_tags (tag : pyval) :
  supported tag = true <->
  tag = PyStr "String" \/ tag = PyStr "Number" \/ tag = PyStr "CommaDelimitedList".
Proof.
  unfold supported. split.
  - destruct tag as [| | | |t| | |]; try discriminate.
    destruct (String.eqb_spec t "String") as [->|_]; [auto|].
    destruct (String.eqb_spec t "Number") as [->|_]; [auto|].
    destruct (String.eqb_spec t "CommaDelimitedList") as [->|_]; [auto|discriminate].
  - intros [-> | [-> | ->]]; reflexivity.
Qed.

(** X17: reading the value of a record returns for the three type tags of
    [TYPES_MAPPING] only, and for [Number] only when the stored text is
    a float for Python.  For any other tag it raises, whatever the
    text: [TypeError] when the tag is a list or a mapping, which cannot
    be a key, [KeyError] otherwise. *)
Theorem value_returns_for_supported_tags_only (param : Param) (raw : string) :
  ((exists v, value (set_value param (PyStr raw)) = inr v) <->
   param_type param = PyStr "String"
   \/ param_type param = PyStr "CommaDelimitedList"
   \/ (param_type param = PyStr "Number" /\ Float64.of_string raw <> None))
  /\ (supported (param_type param) = false ->
      value (set_value param (PyStr raw))
      = inl match param_type param with
            | PyList _ | PyDict _ => TypeError
            | _ => KeyError
            end).
Proof.
  unfold value, TYPES_MAPPING_getitem. cbn [param_type _value set_value].
  split.
  - split.
    + intros [v Hv]. destruct (param_type param) as [| | | |t| | |]; try discriminate.
      revert Hv. cbn [Py.assoc Py.key_eqb TYPES_MAPPING].
      destruct (String.eqb_spec "String" t) as [<-|_]; [auto|].
      destruct (String.eqb_spec "Number" t) as [<-|_].
      { unfold float, Py.float. destruct (Float64.of_string raw); [|discriminate].
        intros _. right. right. split; [reflexivity | discriminate]. }
      destruct (String.eqb_spec "CommaDelimitedList" t) as [<-|_]; [auto|discriminate].
    + intros [-> | [-> | [-> Hf]]].
      * eexists. reflexivity.
      * eexists. reflexivity.
      * cbn [Py.assoc Py.key_eqb TYPES_MAPPING String.eqb Ascii.eqb Bool.eqb].
        unfold float, Py.float.
        destruct (Float64.of_string raw) as [x|]; [|contradiction].
        eexists. reflexivity.
  - unfold supported. destruct (param_type param) as [| | | |t| | |]; try reflexivity.
    cbn [Py.assoc Py.key_eqb TYPES_MAPPING].
    rewrite (String.eqb_sym "String" t), (String.eqb_sym "Number" t),
      (String.eqb_sym "CommaDelimitedList" t).
    destruct (String.eqb t "String"); [discriminate|].
    destruct (String.eqb t "Number"); [discriminate|].
    destruct (String.eqb t "CommaDelimitedList"); [discriminate|reflexivity].
Qed.

(** X18: the text that the output file holds for a float, typed at the
    prompt of a [Number], coerces to that float again: Python reads its
    own shortest digits back, and the words NaN, Infinity and -Infinity
    too. *)
Theorem number_reads_back_its_json_text (n : string) (x : Float64.t) :
  Float64.canonical x = true ->
  value (record n "Number" (Json.floatstr x)) = inr (PyFloat x).
Proof.
  intros Hc. unfold value, record. cbn [param_type _value TYPES_MAPPING_getitem].
  cbn [Py.assoc Py.key_eqb TYPES_MAPPING String.eqb Ascii.eqb Bool.eqb].
  unfold float, Py.float.
  destruct x as [|neg|neg m e].
  - reflexivity.
  - destruct neg; reflexivity.
  - cbn [Json.floatstr]. rewrite (of_string_repr neg m e Hc). reflexivity.
Qed.

(** ** The characters of the output *)

Lemma ascii_text_app (a b : string) :
  ascii_text (a +:+ b) = ascii_text a && ascii_text b.
Proof.
  induction a as [|c a IH]; [reflexivity|].
  rewrite append_cons. cbn [ascii_text]. rewrite IH, andb_assoc. reflexivity.
Qed.

Lemma escape_ascii (c : ascii) : ascii_text (Json.escape c) = true.
Proof. destruct c as [[] [] [] [] [] [] [] []]; reflexivity. Qed.

Lemma escape_all_ascii (s : string) : ascii_text (Json.escape_all s) = true.
Proof.
  induction s as [|c s IH]; [reflexivity|].
  cbn [Json.escape_all]. rewrite ascii_text_app, escape_ascii, IH. reflexivity.
Qed.

Lemma encode_basestring_ascii_ascii (s : string) :
  ascii_text (Json.encode_basestring_ascii s) = true.
Proof.
  unfold Json.encode_basestring_ascii. cbn [ascii_text].
  rewrite ascii_text_app, escape_all_ascii. reflexivity.
Qed.

Lemma digit_ascii (c : ascii) : Float64.is_digit c = true -> is_ascii c = true.
Proof. destruct c as [[] [] [] [] [] [] [] []]; cbv; intros H; congruence. Qed.

Lemma all_digits_ascii (s : string) : all_digits s = true -> ascii_text s = true.
Proof.
  induction s as [|c s IH]; [reflexivity|]. cbn [all_digits ascii_text].
  intros H. apply andb_prop in H. destruct H as [Hc Hs].
  rewrite (digit_ascii c Hc), (IH Hs). reflexivity.
Qed.

Lemma numeral_ascii (ip fp : string) (ex : option (bool * string)) :
  is_numeral ip fp ex -> ascii_text (numeral ip fp ex) = true.
Proof.
  intros (_ & Hip & Hfp & Hex). unfold numeral.
  rewrite !ascii_text_app, (all_digits_ascii ip Hip).
  assert (H1 : ascii_text (fraction_text fp) = true).
  { unfold fraction_text. destruct fp as [|c fp]; [reflexivity|].
    rewrite ascii_text_app, (all_digits_ascii _ Hfp). reflexivity. }
  assert (H2 : ascii_text (exponent_part ex) = true).
  { unfold exponent_part. destruct ex as [[neg ds]|]; [|reflexivity].
    destruct Hex as [Hds _]. rewrite !ascii_text_app, (all_digits_ascii ds Hds).
    destruct neg; reflexivity. }
  rewrite H1, H2. reflexivity.
Qed.

Lemma floatstr_ascii (x : Float64.t) :
  Float64.canonical x = true -> ascii_text (Json.floatstr x) = true.
Proof.
  intros Hc. destruct x as [|neg|neg m e].
  - reflexivity.
  - destruct neg; reflexivity.
  - cbn [Json.floatstr].
    destruct (repr_numeral neg m e Hc) as (ip & fp & ex & Hr & Hn & _).
    rewrite Hr, ascii_text_app, (numeral_ascii ip fp ex Hn).
    destruct neg; reflexivity.
Qed.

Lemma spaces_ascii (n : nat) : ascii_text (Json.spaces n) = true.
Proof. induction n as [|n IH]; [reflexivity | exact IH]. Qed.

Lemma newline_indent_ascii (indent level : nat) :
  ascii_text (Json.newline_indent indent level) = true.
Proof. unfold Json.newline_indent. cbn [ascii_text]. apply spaces_ascii. Qed.

Lemma join_ascii (sep : string) (l : list string) :
  ascii_text sep = true ->
  Forall (fun s => ascii_text s = true) l ->
  ascii_text (PyStr.join sep l) = true.
Proof.
  intros Hsep. induction 1 as [|s l Hs Hl IH]; [reflexivity|].
  rewrite join_cons, ascii_text_app, Hs. destruct l as [|s' l]; [reflexivity|].
  rewrite ascii_text_app, Hsep, IH. reflexivity.
Qed.

Lemma int_repr_ascii (z : Z) : ascii_text (Json.int_repr z) = true.
Proof.
  unfold Json.int_repr, Py.int_repr.
  destruct (int_repr_text z) as (c & ds & -> & Hd & _).
  rewrite ascii_text_app, (all_digits_ascii _ Hd). destruct (z <? 0)%Z; reflexivity.
Qed.

Lemma document_ascii (indent : nat) (v : pyval) :
  jsonable v -> forall level, ascii_text (document indent level v) = true.
Proof.
  induction v as [|b|z|x|s|l IH|d IH|y m d'] using pyval_nested_ind; intros Hv level.
  - reflexivity.
  - destruct b; reflexivity.
  - apply int_repr_ascii.
  - inversion Hv; subst. apply floatstr_ascii. assumption.
  - apply encode_basestring_ascii_ascii.
  - inversion Hv as [| | | | |? Hl|]; subst. destruct l as [|y l]; [reflexivity|].
    cbn [document].
    rewrite !ascii_text_app, !newline_indent_ascii, join_ascii; [reflexivity | |].
    + rewrite ascii_text_app, newline_indent_ascii. reflexivity.
    + apply Forall_map.
      apply Forall_forall. intros y' Hin.
      apply (proj1 (Forall_forall _ _) IH y' Hin).
      exact (proj1 (Forall_forall _ _) Hl y' Hin).
  - inversion Hv as [| | | | | |d0 _ Hd Heq]; subst.
    destruct d0 as [|kv d0]; [reflexivity|].
    unfold Py.text_keys in IH. rewrite Forall_map in IH. cbn [snd] in IH.
    rewrite encode_dict_cons.
    rewrite !ascii_text_app, !newline_indent_ascii, join_ascii; [reflexivity | |].
    + unfold separator. rewrite ascii_text_app, newline_indent_ascii. reflexivity.
    + apply Forall_map.
      apply Forall_forall. intros kv' Hin. unfold member_text.
      rewrite !ascii_text_app, encode_basestring_ascii_ascii.
      apply (proj1 (Forall_forall _ _) IH kv' Hin).
      exact (proj1 (Forall_forall _ _) Hd kv' Hin).
  - inversion Hv.
Qed.

Section Characters.

Variable yaml_parse : string -> option pyval.

(** X19: whatever the operator types, the output file that [main] writes
    holds ASCII characters only: the encoder escapes every other
    character of a text, and a float is written with digits, a point,
    an exponent, or as one of the words NaN and Infinity. *)
Theorem output_is_plain_ascii (p out : Path) (users : list string)
    (w w' : world) :
  main yaml_parse p out users w = (w', inr tt) ->
  exists text,
    files w' !! Pathlib.to_string out = Some text /\ ascii_text text = true.
Proof.
  intros Hmain. pose proof (main_cases yaml_parse p out users w) as Hc.
  rewrite Hmain in Hc. destruct Hc as (w1 & params & entries & text & Hs & He & Hi & Hf).
  destruct (set_params_list_names yaml_parse _ _ _ _ _ Hs) as (w0 & items & Hx & Hn).
  pose proof (entries_complete items params entries Hn He) as Hcomp.
  pose proof (complete_jsonable items params entries text Hcomp
                (set_params_list_stored yaml_parse _ _ _ _ _ Hs) Hi) as Hj.
  exists text.
  split; [rewrite Hf; apply lookup_insert_eq|].
  rewrite (iterencode_jsonable 4 (PyList entries) (jsonable_list _ Hj) 0) in Hi.
  assert (Ht : text = document 4 0 (PyList entries)) by congruence.
  rewrite Ht. apply document_ascii. constructor. exact Hj.
Qed.

End Characters.

(** ** The scenarios *)

Lemma missing_template_ends_in_file_not_found_witness :
  run yaml_known ["stack/missing.yaml"; "dev"]
      (world_with "stack/template.yaml" template_env_count [Typed "prod"])
  = (with_opened (Pathlib.to_string (Pathlib.of_string "stack/missing.yaml"))
       (world_with "stack/template.yaml" template_env_count [Typed "prod"]),
     Traceback FileNotFoundError).
Proof.
  apply (missing_template_ends_in_file_not_found yaml_known "stack/missing.yaml"
           ["dev"] (world_with "stack/template.yaml" template_env_count [Typed "prod"])).
  - reflexivity.
  - reflexivity.
Defined.

Lemma parsed_text_is_a_piece_of_the_template_witness :
  exists before section after,
    extract_params_metadata yaml_known (Pathlib.of_string "t.yaml")
      (world_with "t.yaml" template_env_count [])
    = (with_opened (Pathlib.to_string (Pathlib.of_string "t.yaml"))
         (world_with "t.yaml" template_env_count []),
       parse_yaml_params_section_content yaml_known section)
    /\ section = PyStr.join EmptyString
                   (get_params_section (lines_of template_env_count))
    /\ PyStr.translate_newlines template_env_count = before +:+ section +:+ after
    /\ (section = EmptyString
        \/ exists head header,
             before = head +:+ header /\ mentions_parameters header = true
             /\ one_line header = true).
Proof.
  apply (parsed_text_is_a_piece_of_the_template yaml_known
           (Pathlib.of_string "t.yaml") (world_with "t.yaml" template_env_count [])
           template_env_count).
  reflexivity.
Defined.

Lemma collection_stores_the_typed_lines_witness :
  set_params_list yaml_known (Pathlib.of_string "t.yaml") ["dev"; "east"]
    (world_with "t.yaml" template_env [Typed "base"; Typed "more"])
  = (with_stdin [Typed "more"]
       (with_stdout
          (stdout (world_with "t.yaml" template_env [Typed "base"; Typed "more"])
             ++ collection_header :: prompts [declared "Env" "String"])
          (with_opened (Pathlib.to_string (Pathlib.of_string "t.yaml"))
             (world_with "t.yaml" template_env [Typed "base"; Typed "more"]))),
     inr (stored [declared "Env" "String"]
            (map (suffixed ["dev"; "east"]) ["base"]))).
Proof.
  apply (collection_stores_the_typed_lines yaml_known (Pathlib.of_string "t.yaml")
           ["dev"; "east"]
           (world_with "t.yaml" template_env [Typed "base"; Typed "more"])
           (with_opened "t.yaml"
              (world_with "t.yaml" template_env [Typed "base"; Typed "more"]))
           [(KStr "Env", PyDict [(KStr "Type", PyStr "String")])]).
  - vm_compute. reflexivity.
  - reflexivity.
  - right. repeat constructor.
  - reflexivity.
  - reflexivity.
Defined.

Lemma tokens_need_text_or_list_declarations_witness :
  Forall (fun q =>
            (param_type q = PyStr "String" /\ exists s, _value q = Some (PyStr s))
            \/ (param_type q = PyStr "CommaDelimitedList"
                /\ (exists l, _value q = Some (PyList l))
                /\ value q = inl AttributeError))
         [ set_value (declared "Tags" "CommaDelimitedList")
             (PyList [PyStr "a"; PyStr "b"; PyStr "-"; PyStr "d"; PyStr "e"; PyStr "v"]) ]
  /\ (forall out w',
        main yaml_known (Pathlib.of_string "t.yaml") out ["dev"]
          (world_with "t.yaml" template_tags [Typed "a,b"]) = (w', inr tt) ->
        Forall (fun q => param_type q = PyStr "String")
               [ set_value (declared "Tags" "CommaDelimitedList")
                   (PyList [PyStr "a"; PyStr "b"; PyStr "-"; PyStr "d"; PyStr "e";
                            PyStr "v"]) ]).
Proof.
  apply (tokens_need_text_or_list_declarations yaml_known (Pathlib.of_string "t.yaml")
           ["dev"] (world_with "t.yaml" template_tags [Typed "a,b"])
           (fst (set_params_list yaml_known (Pathlib.of_string "t.yaml") ["dev"]
                   (world_with "t.yaml" template_tags [Typed "a,b"])))).
  - discriminate.
  - vm_compute. reflexivity.
Defined.


Lemma run_writes_no_other_path_witness :
  files (fst (run yaml_known ["t.yaml"]
                (world_with "t.yaml" template_env [Typed "prod"])))
    !! "notes.txt"
  = files (world_with "t.yaml" template_env [Typed "prod"]) !! "notes.txt".
Proof.
  apply (proj1 (run_writes_no_other_path yaml_known "t.yaml" []
                  (world_with "t.yaml" template_env [Typed "prod"]))).
  vm_compute. discriminate.
Defined.

Lemma run_with_every_line_typed_witness :
  snd (run yaml_known ["t.yaml"]
         (world_with "t.yaml" template_env_count [Typed "prod"; Typed "3"; Typed "x"]))
  = Finished
  /\ stdin (fst (run yaml_known ["t.yaml"]
                   (world_with "t.yaml" template_env_count
                      [Typed "prod"; Typed "3"; Typed "x"])))
     = [Typed "x"]
  /\ stdout (fst (run yaml_known ["t.yaml"]
                    (world_with "t.yaml" template_env_count
                       [Typed "prod"; Typed "3"; Typed "x"])))
     = stdout (world_with "t.yaml" template_env_count
                 [Typed "prod"; Typed "3"; Typed "x"])
       ++ collection_header
       :: prompts [ {| name := PyStr "Env"; param_type := PyStr "String";
                       description := PyStr "deployment env"; _value := None |};
                    declared "Count" "Number" ]
       ++ summary_header
       :: summary_lines
            (stored [ {| name := PyStr "Env"; param_type := PyStr "String";
                         description := PyStr "deployment env"; _value := None |};
                      declared "Count" "Number" ]
               (map (suffixed []) ["prod"; "3"]))
       ++ [saving_line (output_path "t.yaml"); finish_line]
  /\ files (fst (run yaml_known ["t.yaml"]
                   (world_with "t.yaml" template_env_count
                      [Typed "prod"; Typed "3"; Typed "x"])))
     = <[Pathlib.to_string (output_path "t.yaml")
         := document 4 0
              (PyList [ entry_of (PyStr "Env") (PyStr "prod");
                        entry_of (PyStr "Count")
                          (PyFloat (Float64.Fin false (3 * 2 ^ 51) (-51))) ])]>
         (files (world_with "t.yaml" template_env_count
                   [Typed "prod"; Typed "3"; Typed "x"]))
  /\ Json.loads
       (document 4 0
          (PyList [ entry_of (PyStr "Env") (PyStr "prod");
                    entry_of (PyStr "Count")
                      (PyFloat (Float64.Fin false (3 * 2 ^ 51) (-51))) ]))
     = Some (PyList [ entry_of (PyStr "Env") (PyStr "prod");
                      entry_of (PyStr "Count")
                        (PyFloat (Float64.Fin false (3 * 2 ^ 51) (-51))) ])
  /\ opened (fst (run yaml_known ["t.yaml"]
                    (world_with "t.yaml" template_env_count
                       [Typed "prod"; Typed "3"; Typed "x"])))
     = opened (world_with "t.yaml" template_env_count
                 [Typed "prod"; Typed "3"; Typed "x"])
       ++ [template_path "t.yaml"; Pathlib.to_string (output_path "t.yaml")].
Proof.
  apply (run_with_every_line_typed yaml_known "t.yaml" []
           (world_with "t.yaml" template_env_count [Typed "prod"; Typed "3"; Typed "x"])
           (with_opened "t.yaml"
              (world_with "t.yaml" template_env_count
                 [Typed "prod"; Typed "3"; Typed "x"]))
           [ (KStr "Env", PyDict [ (KStr "Type", PyStr "String");
                              (KStr "Description", PyStr "deployment env") ]);
             (KStr "Count", PyDict [ (KStr "Type", PyStr "Number") ]) ]
           _ ["prod"; "3"] [Typed "x"]).
  - reflexivity.
  - vm_compute. reflexivity.
  - reflexivity.
  - reflexivity.
  - left. reflexivity.
  - reflexivity.
  - reflexivity.
  - vm_compute. reflexivity.
  - apply not_elem_of_empty.
Defined.

Lemma failed_coercion_ends_the_run_behind_the_prompts_witness :
  snd (run yaml_known ["t.yaml"]
         (world_with "t.yaml" template_env_count [Typed "prod"; Typed "abc"]))
  = Traceback ValueError
  /\ (ValueError = KeyError \/ ValueError = TypeError \/ ValueError = ValueError)
  /\ stdin (fst (run yaml_known ["t.yaml"]
                   (world_with "t.yaml" template_env_count
                      [Typed "prod"; Typed "abc"])))
     = []
  /\ stdout (fst (run yaml_known ["t.yaml"]
                    (world_with "t.yaml" template_env_count
                       [Typed "prod"; Typed "abc"])))
     = stdout (world_with "t.yaml" template_env_count [Typed "prod"; Typed "abc"])
       ++ collection_header
       :: prompts [ {| name := PyStr "Env"; param_type := PyStr "String";
                       description := PyStr "deployment env"; _value := None |};
                    declared "Count" "Number" ]
       ++ [summary_header]
  /\ files (fst (run yaml_known ["t.yaml"]
                   (world_with "t.yaml" template_env_count
                      [Typed "prod"; Typed "abc"])))
     = files (world_with "t.yaml" template_env_count [Typed "prod"; Typed "abc"])
  /\ opened (fst (run yaml_known ["t.yaml"]
                    (world_with "t.yaml" template_env_count
                       [Typed "prod"; Typed "abc"])))
     = opened (world_with "t.yaml" template_env_count [Typed "prod"; Typed "abc"])
       ++ [template_path "t.yaml"].
Proof.
  apply (failed_coercion_ends_the_run_behind_the_prompts yaml_known "t.yaml"
           (world_with "t.yaml" template_env_count [Typed "prod"; Typed "abc"])
           (with_opened "t.yaml"
              (world_with "t.yaml" template_env_count [Typed "prod"; Typed "abc"]))
           [ (KStr "Env", PyDict [ (KStr "Type", PyStr "String");
                              (KStr "Description", PyStr "deployment env") ]);
             (KStr "Count", PyDict [ (KStr "Type", PyStr "Number") ]) ]
           _ ["prod"; "abc"] []).
  - reflexivity.
  - vm_compute. reflexivity.
  - reflexivity.
  - reflexivity.
  - reflexivity.
  - vm_compute. reflexivity.
Defined.

Lemma interruption_ends_the_run_normally_witness :
  snd (run yaml_known ["t.yaml"; "dev"]
         (world_with "t.yaml" template_env_count [Typed "prod"; CtrlC; Typed "3"]))
  = Finished
  /\ stdin (fst (run yaml_known ["t.yaml"; "dev"]
                   (world_with "t.yaml" template_env_count
                      [Typed "prod"; CtrlC; Typed "3"])))
     = [Typed "3"]
  /\ stdout (fst (run yaml_known ["t.yaml"; "dev"]
                    (world_with "t.yaml" template_env_count
                       [Typed "prod"; CtrlC; Typed "3"])))
     = stdout (world_with "t.yaml" template_env_count
                 [Typed "prod"; CtrlC; Typed "3"])
       ++ collection_header
       :: prompts (firstn (S (length ["prod"]))
                     [ {| name := PyStr "Env"; param_type := PyStr "String";
                          description := PyStr "deployment env"; _value := None |};
                       declared "Count" "Number" ])
       ++ [terminated_line]
  /\ files (fst (run yaml_known ["t.yaml"; "dev"]
                   (world_with "t.yaml" template_env_count
                      [Typed "prod"; CtrlC; Typed "3"])))
     = files (world_with "t.yaml" template_env_count [Typed "prod"; CtrlC; Typed "3"])
  /\ opened (fst (run yaml_known ["t.yaml"; "dev"]
                    (world_with "t.yaml" template_env_count
                       [Typed "prod"; CtrlC; Typed "3"])))
     = opened (world_with "t.yaml" template_env_count
                 [Typed "prod"; CtrlC; Typed "3"])
       ++ [template_path "t.yaml"].
Proof.
  apply (interruption_ends_the_run_normally yaml_known "t.yaml" ["dev"]
           (world_with "t.yaml" template_env_count [Typed "prod"; CtrlC; Typed "3"])
           (with_opened "t.yaml"
              (world_with "t.yaml" template_env_count
                 [Typed "prod"; CtrlC; Typed "3"]))
           [ (KStr "Env", PyDict [ (KStr "Type", PyStr "String");
                                   (KStr "Description", PyStr "deployment env") ]);
             (KStr "Count", PyDict [ (KStr "Type", PyStr "Number") ]) ]
           _ ["prod"] [Typed "3"]).
  - reflexivity.
  - vm_compute. reflexivity.
  - reflexivity.
  - reflexivity.
  - reflexivity.
  - simpl. lia.
Defined.

Lemma end_of_input_ends_the_run_with_a_traceback_witness :
  snd (run yaml_known ["t.yaml"; "dev"]
         (world_with "t.yaml" template_env_count [Typed "prod"]))
  = Traceback EOFError
  /\ stdin (fst (run yaml_known ["t.yaml"; "dev"]
                   (world_with "t.yaml" template_env_count [Typed "prod"])))
     = List.tl []
  /\ stdout (fst (run yaml_known ["t.yaml"; "dev"]
                    (world_with "t.yaml" template_env_count [Typed "prod"])))
     = stdout (world_with "t.yaml" template_env_count [Typed "prod"])
       ++ collection_header
       :: prompts (firstn (S (length ["prod"]))
                     [ {| name := PyStr "Env"; param_type := PyStr "String";
                          description := PyStr "deployment env"; _value := None |};
                       declared "Count" "Number" ])
  /\ files (fst (run yaml_known ["t.yaml"; "dev"]
                   (world_with "t.yaml" template_env_count [Typed "prod"])))
     = files (world_with "t.yaml" template_env_count [Typed "prod"])
  /\ opened (fst (run yaml_known ["t.yaml"; "dev"]
                    (world_with "t.yaml" template_env_count [Typed "prod"])))
     = opened (world_with "t.yaml" template_env_count [Typed "prod"])
       ++ [template_path "t.yaml"].
Proof.
  apply (end_of_input_ends_the_run_with_a_traceback yaml_known "t.yaml" ["dev"]
           (world_with "t.yaml" template_env_count [Typed "prod"])
           (with_opened "t.yaml"
              (world_with "t.yaml" template_env_count [Typed "prod"]))
           [ (KStr "Env", PyDict [ (KStr "Type", PyStr "String");
                                   (KStr "Description", PyStr "deployment env") ]);
             (KStr "Count", PyDict [ (KStr "Type", PyStr "Number") ]) ]
           _ ["prod"] []).
  - reflexivity.
  - vm_compute. reflexivity.
  - reflexivity.
  - reflexivity.
  - reflexivity.
  - left. reflexivity.
  - simpl. lia.
Defined.

Lemma bad_declaration_ends_the_run_before_the_first_prompt_witness :
  exists e,
    (e = KeyError \/ e = TypeError)
    /\ run yaml_known ["t.yaml"; "dev"]
         (world_with "t.yaml" template_untyped [Typed "prod"])
       = (with_opened (template_path "t.yaml")
            (world_with "t.yaml" template_untyped [Typed "prod"]),
          Traceback e).
Proof.
  apply (bad_declaration_ends_the_run_before_the_first_prompt yaml_known "t.yaml"
           ["dev"] (world_with "t.yaml" template_untyped [Typed "prod"])
           (with_opened "t.yaml" (world_with "t.yaml" template_untyped [Typed "prod"]))
           [(KStr "Env", PyDict [(KStr "Description", PyStr "deployment env")])]).
  - reflexivity.
  - vm_compute. reflexivity.
  - reflexivity.
Defined.

Lemma section_that_is_no_mapping_ends_the_run_witness :
  run yaml_known ["t.yaml"] (world_with "t.yaml" template_broken [Typed "prod"])
  = (with_opened (template_path "t.yaml")
       (world_with "t.yaml" template_broken [Typed "prod"]),
     Traceback YAMLError).
Proof.
  apply (proj1 (section_that_is_no_mapping_ends_the_run yaml_known "t.yaml" []
                  (world_with "t.yaml" template_broken [Typed "prod"])
                  template_broken eq_refl eq_refl)).
  vm_compute. reflexivity.
Defined.

Lemma empty_mapping_gives_an_empty_list_witness :
  snd (run yaml_known ["t.yaml"]
         (world_with "t.yaml" template_empty_mapping [Typed "prod"]))
  = Finished
  /\ stdin (fst (run yaml_known ["t.yaml"]
                   (world_with "t.yaml" template_empty_mapping [Typed "prod"])))
     = stdin (world_with "t.yaml" template_empty_mapping [Typed "prod"])
  /\ stdout (fst (run yaml_known ["t.yaml"]
                    (world_with "t.yaml" template_empty_mapping [Typed "prod"])))
     = stdout (world_with "t.yaml" template_empty_mapping [Typed "prod"])
       ++ [collection_header; summary_header;
           saving_line (output_path "t.yaml"); finish_line]
  /\ files (fst (run yaml_known ["t.yaml"]
                   (world_with "t.yaml" template_empty_mapping [Typed "prod"])))
     = <[Pathlib.to_string (output_path "t.yaml") := "[]"]>
         (files (world_with "t.yaml" template_empty_mapping [Typed "prod"])).
Proof.
  apply (empty_mapping_gives_an_empty_list yaml_known "t.yaml" []
           (world_with "t.yaml" template_empty_mapping [Typed "prod"])
           (with_opened "t.yaml"
              (world_with "t.yaml" template_empty_mapping [Typed "prod"]))).
  - reflexivity.
  - vm_compute. reflexivity.
  - apply not_elem_of_empty.
Defined.

Lemma validate_accepts_exactly_the_yaml_names_witness :
  validate_yaml_file (Pathlib.of_string "stack/template.yaml")
  = inr (Pathlib.parent (Pathlib.of_string "stack/template.yaml"),
         Pathlib.of_string "stack/template.yaml").
Proof.
  apply (proj1 validate_accepts_exactly_the_yaml_names
           (Pathlib.of_string "stack/template.yaml")).
  exists "template", "yaml". split; [reflexivity|]. split; [discriminate|].
  split; [reflexivity|]. left. reflexivity.
Defined.

Lemma value_returns_for_supported_tags_only_witness :
  value (set_value (declared "Subnets" "List<AWS::EC2::Subnet::Id>")
           (PyStr "subnet-1"))
  = inl KeyError.
Proof.
  apply (proj2 (value_returns_for_supported_tags_only
                  (declared "Subnets" "List<AWS::EC2::Subnet::Id>") "subnet-1")).
  reflexivity.
Defined.

Lemma number_reads_back_its_json_text_witness :
  value (record "Count" "Number"
           (Json.floatstr (Float64.Fin false (3 * 2 ^ 51) (-51))))
  = inr (PyFloat (Float64.Fin false (3 * 2 ^ 51) (-51))).
Proof.
  apply (number_reads_back_its_json_text "Count"
           (Float64.Fin false (3 * 2 ^ 51) (-51))).
  reflexivity.
Defined.

Lemma output_is_plain_ascii_witness :
  exists text,
    files (fst (main yaml_known (Pathlib.of_string "t.yaml") (output_path "t.yaml") []
                  (world_with "t.yaml" template_env
                     [Typed (String "c" (String "a" (String "f"
                               (String (ascii_of_nat 233) EmptyString))))])))
      !! Pathlib.to_string (output_path "t.yaml") = Some text
    /\ ascii_text text = true.
Proof.
  apply (output_is_plain_ascii yaml_known (Pathlib.of_string "t.yaml")
           (output_path "t.yaml") []
           (world_with "t.yaml" template_env
              [Typed (String "c" (String "a" (String "f"
                        (String (ascii_of_nat 233) EmptyString))))])).
  vm_compute. reflexivity.
Defined.
